(** * krpc-telemetry: the telemetry acquisition and sampling core

    A shallow embedding of [krpc_telemetry/krpc_streams.py] and
    [krpc_telemetry/telemetry/strategy.py].  Python objects become records,
    mutation becomes explicit state passing, and a raised exception becomes
    the [Raise] outcome of a call that still returns the mutated state. *)

From Stdlib Require Import ZArith String Floats.SpecFloat Sorted.
From stdpp Require Import base option list gmap strings.

Local Open Scope Z_scope.

(** ** Telemetry kinds *)

(** Modelled from the spec: the enumeration [TelemetryType] lives in
    [krpc_telemetry/telemetry/__init__.py], which is not part of the sources
    at hand.  Its members are the thirteen names the factory and the strategy
    refer to, in the order of the spec's data model. *)
Inductive TelemetryType : Type :=
  | MET
  | ORBITAL_SPEED
  | SURFACE_SPEED
  | SURFACE_HORIZONTAL_SPEED
  | SURFACE_VERTICAL_SPEED
  | ORBITAL_APOAPSIS
  | ORBITAL_PERIAPSIS
  | G_FORCE
  | CENTER_OF_MASS
  | ATMOSPHERE_DENSITY
  | DYNAMIC_PRESSURE
  | STATIC_PRESSURE
  | AERODYNAMIC_FORCE.

#[global] Instance TelemetryType_eq_dec : EqDecision TelemetryType.
Proof. solve_decision. Defined.

Definition TelemetryType_members : list TelemetryType :=
  [ MET; ORBITAL_SPEED; SURFACE_SPEED; SURFACE_HORIZONTAL_SPEED;
    SURFACE_VERTICAL_SPEED; ORBITAL_APOAPSIS; ORBITAL_PERIAPSIS; G_FORCE;
    CENTER_OF_MASS; ATMOSPHERE_DENSITY; DYNAMIC_PRESSURE; STATIC_PRESSURE;
    AERODYNAMIC_FORCE ].

Definition TelemetryType_to_nat (t : TelemetryType) : nat :=
  match t with
  | MET => 0 | ORBITAL_SPEED => 1 | SURFACE_SPEED => 2
  | SURFACE_HORIZONTAL_SPEED => 3 | SURFACE_VERTICAL_SPEED => 4
  | ORBITAL_APOAPSIS => 5 | ORBITAL_PERIAPSIS => 6 | G_FORCE => 7
  | CENTER_OF_MASS => 8 | ATMOSPHERE_DENSITY => 9 | DYNAMIC_PRESSURE => 10
  | STATIC_PRESSURE => 11 | AERODYNAMIC_FORCE => 12
  end%nat.

Definition TelemetryType_of_nat (n : nat) : option TelemetryType :=
  TelemetryType_members !! n.

#[global] Program Instance TelemetryType_countable : Countable TelemetryType :=
  inj_countable TelemetryType_to_nat TelemetryType_of_nat _.
Next Obligation. by intros []. Qed.

(** A Python value that is not a member of the enumeration: a tuple of such
    values, or any other object, of which only what [str()] and [repr()]
    return for it matters to the code. *)
#[local] Unset Elimination Schemes.
Inductive PyObj : Type :=
  | OAtom (str_ repr_ : string)
  | OTuple (items : list PyObj).
#[local] Set Elimination Schemes.

(** A value handed to [KrpcTelemetryStreamFactory.create].  Python does not
    enforce the annotation [telemetry_type: TelemetryType], so the argument is
    either a member of the enumeration or some other value, one that [==]
    tells apart from every member. *)
Inductive PyKind : Type :=
  | Member (t : TelemetryType)
  | Foreign (value : PyObj).

(** ** Exceptions and outcomes *)

Inductive PyExc : Type :=
  | ValueError (msg : string)
  | TypeError
  | KeyError (key : TelemetryType)
  | OverflowError
  | ZeroDivisionError
  | AttributeError
  | ExternalError (origin : string).

Inductive result (A : Type) : Type :=
  | Ok (a : A)
  | Raise (e : PyExc).
Arguments Ok {A} a.
Arguments Raise {A} e.

#[global] Instance result_ret : MRet result := @Ok.
#[global] Instance result_bind : MBind result := fun A B f r =>
  match r with
  | Ok a => f a
  | Raise e => Raise e
  end.
#[global] Instance result_fmap : FMap result := fun A B f r =>
  match r with
  | Ok a => Ok (f a)
  | Raise e => Raise e
  end.

Definition raised {A} (r : result A) : bool :=
  match r with Ok _ => false | Raise _ => true end.

(** A call that mutates state of type [S]: the state comes back whether the
    call returns or raises, as the mutations made before a [raise] persist. *)
Definition Eff (S A : Type) : Type := S -> S * result A.

#[global] Instance Eff_ret {S} : MRet (Eff S) := fun A a s => (s, Ok a).
#[global] Instance Eff_bind {S} : MBind (Eff S) := fun A B f m s =>
  match m s with
  | (s', Ok a) => f a s'
  | (s', Raise e) => (s', Raise e)
  end.

Definition eff_raise {S A} (e : PyExc) : Eff S A := fun s => (s, Raise e).
Definition eff_get {S} : Eff S S := fun s => (s, Ok s).
Definition eff_modify {S} (f : S -> S) : Eff S () := fun s => (f s, Ok ()).
Definition eff_lift {S A} (r : result A) : Eff S A := fun s => (s, r).

(** ** Python floats and the numeric builtins the transforms use *)

Module PyFloat.

(** A Python float is an IEEE-754 binary64 number. *)
Definition prec : Z := 53.
Definition emax : Z := 1024.

Definition of_int (z : Z) : result spec_float :=
  match binary_normalize prec emax z 0 false with
  | S754_infinity _ => Raise OverflowError
  | x => Ok x
  end.

(** The float denoted by the decimal literal [n / 10^decimals], e.g.
    [literal 1299 2] for [12.99]: the nearest binary64 number. *)
Definition literal (n : Z) (decimals : N) : spec_float :=
  match n with
  | Z0 => S754_zero false
  | _ => SFdiv prec emax
           (S754_finite (n <? 0) (Z.to_pos (Z.abs n)) 0)
           (S754_finite false (Z.to_pos (10 ^ Z.of_N decimals)) 0)
  end.

(** [math.floor(x)] *)
Definition floor (x : spec_float) : result Z :=
  match x with
  | S754_zero _ => Ok 0
  | S754_finite s m e => Ok (Z.shiftl (cond_Zopp s (Zpos m)) e)
  | S754_infinity _ => Raise OverflowError
  | S754_nan => Raise (ValueError "cannot convert float NaN to integer")
  end.

(** Nearest integer to [n / d] for [0 < d], ties to even. *)
Definition div_half_even (n d : Z) : Z :=
  let q := n / d in
  match 2 * (n mod d) ?= d with
  | Lt => q
  | Gt => q + 1
  | Eq => if Z.even q then q else q + 1
  end.

Definition NDIGITS_MAX : Z := 323.
Definition NDIGITS_MIN : Z := -308.

(** [round(x, ndigits)] on a float: the exact value of [x] is rounded to
    [ndigits] decimals, ties to even, and the decimal result is converted
    back to the nearest float. *)
Definition round (x : spec_float) (ndigits : Z) : result spec_float :=
  match x with
  | S754_finite s m e =>
      if NDIGITS_MAX <? ndigits then Ok x
      else if ndigits <? NDIGITS_MIN then Ok (S754_zero s)
      else
        let num := Zpos m * 2 ^ Z.max e 0 * 10 ^ Z.max ndigits 0 in
        let den := 2 ^ Z.max (- e) 0 * 10 ^ Z.max (- ndigits) 0 in
        match div_half_even num den * 10 ^ Z.max (- ndigits) 0 with
        | Zpos k =>
            match SFdiv prec emax (S754_finite s k 0)
                    (S754_finite false (Z.to_pos (10 ^ Z.max ndigits 0)) 0) with
            | S754_infinity _ => Raise OverflowError
            | r => Ok r
            end
        | _ => Ok (S754_zero s)
        end
  | _ => Ok x
  end.

(** [x / y] on floats *)
Definition truediv (x y : spec_float) : result spec_float :=
  match y with
  | S754_zero _ => Raise ZeroDivisionError
  | _ => Ok (SFdiv prec emax x y)
  end.

(** [a / b] on ints: the correctly rounded quotient *)
Definition int_truediv (a b : Z) : result spec_float :=
  match a, b with
  | _, Z0 => Raise ZeroDivisionError
  | Z0, _ => Ok (S754_zero (b <? 0))
  | _, _ =>
      match SFdiv prec emax
              (S754_finite (a <? 0) (Z.to_pos (Z.abs a)) 0)
              (S754_finite (b <? 0) (Z.to_pos (Z.abs b)) 0) with
      | S754_infinity _ => Raise OverflowError
      | r => Ok r
      end
  end.

End PyFloat.

(** ** Values carried by streams and snapshots *)

Inductive PyVal : Type :=
  | VInt (i : Z)
  | VFloat (x : spec_float)
  | VTuple (xs : list spec_float).

Definition is_scalar (v : PyVal) : bool :=
  match v with
  | VInt _ | VFloat _ => true
  | VTuple _ => false
  end.

(** [math.floor(value)] *)
Definition math_floor (value : PyVal) : result PyVal :=
  match value with
  | VInt i => Ok (VInt i)
  | VFloat x => VInt <$> PyFloat.floor x
  | VTuple _ => Raise TypeError
  end.

(** [round(value, ndigits)] *)
Definition py_round (value : PyVal) (ndigits : Z) : result PyVal :=
  match value with
  | VInt i =>
      if 0 <=? ndigits then Ok (VInt i)
      else Ok (VInt (PyFloat.div_half_even i (10 ^ (- ndigits)) * 10 ^ (- ndigits)))
  | VFloat x => VFloat <$> PyFloat.round x ndigits
  | VTuple _ => Raise TypeError
  end.

(** [value / d] for an int literal [d] *)
Definition py_truediv (value : PyVal) (d : Z) : result PyVal :=
  match value with
  | VInt i => VFloat <$> PyFloat.int_truediv i d
  | VFloat x => y ← PyFloat.of_int d; VFloat <$> PyFloat.truediv x y
  | VTuple _ => Raise TypeError
  end.

(** ** Insertion-ordered dictionaries

    [KrpcTelemetryStreamCollection._streams] is a Python [dict] that the code
    iterates with [.values()]: iteration follows insertion order, and that
    order sequences the remote calls, so the dictionary is kept as an
    association list in insertion order. *)

Module PyDict.
Section PyDict.
Context {K V : Type} `{EqDecision K}.

Definition t : Type := list (K * V).

Definition empty : t := [].

Definition keys (d : t) : list K := d.*1.
Definition values (d : t) : list V := d.*2.

(** [k in d.keys()] *)
Definition contains (k : K) (d : t) : bool := bool_decide (k ∈ keys d).

(** [d.get(k)] *)
Fixpoint get (k : K) (d : t) : option V :=
  match d with
  | [] => None
  | (k', v) :: d' => if decide (k = k') then Some v else get k d'
  end.

(** [d[k] = v]: an existing key keeps its position *)
Fixpoint setitem (k : K) (v : V) (d : t) : t :=
  match d with
  | [] => [(k, v)]
  | (k', v') :: d' =>
      if decide (k = k') then (k, v) :: d' else (k', v') :: setitem k v d'
  end.

(** [d.clear()] *)
Definition clear (d : t) : t := [].
End PyDict.
Arguments t : clear implicits.
End PyDict.

(** ** The remote-procedure-call transport

    The kRPC client is an external collaborator.  Of the connection and the
    vessel the model keeps what the code does to them: the streams it adds,
    rates, starts and removes, the flight objects it asks for, and the time
    it sleeps.  What a stream yields when it is called is left to the
    transport ([w_feed]), which may also fail. *)

Inductive ReferenceFrame : Type :=
  | BodyReferenceFrame      (* [vessel.orbit.body.reference_frame] *)
  | VesselReferenceFrame.   (* [vessel.reference_frame] *)

Inductive RemoteObject : Type :=
  | Vessel
  | Orbit                                     (* [vessel.orbit] *)
  | Flight (frame : ReferenceFrame) (serial : nat).

Record Stream : Type := mkStream {
  target : option RemoteObject;   (* [None] is Python's [None] *)
  attribute : string;
  rate : option PyVal;
  started : bool;
  removed : bool
}.

Record World : Type := mkWorld {
  w_streams : list Stream;             (* a stream is named by its position *)
  w_flights : list ReferenceFrame;     (* the [vessel.flight(frame)] calls made *)
  w_slept : Z;                         (* seconds spent in [sleep] *)
  w_feed : Stream -> result PyVal      (* what calling a stream yields *)
}.

Definition with_streams (f : list Stream -> list Stream) (w : World) : World :=
  mkWorld (f (w_streams w)) (w_flights w) (w_slept w) (w_feed w).

(** [vessel.flight(frame)] *)
Definition vessel_flight (frame : ReferenceFrame) : Eff World RemoteObject :=
  fun w =>
    (mkWorld (w_streams w) (w_flights w ++ [frame]) (w_slept w) (w_feed w),
     Ok (Flight frame (length (w_flights w)))).

(** [conn.add_stream(getattr, obj, attr)] *)
Definition add_stream (obj : option RemoteObject) (attr : string) : Eff World nat :=
  fun w =>
    (with_streams (fun l => l ++ [mkStream obj attr None false false]) w,
     Ok (length (w_streams w))).

(** [stream.rate = rate] *)
Definition stream_set_rate (id : nat) (r : PyVal) : Eff World () :=
  eff_modify (with_streams
    (alter (fun s => mkStream (target s) (attribute s) (Some r) (started s) (removed s)) id)).

(** [stream.start(False)] *)
Definition stream_start (id : nat) : Eff World () :=
  eff_modify (with_streams
    (alter (fun s => mkStream (target s) (attribute s) (rate s) true (removed s)) id)).

(** [stream.remove()] *)
Definition stream_remove (id : nat) : Eff World () :=
  eff_modify (with_streams
    (alter (fun s => mkStream (target s) (attribute s) (rate s) (started s) true) id)).

(** [stream()] *)
Definition stream_call (id : nat) (w : World) : result PyVal :=
  match w_streams w !! id with
  | Some s => w_feed w s
  | None => Raise (ExternalError "stream")
  end.

(** [sleep(secs)] *)
Definition sleep (secs : Z) : Eff World () :=
  eff_modify (fun w => mkWorld (w_streams w) (w_flights w) (w_slept w + secs) (w_feed w)).

(** ** [class KrpcTelemetryStream] *)

Record KrpcTelemetryStream : Type := mkKrpcTelemetryStream {
  _telemetry_type : TelemetryType;
  _stream : nat;
  _transform_function : option (PyVal -> result PyVal)
}.

Module KrpcTelemetryStream_.

Definition __init__ (telemetry_type : TelemetryType) (stream : nat) (rate : PyVal)
    (transform_function : option (PyVal -> result PyVal)) : Eff World KrpcTelemetryStream :=
  _ ← stream_set_rate stream rate;
  mret (mkKrpcTelemetryStream telemetry_type stream transform_function).

Definition start (self : KrpcTelemetryStream) : Eff World () :=
  stream_start (_stream self).

Definition telemetry_type (self : KrpcTelemetryStream) : TelemetryType :=
  _telemetry_type self.

Definition value (self : KrpcTelemetryStream) (w : World) : result PyVal :=
  match _transform_function self with
  | Some transform_function => raw ← stream_call (_stream self) w; transform_function raw
  | None => stream_call (_stream self) w
  end.

Definition destroy (self : KrpcTelemetryStream) : Eff World () :=
  stream_remove (_stream self).

End KrpcTelemetryStream_.

(** ** [class KrpcTelemetryStreamCollection] *)

Record KrpcTelemetryStreamCollection : Type := mkKrpcTelemetryStreamCollection {
  _streams : PyDict.t TelemetryType KrpcTelemetryStream
}.

(** [for telemetry in values: body(telemetry)] *)
Fixpoint for_each {S A} (body : A -> Eff S ()) (l : list A) : Eff S () :=
  match l with
  | [] => mret ()
  | a :: l' => _ ← body a; for_each body l'
  end.

Module KrpcTelemetryStreamCollection_.

Definition __init__ : KrpcTelemetryStreamCollection :=
  mkKrpcTelemetryStreamCollection PyDict.empty.

Definition register_telemetry (telemetry : KrpcTelemetryStream)
    (self : KrpcTelemetryStreamCollection) : KrpcTelemetryStreamCollection :=
  if negb (PyDict.contains (KrpcTelemetryStream_.telemetry_type telemetry) (_streams self))
  then mkKrpcTelemetryStreamCollection
         (PyDict.setitem (KrpcTelemetryStream_.telemetry_type telemetry) telemetry (_streams self))
  else self.

Definition has_telemetry (telemetry_type : TelemetryType)
    (self : KrpcTelemetryStreamCollection) : bool :=
  PyDict.contains telemetry_type (_streams self).

Definition start_telemetries (self : KrpcTelemetryStreamCollection) : Eff World () :=
  _ ← for_each KrpcTelemetryStream_.start (PyDict.values (_streams self));
  sleep 2.

Definition destroy_telemetries :
    Eff (KrpcTelemetryStreamCollection * World) () :=
  fun '(self, w) =>
    match for_each KrpcTelemetryStream_.destroy (PyDict.values (_streams self)) w with
    | (w', Ok _) => ((mkKrpcTelemetryStreamCollection (PyDict.clear (_streams self)), w'), Ok ())
    | (w', Raise e) => ((self, w'), Raise e)
    end.

(** The loop of [collect_data], over the handles still to be read. *)
Fixpoint collect_loop (todo : list KrpcTelemetryStream) (w : World)
    (results : gmap TelemetryType PyVal) : result (gmap TelemetryType PyVal) :=
  match todo with
  | [] => Ok results
  | telemetry :: todo' =>
      v ← KrpcTelemetryStream_.value telemetry w;
      collect_loop todo' w (<[KrpcTelemetryStream_.telemetry_type telemetry := v]> results)
  end.

Definition collect_data (self : KrpcTelemetryStreamCollection) (w : World)
    : result (gmap TelemetryType PyVal) :=
  collect_loop (PyDict.values (_streams self)) w ∅.

End KrpcTelemetryStreamCollection_.

(** ** [class KrpcTelemetryStreamFactory] *)

(** [telemetry_type == TelemetryType.X]: a member equals itself only, and
    no other value equals a member. *)
#[global] Instance PyKind_eq_member_dec (k : PyKind) (t : TelemetryType) :
  Decision (k = Member t).
Proof.
  refine (match k with
          | Member t' => cast_if (decide (t' = t))
          | Foreign _ => right _
          end); congruence.
Defined.

Definition TelemetryType_name (t : TelemetryType) : string :=
  match t with
  | MET => "MET" | ORBITAL_SPEED => "ORBITAL_SPEED"
  | SURFACE_SPEED => "SURFACE_SPEED"
  | SURFACE_HORIZONTAL_SPEED => "SURFACE_HORIZONTAL_SPEED"
  | SURFACE_VERTICAL_SPEED => "SURFACE_VERTICAL_SPEED"
  | ORBITAL_APOAPSIS => "ORBITAL_APOAPSIS"
  | ORBITAL_PERIAPSIS => "ORBITAL_PERIAPSIS" | G_FORCE => "G_FORCE"
  | CENTER_OF_MASS => "CENTER_OF_MASS"
  | ATMOSPHERE_DENSITY => "ATMOSPHERE_DENSITY"
  | DYNAMIC_PRESSURE => "DYNAMIC_PRESSURE"
  | STATIC_PRESSURE => "STATIC_PRESSURE"
  | AERODYNAMIC_FORCE => "AERODYNAMIC_FORCE"
  end.

(** [repr(value)]: a tuple shows the [repr] of its items between
    parentheses, with a comma after a single item. *)
Fixpoint py_repr (value : PyObj) : string :=
  match value with
  | OAtom _ r => r
  | OTuple items =>
      match items with
      | [] => "()"
      | x :: rest =>
          match rest with
          | [] => "(" ++ py_repr x ++ ",)"
          | _ =>
              ("(" ++ py_repr x ++
               (fix tail (l : list PyObj) : string :=
                  match l with
                  | [] => ""
                  | y :: l' => ", " ++ py_repr y ++ tail l'
                  end) rest ++ ")")%string
          end
      end
  end.

(** [str(value)]: a tuple has no [__str__] of its own and shows its [repr]. *)
Definition py_str (value : PyObj) : string :=
  match value with
  | OAtom s _ => s
  | OTuple _ => py_repr value
  end.

(** ["Telemetry %s unknown" % telemetry_type], the argument of the
    [ValueError] of line 182.  The [%] operator takes a tuple on its right as
    the list of arguments and anything else as the one argument; the format
    has one [%s], so a tuple of one item renders that item, and a tuple of
    another length raises [TypeError]. *)
Definition format_unknown (telemetry_type : PyKind) : result string :=
  match telemetry_type with
  | Member t => Ok ("Telemetry TelemetryType." ++ TelemetryType_name t ++ " unknown")%string
  | Foreign (OTuple [arg]) => Ok ("Telemetry " ++ py_str arg ++ " unknown")%string
  | Foreign (OTuple _) => Raise TypeError
  | Foreign value => Ok ("Telemetry " ++ py_str value ++ " unknown")%string
  end.

Record KrpcTelemetryStreamFactory : Type := mkKrpcTelemetryStreamFactory {
  _default_rate : PyVal;
  _orbit_reference_fight : option RemoteObject;
  _vessel_reference_flight : option RemoteObject
}.

Module KrpcTelemetryStreamFactory_.

Definition St : Type := KrpcTelemetryStreamFactory * World.

Definition __init__ (default_rate : PyVal) : KrpcTelemetryStreamFactory :=
  mkKrpcTelemetryStreamFactory default_rate None None.

(** A remote call made on behalf of the factory. *)
Definition remote {A} (m : Eff World A) : Eff St A :=
  fun '(self, w) => let '(w', r) := m w in ((self, w'), r).

(** The first statement of [create]: kRPC's remote objects define neither
    [__bool__] nor [__len__], so [not self._orbit_reference_fight] holds
    exactly when the field is still [None]. *)
Definition ensure_flights : Eff St () :=
  '(self, _) ← eff_get;
  if negb (bool_decide (is_Some (_orbit_reference_fight self))) then
    f ← remote (vessel_flight BodyReferenceFrame);
    _ ← eff_modify (fun '(self, w) =>
          (mkKrpcTelemetryStreamFactory (_default_rate self) (Some f)
             (_vessel_reference_flight self), w));
    g ← remote (vessel_flight VesselReferenceFrame);
    eff_modify (fun '(self, w) =>
          (mkKrpcTelemetryStreamFactory (_default_rate self)
             (_orbit_reference_fight self) (Some g), w))
  else mret ().

(** [KrpcTelemetryStream(kind, self._conn.add_stream(getattr, obj, attr),
    self._default_rate, transform)] *)
Definition new_stream (kind : TelemetryType) (obj : option RemoteObject)
    (attr : string) (transform : option (PyVal -> result PyVal))
    : Eff St KrpcTelemetryStream :=
  '(self, _) ← eff_get;
  id ← remote (add_stream obj attr);
  remote (KrpcTelemetryStream_.__init__ kind id (_default_rate self) transform).

Definition create (telemetry_type : PyKind) : Eff St KrpcTelemetryStream :=
  _ ← ensure_flights;
  '(self, _) ← eff_get;
  if decide (telemetry_type = Member MET) then
    new_stream MET (Some Vessel) "met"
      (Some (fun value => math_floor value))
  else if decide (telemetry_type = Member ORBITAL_SPEED) then
    new_stream ORBITAL_SPEED (Some Orbit) "speed"
      (Some (fun value => py_round value 1))
  else if decide (telemetry_type = Member SURFACE_SPEED) then
    new_stream SURFACE_SPEED (_orbit_reference_fight self) "speed"
      (Some (fun value => py_round value 1))
  else if decide (telemetry_type = Member SURFACE_HORIZONTAL_SPEED) then
    new_stream SURFACE_HORIZONTAL_SPEED (_orbit_reference_fight self) "horizontal_speed"
      (Some (fun value => py_round value 1))
  else if decide (telemetry_type = Member SURFACE_VERTICAL_SPEED) then
    new_stream SURFACE_VERTICAL_SPEED (_orbit_reference_fight self) "vertical_speed"
      (Some (fun value => py_round value 1))
  else if decide (telemetry_type = Member ORBITAL_APOAPSIS) then
    new_stream ORBITAL_APOAPSIS (Some Orbit) "apoapsis_altitude"
      (Some (fun value => q ← py_truediv value 1000; py_round q 0))
  else if decide (telemetry_type = Member ORBITAL_PERIAPSIS) then
    new_stream ORBITAL_PERIAPSIS (Some Orbit) "periapsis_altitude"
      (Some (fun value => q ← py_truediv value 1000; py_round q 0))
  else if decide (telemetry_type = Member G_FORCE) then
    new_stream G_FORCE (_orbit_reference_fight self) "g_force"
      (Some (fun value => py_round value 1))
  else if decide (telemetry_type = Member CENTER_OF_MASS) then
    new_stream CENTER_OF_MASS (_orbit_reference_fight self) "center_of_mass" None
  else if decide (telemetry_type = Member ATMOSPHERE_DENSITY) then
    new_stream ATMOSPHERE_DENSITY (_orbit_reference_fight self) "atmosphere_density" None
  else if decide (telemetry_type = Member DYNAMIC_PRESSURE) then
    new_stream DYNAMIC_PRESSURE (_orbit_reference_fight self) "dynamic_pressure" None
  else if decide (telemetry_type = Member STATIC_PRESSURE) then
    new_stream STATIC_PRESSURE (_orbit_reference_fight self) "static_pressure" None
  else if decide (telemetry_type = Member AERODYNAMIC_FORCE) then
    new_stream AERODYNAMIC_FORCE (_orbit_reference_fight self) "aerodynamic_force" None
  else
    eff_lift (msg ← format_unknown telemetry_type; Raise (ValueError msg)).

(** A sequence of [create] calls on one factory, whatever each returns. *)
Fixpoint create_all (kinds : list PyKind) (s : St) : St :=
  match kinds with
  | [] => s
  | k :: kinds' => create_all kinds' (create k s).1
  end.

End KrpcTelemetryStreamFactory_.

(** [init_streams_from_telemetry_processor]: the processor's
    [get_telemetry_types()] is consumed in iteration order, given here as a
    list; a failing [create] aborts the loop. *)
Fixpoint init_streams_loop (types : list TelemetryType)
    (result_ : KrpcTelemetryStreamCollection)
    : Eff KrpcTelemetryStreamFactory_.St KrpcTelemetryStreamCollection :=
  match types with
  | [] => mret result_
  | telemetry_type :: types' =>
      h ← KrpcTelemetryStreamFactory_.create (Member telemetry_type);
      init_streams_loop types'
        (KrpcTelemetryStreamCollection_.register_telemetry h result_)
  end.

Definition init_streams_from_telemetry_processor (types : list TelemetryType)
    : Eff KrpcTelemetryStreamFactory_.St KrpcTelemetryStreamCollection :=
  init_streams_loop types KrpcTelemetryStreamCollection_.__init__.

(** ** The part of pandas the strategy uses

    A frame has an optional index name, column labels, and rows; a row is its
    index value and one cell per column, a missing cell being [NaN].  The
    index and every column hold values of one numpy dtype.  The dtype is not
    stored: a frame made from a dict holds one value per column, whose dtype
    numpy infers from the value, and [concat] leaves the index and every
    column converted to the common dtype of their values, so the dtype is
    read back off the values. *)

Module pd.

Definition Row : Type := PyVal * list (option PyVal).

Record DataFrame : Type := mkDataFrame {
  index_name : option TelemetryType;
  columns : list TelemetryType;
  rows : list Row
}.

(** [pd.DataFrame()] *)
Definition DataFrame_ : DataFrame := mkDataFrame None [] [].

(** [pd.DataFrame(columns=cols)] *)
Definition DataFrame_columns (cols : list TelemetryType) : DataFrame :=
  mkDataFrame None cols [].

(** A dict value laid out against a one-entry index: a scalar fills the
    cell, a list-like must have exactly one element. *)
Definition cell_of (v : PyVal) : result PyVal :=
  match v with
  | VTuple [x] => Ok (VFloat x)
  | VTuple _ => Raise (ValueError "Length of values does not match length of index")
  | _ => Ok v
  end.

Fixpoint cells_of (vs : list PyVal) : result (list (option PyVal)) :=
  match vs with
  | [] => Ok []
  | v :: vs' => c ← cell_of v; cs ← cells_of vs'; Ok (Some c :: cs)
  end.

(** [pd.DataFrame({k1: v1, ...}, index=[i])] *)
Definition DataFrame_dict (data : list (TelemetryType * PyVal)) (i : PyVal)
    : result DataFrame :=
  cs ← cells_of data.*2; Ok (mkDataFrame None data.*1 [(i, cs)]).

Fixpoint position (c : TelemetryType) (cols : list TelemetryType) : option nat :=
  match cols with
  | [] => None
  | c' :: cols' => if decide (c = c') then Some 0%nat else S <$> position c cols'
  end.

Definition NaN : PyVal := VFloat S754_nan.

(** [df.set_index(col, inplace=True)]: the column becomes the index. *)
Definition set_index (col : TelemetryType) (df : DataFrame) : result DataFrame :=
  match position col (columns df) with
  | None => Raise (KeyError col)
  | Some i =>
      Ok (mkDataFrame (Some col) (delete i (columns df))
            ((fun r : Row => (default NaN (mjoin (r.2 !! i)), delete i r.2)) <$> rows df))
  end.

(** The numpy dtypes a number can be stored with. *)
Inductive dtype : Type := int64 | uint64 | float64 | object.

(** The dtype numpy infers for a value: a Python int is an [int64] when it
    fits, a [uint64] when it fits that, and a Python object otherwise; a
    Python float is a [float64]. *)
Definition dtype_of (v : PyVal) : dtype :=
  match v with
  | VInt i =>
      if bool_decide (- 2 ^ 63 <= i < 2 ^ 63) then int64
      else if bool_decide (2 ^ 63 <= i < 2 ^ 64) then uint64
      else object
  | VFloat _ => float64
  | VTuple _ => object
  end.

(** The dtype two dtypes are brought to when their values are put together:
    numpy's promotion, under which signed and unsigned 64-bit integers only
    meet in [float64], and [object] takes everything. *)
Definition find_common_type (a b : dtype) : dtype :=
  match a, b with
  | object, _ | _, object => object
  | int64, int64 => int64
  | uint64, uint64 => uint64
  | _, _ => float64
  end.

(** The conversion of a stored value to a dtype that accommodates it: an
    integer brought to [float64] becomes the nearest float; an integer or a
    float brought to [object] is the Python number it was. *)
Definition astype (d : dtype) (v : PyVal) : PyVal :=
  match d, v with
  | float64, VInt i => VFloat (binary_normalize PyFloat.prec PyFloat.emax i 0 false)
  | _, _ => v
  end.

(** The dtype of a cell, a missing one being the float [NaN]. *)
Definition cell_dtype (c : option PyVal) : dtype :=
  match c with
  | Some v => dtype_of v
  | None => float64
  end.

(** The common dtype of the cells of a column, if it has any. *)
Fixpoint result_type (cells : list (option PyVal)) : option dtype :=
  match cells with
  | [] => None
  | c :: cells' =>
      Some (match result_type cells' with
            | Some d => find_common_type (cell_dtype c) d
            | None => cell_dtype c
            end)
  end.

Definition cast (d : option dtype) (v : PyVal) : PyVal :=
  match d with
  | Some d => astype d v
  | None => v
  end.

(** The rows of a frame of [n] columns once the index and every column are
    brought to the common dtype of their values. *)
Definition unify (n : nat) (rows : list Row) : list Row :=
  let index_type := result_type (Some <$> rows.*1) in
  let column_types :=
    (fun j => result_type ((fun r : Row => mjoin (r.2 !! j)) <$> rows)) <$> seq 0 n in
  (fun r : Row =>
     (cast index_type r.1, zip_with (fun d c => cast d <$> c) column_types r.2)) <$> rows.

(** The cells of a row laid out for the column labels [to]. *)
Definition realign (from to : list TelemetryType) (cells : list (option PyVal))
    : list (option PyVal) :=
  (fun c => i ← position c from; mjoin (cells !! i)) <$> to.

(** [pd.concat([a, b])]: the rows of [a], then those of [b], over the union
    of the columns in order of first appearance, the index and every column
    converted to the common dtype of what the two frames hold there. *)
Definition concat (a b : DataFrame) : DataFrame :=
  let cols := columns a ++ filter (fun c => c ∉ columns a) (columns b) in
  mkDataFrame
    (if decide (index_name a = index_name b) then index_name a else None)
    cols
    (unify (length cols)
       (((fun r : Row => (r.1, realign (columns a) cols r.2)) <$> rows a) ++
        ((fun r : Row => (r.1, realign (columns b) cols r.2)) <$> rows b))).

(** [len(df)] *)
Definition len (df : DataFrame) : Z := Z.of_nat (length (rows df)).

(** [df.index] as a list *)
Definition index (df : DataFrame) : list PyVal := (rows df).*1.

(** [v'] is what a stored [v] has become after conversions of its column:
    [v] itself, or the [float64] the integer [v] was converted to. *)
Definition widened (v v' : PyVal) : Prop :=
  v' = v ∨ ∃ i, v = VInt i ∧ v' = astype float64 (VInt i).

Definition cells_widened (cells cells' : list (option PyVal)) : Prop :=
  Forall2 (option_Forall2 widened) cells cells'.

Definition row_widened (r r' : Row) : Prop :=
  widened r.1 r'.1 ∧ cells_widened r.2 r'.2.

End pd.

(** ** [class TelemetryStrategy(ABC)] *)

(** The fields [TelemetryStrategy.__init__] sets, with those a subclass adds
    in [ext]. *)
Record TelemetryStrategy (Ext : Type) : Type := mkTelemetryStrategy {
  _collect_every_secs : Z;
  _lastMet : Z;
  _dataframe : pd.DataFrame;
  ext : Ext
}.
Arguments mkTelemetryStrategy {Ext} _ _ _ _.
Arguments _collect_every_secs {Ext} _.
Arguments _lastMet {Ext} _.
Arguments _dataframe {Ext} _.
Arguments ext {Ext} _.

Definition Snapshot : Type := gmap TelemetryType PyVal.

(** The abstract methods.  [Env] is whatever outside the object a subclass
    touches (console, plotting backend). *)
Class TelemetryStrategyABC (Ext Env : Type) : Type := {
  _collect_data : Z -> Snapshot -> Eff (TelemetryStrategy Ext * Env) ();
  get_telemetry_types : gset TelemetryType;
  _create_dataframe : result pd.DataFrame
}.

Module TelemetryStrategy_.
Section TelemetryStrategy.
Context {Ext Env : Type} `{!TelemetryStrategyABC Ext Env}.

Definition __init__ (collect_every_secs : Z) (sub : Ext) : TelemetryStrategy Ext :=
  mkTelemetryStrategy collect_every_secs (-1) pd.DataFrame_ sub.

Definition set_lastMet (met : Z) (self : TelemetryStrategy Ext) : TelemetryStrategy Ext :=
  mkTelemetryStrategy (_collect_every_secs self) met (_dataframe self) (ext self).

(** The condition of the early [return]. *)
Definition out_of_cadence (self : TelemetryStrategy Ext) (met : Z) : bool :=
  bool_decide (_lastMet self ≠ -1) &&
  bool_decide (_collect_every_secs self + _lastMet self > met).

Definition collect_data (met : Z) (data : Snapshot)
    : Eff (TelemetryStrategy Ext * Env) () :=
  fun '(self, env) =>
    if out_of_cadence self met then ((self, env), Ok ())
    else _collect_data met data (set_lastMet met self, env).

(** Successive [collect_data] calls on one instance.  The instance is
    carried on after a call that raised, as a caller that catches sees it. *)
Fixpoint collect_all (snaps : list (Z * Snapshot))
    (s : TelemetryStrategy Ext * Env) : TelemetryStrategy Ext * Env :=
  match snaps with
  | [] => s
  | (met, data) :: snaps' => collect_all snaps' (collect_data met data s).1
  end.

(** The value of [_lastMet] after each of the calls. *)
Fixpoint lastMet_trace (snaps : list (Z * Snapshot))
    (s : TelemetryStrategy Ext * Env) : list Z :=
  match snaps with
  | [] => []
  | (met, data) :: snaps' =>
      let s' := (collect_data met data s).1 in
      _lastMet s'.1 :: lastMet_trace snaps' s'
  end.
End TelemetryStrategy.
End TelemetryStrategy_.

(** The mets a strategy accepts out of a feed, read off the guard of
    [collect_data]: [last] is the current [_lastMet]. *)
Fixpoint accepted_mets (collect_every_secs last : Z) (mets : list Z) : list Z :=
  match mets with
  | [] => []
  | met :: mets' =>
      if bool_decide (last ≠ -1) && bool_decide (collect_every_secs + last > met)
      then accepted_mets collect_every_secs last mets'
      else met :: accepted_mets collect_every_secs met mets'
  end.

(** The decimation rule in the spec's words: nothing accepted yet is a
    separate "none" state, not an integer. *)
Fixpoint spec_decimate (collect_every_secs : Z) (lastAcceptedMet : option Z)
    (mets : list Z) : list Z :=
  match mets with
  | [] => []
  | M :: mets' =>
      match lastAcceptedMet with
      | None => M :: spec_decimate collect_every_secs (Some M) mets'
      | Some last =>
          if bool_decide (M >= last + collect_every_secs)
          then M :: spec_decimate collect_every_secs (Some M) mets'
          else spec_decimate collect_every_secs lastAcceptedMet mets'
      end
  end.

(** A subclass that only records the mets its [_collect_data] is called with. *)
#[global] Instance Recorder : TelemetryStrategyABC () (list Z) := {
  _collect_data met _ := eff_modify (fun '(self, log) => (self, log ++ [met]));
  get_telemetry_types := {[ MET ]};
  _create_dataframe := Ok pd.DataFrame_
}.

(** ** The plotting backend

    [DataFrame.plot()], [fig.show()] and [fig.batch_update()] belong to the
    rendering library.  Each may do anything to the backend's own state and
    may raise; [plot] stands for the call together with the unpacking of its
    result into [fig, ax]. *)
Class PlotBackend (Fig Sink : Type) : Type := {
  plot : pd.DataFrame -> Eff Sink Fig;
  show : Fig -> Eff Sink ();
  batch_update : Fig -> Eff Sink ()
}.

(** What [OrbitalVelocityStrategy] touches outside itself. *)
Record Outside (Sink : Type) : Type := mkOutside {
  stdout : list (TelemetryType * PyVal);   (* one entry per [print] *)
  sink : Sink
}.
Arguments mkOutside {Sink} _ _.
Arguments stdout {Sink} _.
Arguments sink {Sink} _.

(** ** [class OrbitalVelocityStrategy(TelemetryStrategy, ABC)] *)

Module OrbitalVelocityStrategy_.
Section OrbitalVelocityStrategy.
Context {Fig Sink : Type} `{!PlotBackend Fig Sink}.

(** The field [self.fig]. *)
Definition Self : Type := TelemetryStrategy (option Fig).
Definition St : Type := Self * Outside Sink.

Definition _create_dataframe : result pd.DataFrame :=
  pd.set_index MET (pd.DataFrame_columns [MET; ORBITAL_SPEED]).

Definition get_telemetry_types : gset TelemetryType := {[ MET; ORBITAL_SPEED ]}.

(** [data[key]] *)
Definition getitem (data : Snapshot) (key : TelemetryType) : Eff St PyVal :=
  eff_lift (match data !! key with
            | Some v => Ok v
            | None => Raise (KeyError key)
            end).

Definition print (key : TelemetryType) (v : PyVal) : Eff St () :=
  eff_modify (fun '(self, out) =>
    (self, mkOutside (stdout out ++ [(key, v)]) (sink out))).

(** A call into the plotting backend. *)
Definition render {A} (m : Eff Sink A) : Eff St A :=
  fun '(self, out) =>
    let '(k, r) := m (sink out) in ((self, mkOutside (stdout out) k), r).

Definition set_dataframe (df : pd.DataFrame) : Eff St () :=
  eff_modify (fun '(self, out) =>
    (mkTelemetryStrategy (_collect_every_secs self) (_lastMet self) df (ext self), out)).

Definition set_fig (f : Fig) : Eff St () :=
  eff_modify (fun '(self, out) =>
    (mkTelemetryStrategy (_collect_every_secs self) (_lastMet self)
       (_dataframe self) (Some f), out)).

(** Lines 51 to 61 of [_collect_data]: the row is derived and merged into
    the table. *)
Definition accumulate (met : Z) (data : Snapshot) : Eff St () :=
  v ← getitem data ORBITAL_SPEED;
  _ ← print ORBITAL_SPEED v;
  speed ← getitem data ORBITAL_SPEED;
  collected_data_dataframe ←
    eff_lift (pd.DataFrame_dict [(MET, VInt met); (ORBITAL_SPEED, speed)] (VInt 0));
  collected_data_dataframe ← eff_lift (pd.set_index MET collected_data_dataframe);
  '(self, _) ← eff_get;
  set_dataframe
    (if bool_decide (pd.len (_dataframe self) ≠ 0)
     then pd.concat (_dataframe self) collected_data_dataframe
     else collected_data_dataframe).

(** Lines 63 to 67: the chart is created on the first row and refreshed. *)
Definition refresh : Eff St () :=
  '(self, _) ← eff_get;
  _ ← (if bool_decide (pd.len (_dataframe self) = 1)
       then f ← render (plot (_dataframe self));
            _ ← set_fig f;
            render (show f)
       else mret ());
  '(self, _) ← eff_get;
  match ext self with
  | Some f => render (batch_update f)
  | None => eff_raise AttributeError
  end.

Definition _collect_data (met : Z) (data : Snapshot) : Eff St () :=
  _ ← accumulate met data; refresh.

#[global] Instance ABC : TelemetryStrategyABC (option Fig) (Outside Sink) := {
  _collect_data := _collect_data;
  get_telemetry_types := get_telemetry_types;
  _create_dataframe := _create_dataframe
}.

Definition __init__ : Self := TelemetryStrategy_.__init__ 5 None.

(** The row [_collect_data] derives from an accepted snapshot. *)
Definition row_of (met : Z) (speed : PyVal) : pd.Row := (VInt met, [Some speed]).

(** The snapshot carries a scalar orbital speed, as every snapshot taken
    from the streams of [get_telemetry_types] does. *)
Definition has_speed (data : Snapshot) : bool :=
  match data !! ORBITAL_SPEED with
  | Some v => is_scalar v
  | None => false
  end.

Definition speed_of (data : Snapshot) : PyVal :=
  default pd.NaN (data !! ORBITAL_SPEED).
End OrbitalVelocityStrategy.
End OrbitalVelocityStrategy_.

(** Two backends to run the strategy against: one that is not there, every
    call raising, and one that draws nothing and counts its calls. *)
Definition broken_backend : PlotBackend () () := {|
  plot _ := eff_raise (ExternalError "plot");
  show _ := eff_raise (ExternalError "show");
  batch_update _ := eff_raise (ExternalError "batch_update")
|}.

Definition counting_backend : PlotBackend () nat := {|
  plot _ := fun n => (S n, Ok ());
  show _ := fun n => (S n, Ok ());
  batch_update _ := fun n => (S n, Ok ())
|}.

(** ** Runs and observations used to state the properties *)

(** A run of [register_telemetry] calls, first call first. *)
Definition register_all (hs : list KrpcTelemetryStream)
    (self : KrpcTelemetryStreamCollection) : KrpcTelemetryStreamCollection :=
  foldl (fun acc h => KrpcTelemetryStreamCollection_.register_telemetry h acc) self hs.

(** The first handle of kind [k] among [hs]. *)
Definition first_of_kind (k : TelemetryType) (hs : list KrpcTelemetryStream)
    : option KrpcTelemetryStream :=
  head (filter (fun h => _telemetry_type h = k) hs).

(** A transport with no stream and no data. *)
Definition idle_world : World :=
  mkWorld [] [] 0 (fun _ => Raise (ExternalError "feed")).

(** A transport whose every stream yields [v]. *)
Definition constant_world (v : PyVal) : World :=
  mkWorld [] [] 0 (fun _ => Ok v).

(** The table of section 4.3 of the spec, in its words: floor for the
    mission elapsed time, one decimal for the speeds and the g-force,
    kilometres without decimals for the apsides, nothing for the rest. *)
Definition spec_transform (kind : TelemetryType) : option (PyVal -> result PyVal) :=
  match kind with
  | MET => Some math_floor
  | ORBITAL_SPEED | SURFACE_SPEED | SURFACE_HORIZONTAL_SPEED
  | SURFACE_VERTICAL_SPEED | G_FORCE => Some (fun raw => py_round raw 1)
  | ORBITAL_APOAPSIS | ORBITAL_PERIAPSIS =>
      Some (fun raw => km ← py_truediv raw 1000; py_round km 0)
  | CENTER_OF_MASS | ATMOSPHERE_DENSITY | DYNAMIC_PRESSURE | STATIC_PRESSURE
  | AERODYNAMIC_FORCE => None
  end.

(** What a read yields once a transform, if any, is applied. *)
Definition apply_transform (transform : option (PyVal -> result PyVal)) (raw : PyVal)
    : result PyVal :=
  match transform with
  | Some f => f raw
  | None => Ok raw
  end.

(** End to end: a fresh factory creates the handle for [kind] on a transport
    whose streams yield [raw], and the handle's value is read. *)
Definition read_through (kind : PyKind) (raw : PyVal) : result PyVal :=
  let '((_, w), r) :=
    KrpcTelemetryStreamFactory_.create kind
      (KrpcTelemetryStreamFactory_.__init__ (VInt 1), constant_world raw) in
  h ← r; KrpcTelemetryStream_.value h w.

(** The table once the row for [met] with cell [c] is merged into [df], as
    lines 52 to 61 of [_collect_data] compute it. *)
Definition merge_row (df : pd.DataFrame) (met : Z) (c : PyVal) : pd.DataFrame :=
  let collected := pd.mkDataFrame (Some MET) [ORBITAL_SPEED] [(VInt met, [Some c])] in
  if bool_decide (pd.len df ≠ 0) then pd.concat df collected else collected.

(** The rows of the table once the rows [new] derived by a call are merged
    into the rows [before]: nothing changes when there is none, and
    [pd.concat] brings the index and the column to the common dtype of the
    values otherwise. *)
Definition merged (before new : list pd.Row) : list pd.Row :=
  match new with
  | [] => before
  | _ => pd.unify 1 (before ++ new)
  end.

(** What holds of the table of an [OrbitalVelocityStrategy] at all times: it
    is the empty frame of the constructor, or it is indexed by the mission
    elapsed time with the orbital speed as its only column. *)
Definition table_ok (df : pd.DataFrame) : Prop :=
  df = pd.DataFrame_ ∨
  (pd.index_name df = Some MET ∧ pd.columns df = [ORBITAL_SPEED] ∧
   Forall (fun r : pd.Row => length r.2 = 1%nat) (pd.rows df)).

(** The rows a [collect_data] call adds to the table of an
    [OrbitalVelocityStrategy]: none when the snapshot is out of cadence or
    yields no cell for the orbital speed. *)
Definition derived_rows {Ext} (self : TelemetryStrategy Ext) (met : Z) (data : Snapshot)
    : list pd.Row :=
  if TelemetryStrategy_.out_of_cadence self met then []
  else match data !! ORBITAL_SPEED with
       | Some v => match pd.cell_of v with
                   | Ok c => [(VInt met, [Some c])]
                   | Raise _ => []
                   end
       | None => []
       end.

(** The rows derived from the snapshots a strategy accepts out of a feed,
    as [accepted_mets] gives their mets: [last] is the current [_lastMet]. *)
Fixpoint accepted_rows (collect_every_secs last : Z) (snaps : list (Z * Snapshot))
    : list pd.Row :=
  match snaps with
  | [] => []
  | (met, data) :: snaps' =>
      if bool_decide (last ≠ -1) && bool_decide (collect_every_secs + last > met)
      then accepted_rows collect_every_secs last snaps'
      else OrbitalVelocityStrategy_.row_of met (OrbitalVelocityStrategy_.speed_of data)
           :: accepted_rows collect_every_secs met snaps'
  end.

(** A row whose met has dtype [di] and whose one cell has dtype [dc]. *)
Definition row_dtypes (di dc : pd.dtype) (r : pd.Row) : Prop :=
  pd.dtype_of r.1 = di ∧ ∃ c, r.2 = [Some c] ∧ pd.dtype_of c = dc.

(** A snapshot that carries a scalar orbital speed of dtype [dc], fed with a
    met of dtype [di]. *)
Definition same_dtypes (di dc : pd.dtype) (x : Z * Snapshot) : Prop :=
  OrbitalVelocityStrategy_.has_speed x.2 = true ∧
  pd.dtype_of (VInt x.1) = di ∧
  pd.dtype_of (OrbitalVelocityStrategy_.speed_of x.2) = dc.

(** The mets for which a new strategy with the given cadence calls its
    [_collect_data], out of a feed of snapshots with these mets. *)
Definition recorded_mets (collect_every_secs : Z) (mets : list Z) : list Z :=
  (TelemetryStrategy_.collect_all ((fun met => (met, ∅)) <$> mets)
     (TelemetryStrategy_.__init__ collect_every_secs (), [])).2.

(** A subclass whose [_collect_data] leaves [_lastMet] and
    [_collect_every_secs] alone, as the two in this file do. *)
Definition hook_keeps_cadence (Ext Env : Type) `{!TelemetryStrategyABC Ext Env} : Prop :=
  ∀ met data (s : TelemetryStrategy Ext * Env),
    _lastMet (_collect_data met data s).1.1 = _lastMet s.1 ∧
    _collect_every_secs (_collect_data met data s).1.1 = _collect_every_secs s.1.

(** An entry of the registry as the factory and [register_telemetry] make
    it: filed under the handle's own kind, with the transform of that kind. *)
Definition handle_ok (kh : TelemetryType * KrpcTelemetryStream) : Prop :=
  _telemetry_type kh.2 = kh.1 ∧ _transform_function kh.2 = spec_transform kh.1.

(** ** Observations for the further properties *)

(** An entry of the registry filed under the kind of its own handle. *)
Definition filed_under_kind (kh : TelemetryType * KrpcTelemetryStream) : Prop :=
  _telemetry_type kh.2 = kh.1.

(** Whether a value handed to [create] is a member of the enumeration. *)
Definition is_member (k : PyKind) : bool :=
  match k with Member _ => true | Foreign _ => false end.

(** The flight [self._orbit_reference_fight] holds once [create] has run. *)
Definition orbit_flight_after (self : KrpcTelemetryStreamFactory) (w : World)
    : option RemoteObject :=
  match _orbit_reference_fight self with
  | Some o => Some o
  | None => Some (Flight BodyReferenceFrame (length (w_flights w)))
  end.

(** A stream as the factory leaves it: rated, idle, on the vessel, its orbit
    or the flight [flight]. *)
Definition fresh_stream (r : PyVal) (flight : option RemoteObject) (s : Stream) : Prop :=
  rate s = Some r ∧ started s = false ∧ removed s = false ∧
  (target s = Some Vessel ∨ target s = Some Orbit ∨ target s = flight).

(** The handles [init_streams_from_telemetry_processor] creates for [types]
    on a connection that holds [n] streams already. *)
Fixpoint created_handles (n : nat) (types : list TelemetryType) : list KrpcTelemetryStream :=
  match types with
  | [] => []
  | t :: types' =>
      mkKrpcTelemetryStream t n (spec_transform t) :: created_handles (S n) types'
  end.

(** Two successive mets are at least [c] apart. *)
Definition apart (c : Z) (a b : Z) : Prop := b >= a + c.

(** Every call of the backend returns. *)
Definition backend_returns (Fig Sink : Type) `{!PlotBackend Fig Sink} : Prop :=
  (∀ df k, ∃ k' f, plot df k = (k', Ok f)) ∧
  (∀ f k, ∃ k', show f k = (k', Ok ())) ∧
  (∀ f k, ∃ k', batch_update f k = (k', Ok ())).

(** The outcome of each of a run of [collect_data] calls. *)
Fixpoint collect_outcomes {Ext Env : Type} `{!TelemetryStrategyABC Ext Env}
    (snaps : list (Z * Snapshot)) (s : TelemetryStrategy Ext * Env) : list (result ()) :=
  match snaps with
  | [] => []
  | (met, data) :: snaps' =>
      (TelemetryStrategy_.collect_data met data s).2 ::
      collect_outcomes snaps' (TelemetryStrategy_.collect_data met data s).1
  end.

(** Two streams, a transport and a handle to run the registry against. *)
Definition met_stream : Stream := mkStream (Some Vessel) "met" None false false.
Definition speed_stream : Stream := mkStream (Some Orbit) "speed" None false false.

(** A transport with the two streams above, both yielding 12.99. *)
Definition two_stream_world : World :=
  mkWorld [met_stream; speed_stream] [] 0 (fun _ => Ok (VFloat (PyFloat.literal 1299 2))).

Definition met_handle : KrpcTelemetryStream :=
  mkKrpcTelemetryStream MET 0 (Some math_floor).

(** A snapshot that carries an orbital speed of 2200.5 and nothing else. *)
Definition speed_snapshot : Snapshot :=
  {[ ORBITAL_SPEED := VFloat (PyFloat.literal 22005 1) ]}.

(** * Properties *)

(** ** Insertion-ordered dictionaries *)

Section PyDict_facts.
Context {K V : Type} `{EqDecision K}.
Implicit Types (d : PyDict.t K V) (k : K) (v : V).

Lemma PyDict_contains_spec k d :
  PyDict.contains k d = true ↔ k ∈ PyDict.keys d.
Proof. unfold PyDict.contains. by rewrite bool_decide_eq_true. Qed.

Lemma PyDict_get_None k d : PyDict.get k d = None ↔ k ∉ PyDict.keys d.
Proof.
  induction d as [|[k' v'] d IH]; simpl.
  - split; [intros _; apply not_elem_of_nil | done].
  - rewrite not_elem_of_cons. case_decide as Hk; [|tauto].
    split; [done|]. by intros [? _].
Qed.

Lemma PyDict_setitem_fresh k v d :
  k ∉ PyDict.keys d → PyDict.setitem k v d = d ++ [(k, v)].
Proof.
  induction d as [|[k' v'] d IH]; simpl; [done|].
  rewrite not_elem_of_cons. intros [Hne Hnin].
  case_decide; [done|]. by rewrite IH.
Qed.

Lemma PyDict_get_app k d d' :
  PyDict.get k (d ++ d') =
  match PyDict.get k d with Some v => Some v | None => PyDict.get k d' end.
Proof.
  induction d as [|[k' v'] d IH]; simpl; [done|]. by case_decide.
Qed.
End PyDict_facts.

(** ** The registry *)

Section registry.
Import KrpcTelemetryStreamCollection_.
Implicit Types (self : KrpcTelemetryStreamCollection) (h : KrpcTelemetryStream).

Lemma register_telemetry_present h self :
  has_telemetry (_telemetry_type h) self = true →
  register_telemetry h self = self.
Proof.
  unfold register_telemetry, has_telemetry, KrpcTelemetryStream_.telemetry_type.
  by intros ->.
Qed.

Lemma register_telemetry_absent h self :
  has_telemetry (_telemetry_type h) self = false →
  _streams (register_telemetry h self) = _streams self ++ [(_telemetry_type h, h)].
Proof.
  unfold register_telemetry, has_telemetry, KrpcTelemetryStream_.telemetry_type.
  intros Hc. rewrite Hc. simpl. apply PyDict_setitem_fresh.
  intros Hin. apply PyDict_contains_spec in Hin. congruence.
Qed.

Lemma register_telemetry_keys h self :
  NoDup (PyDict.keys (_streams self)) →
  NoDup (PyDict.keys (_streams (register_telemetry h self))) ∧
  (∀ k, k ∈ PyDict.keys (_streams (register_telemetry h self)) ↔
        k ∈ PyDict.keys (_streams self) ∨ k = _telemetry_type h).
Proof.
  intros Hnd.
  destruct (has_telemetry (_telemetry_type h) self) eqn:Hc.
  - rewrite register_telemetry_present by done. split; [done|].
    apply PyDict_contains_spec in Hc. intros k. split; [tauto|]. by intros [?| ->].
  - rewrite register_telemetry_absent by done.
    assert (_telemetry_type h ∉ PyDict.keys (_streams self)) as Hnin.
    { intros Hin. apply PyDict_contains_spec in Hin.
      unfold has_telemetry in Hc. congruence. }
    unfold PyDict.keys in *. rewrite fmap_app. simpl. split.
    + apply NoDup_app. split; [done|]. split; [|apply NoDup_singleton].
      intros k Hk ->%list_elem_of_singleton. done.
    + intros k. rewrite elem_of_app, list_elem_of_singleton. done.
Qed.

Lemma register_telemetry_get h self k :
  PyDict.get k (_streams (register_telemetry h self)) =
  match PyDict.get k (_streams self) with
  | Some h' => Some h'
  | None => if decide (_telemetry_type h = k) then Some h else None
  end.
Proof.
  destruct (has_telemetry (_telemetry_type h) self) eqn:Hc.
  - rewrite register_telemetry_present by done.
    destruct (PyDict.get k (_streams self)) eqn:Hg; [done|].
    case_decide as Hk; [|done]. subst k.
    apply PyDict_get_None in Hg. apply PyDict_contains_spec in Hc. done.
  - rewrite register_telemetry_absent by done. rewrite PyDict_get_app. simpl.
    destruct (PyDict.get k (_streams self)); [done|].
    repeat case_decide; congruence.
Qed.

Lemma register_all_spec hs self :
  NoDup (PyDict.keys (_streams self)) →
  NoDup (PyDict.keys (_streams (register_all hs self))) ∧
  (∀ k, k ∈ PyDict.keys (_streams (register_all hs self)) ↔
        k ∈ PyDict.keys (_streams self) ∨ k ∈ _telemetry_type <$> hs) ∧
  (∀ k, PyDict.get k (_streams (register_all hs self)) =
        match PyDict.get k (_streams self) with
        | Some h' => Some h'
        | None => first_of_kind k hs
        end).
Proof.
  revert self. induction hs as [|h hs IH]; intros self Hnd; simpl.
  - split; [done|]. split.
    + intros k. rewrite elem_of_nil. tauto.
    + intros k. by destruct (PyDict.get k (_streams self)).
  - destruct (register_telemetry_keys h self Hnd) as [Hnd' Hkeys].
    destruct (IH _ Hnd') as (IH1 & IH2 & IH3).
    split; [done|]. split.
    + intros k. rewrite IH2, Hkeys, elem_of_cons. tauto.
    + intros k. rewrite IH3, register_telemetry_get.
      destruct (PyDict.get k (_streams self)); [done|].
      unfold first_of_kind. rewrite filter_cons.
      by case_decide.
Qed.
End registry.

(** C3. First registration wins: after any run of [register_telemetry] calls
    on a fresh collection, no kind occurs twice among the keys, the keys are
    exactly the kinds of the handles registered, each kind is mapped to the
    first handle registered with it, and registering a handle whose kind is
    already present returns the collection unchanged. *)
Theorem C3_first_registration_wins (hs : list KrpcTelemetryStream) :
  let final := register_all hs KrpcTelemetryStreamCollection_.__init__ in
  NoDup (PyDict.keys (_streams final)) ∧
  (∀ k, k ∈ PyDict.keys (_streams final) ↔ k ∈ _telemetry_type <$> hs) ∧
  (∀ k, PyDict.get k (_streams final) = first_of_kind k hs) ∧
  (∀ h, KrpcTelemetryStreamCollection_.has_telemetry (_telemetry_type h) final = true →
        KrpcTelemetryStreamCollection_.register_telemetry h final = final).
Proof.
  intros final. subst final.
  destruct (register_all_spec hs KrpcTelemetryStreamCollection_.__init__)
    as (Hnd & Hkeys & Hget); [apply NoDup_nil_2|].
  split; [done|]. split; [|split].
  - intros k. rewrite (Hkeys k). simpl. rewrite elem_of_nil. tauto.
  - intros k. by rewrite (Hget k).
  - intros h. apply register_telemetry_present.
Qed.

(** The same on three registrations, the third repeating the kind of the
    first. *)
Lemma C3_first_registration_wins_witness :
  let h1 := mkKrpcTelemetryStream MET 0 None in
  let h2 := mkKrpcTelemetryStream ORBITAL_SPEED 1 None in
  let h3 := mkKrpcTelemetryStream MET 2 None in
  let final := register_all [h1; h2; h3] KrpcTelemetryStreamCollection_.__init__ in
  PyDict.keys (_streams final) = [MET; ORBITAL_SPEED] ∧
  PyDict.get MET (_streams final) = Some h1 ∧
  KrpcTelemetryStreamCollection_.register_telemetry h3 final = final.
Proof.
  intros h1 h2 h3 final. subst final.
  destruct (C3_first_registration_wins [h1; h2; h3]) as (_ & _ & Hget & Hnoop).
  split; [reflexivity|]. split.
  - rewrite (Hget MET). reflexivity.
  - apply (Hnoop h3). reflexivity.
Defined.

Section registry_teardown.
Import KrpcTelemetryStreamCollection_.

Lemma for_each_destroy_returns (hs : list KrpcTelemetryStream) (w : World) :
  (for_each KrpcTelemetryStream_.destroy hs w).2 = Ok ().
Proof.
  revert w. induction hs as [|h hs IH]; intros w; [done|].
  simpl. unfold mbind, Eff_bind. simpl. apply IH.
Qed.

Lemma destroy_telemetries_clears (self : KrpcTelemetryStreamCollection) (w : World) :
  destroy_telemetries (self, w) =
  ((__init__, (for_each KrpcTelemetryStream_.destroy
                 (PyDict.values (_streams self)) w).1), Ok ()).
Proof.
  unfold destroy_telemetries.
  pose proof (for_each_destroy_returns (PyDict.values (_streams self)) w) as H.
  destruct (for_each _ _ w) as [w' [[]|e]]; simpl in *; [done|discriminate].
Qed.
End registry_teardown.

(** C9. Whatever the collection holds, [destroy_telemetries] returns without
    raising and leaves it empty, a [collect_data] right after returns the
    empty mapping without raising, and on an empty collection
    [destroy_telemetries] changes neither the collection nor the transport. *)
Theorem C9_destroy_then_collect (self : KrpcTelemetryStreamCollection) (w : World) :
  let '((self', w'), r) := KrpcTelemetryStreamCollection_.destroy_telemetries (self, w) in
  r = Ok () ∧
  _streams self' = PyDict.empty ∧
  KrpcTelemetryStreamCollection_.collect_data self' w' = Ok ∅ ∧
  KrpcTelemetryStreamCollection_.destroy_telemetries (self', w') = ((self', w'), Ok ()).
Proof.
  rewrite destroy_telemetries_clears. repeat split.
Qed.

(** ** The factory *)

Section factory.
Import KrpcTelemetryStreamFactory_.
Implicit Types (self : KrpcTelemetryStreamFactory) (w : World).

Lemma ensure_flights_returns self w : (ensure_flights (self, w)).2 = Ok ().
Proof. by destruct self as [r [o|] v]. Qed.

Lemma ensure_flights_fresh self w :
  _orbit_reference_fight self = None →
  (ensure_flights (self, w)).1 =
  (mkKrpcTelemetryStreamFactory (_default_rate self)
     (Some (Flight BodyReferenceFrame (length (w_flights w))))
     (Some (Flight VesselReferenceFrame (length (w_flights w ++ [BodyReferenceFrame])))),
   mkWorld (w_streams w) ((w_flights w ++ [BodyReferenceFrame]) ++ [VesselReferenceFrame])
     (w_slept w) (w_feed w)).
Proof. destruct self as [r o v], w. simpl. by intros ->. Qed.

Lemma ensure_flights_cached self w :
  is_Some (_orbit_reference_fight self) →
  (ensure_flights (self, w)).1 = (self, w).
Proof. destruct self as [r [o|] v]; [done|]. by intros [? ?]. Qed.

(** What [create] leaves of the factory and of the flight log is what its
    first statement leaves: no branch touches either. *)
Lemma create_factory_frame (k : PyKind) self w :
  (create k (self, w)).1.1 = (ensure_flights (self, w)).1.1 ∧
  w_flights (create k (self, w)).1.2 = w_flights (ensure_flights (self, w)).1.2.
Proof.
  destruct self as [r [o|] v], w, k as [[]|value]; split; reflexivity.
Qed.

Lemma create_member (t : TelemetryType) self w :
  (create (Member t) (self, w)).2 =
  Ok (mkKrpcTelemetryStream t (length (w_streams w)) (spec_transform t)).
Proof. destruct self as [r [o|] v], w, t; reflexivity. Qed.

Lemma create_foreign (value : PyObj) self w :
  (create (Foreign value) (self, w)).2 =
    (msg ← format_unknown (Foreign value); Raise (ValueError msg)) ∧
  w_streams (create (Foreign value) (self, w)).1.2 = w_streams w.
Proof. destruct self as [r [o|] v], w; split; reflexivity. Qed.
End factory.

Section factory_runs.
Import KrpcTelemetryStreamFactory_.
Implicit Types (self : KrpcTelemetryStreamFactory) (w : World).

Lemma create_cached (k : PyKind) self w :
  is_Some (_orbit_reference_fight self) →
  (create k (self, w)).1.1 = self ∧
  w_flights (create k (self, w)).1.2 = w_flights w.
Proof.
  intros Hsome. destruct (create_factory_frame k self w) as [-> ->].
  by rewrite ensure_flights_cached.
Qed.

Lemma create_all_cached (ks : list PyKind) self w :
  is_Some (_orbit_reference_fight self) →
  (create_all ks (self, w)).1 = self ∧
  w_flights (create_all ks (self, w)).2 = w_flights w.
Proof.
  revert w. induction ks as [|k ks IH]; intros w Hsome; [done|].
  simpl. destruct (create_cached k self w Hsome) as [Hself Hlog].
  destruct (create k (self, w)) as [[self' w'] r]. simpl in *. subst self'.
  rewrite <- Hlog. by apply IH.
Qed.

Lemma create_fresh (k : PyKind) self w :
  _orbit_reference_fight self = None →
  (create k (self, w)).1.1 =
    mkKrpcTelemetryStreamFactory (_default_rate self)
      (Some (Flight BodyReferenceFrame (length (w_flights w))))
      (Some (Flight VesselReferenceFrame (S (length (w_flights w))))) ∧
  w_flights (create k (self, w)).1.2 =
    w_flights w ++ [BodyReferenceFrame; VesselReferenceFrame].
Proof.
  intros Hnone. destruct (create_factory_frame k self w) as [-> ->].
  rewrite ensure_flights_fresh by done. simpl.
  rewrite length_app, Nat.add_1_r, <- app_assoc. done.
Qed.
End factory_runs.

(** C5. A member of the enumeration yields a handle of that kind.  A value
    outside the enumeration never yields a handle and adds no stream to the
    connection, but the error is not always the one that names the value: the
    message is built with ["Telemetry %s unknown" % telemetry_type], which
    takes a tuple as the list of arguments.  A value that is not a tuple
    raises [ValueError] with its [str] in the message; a tuple of one item
    raises [ValueError] naming the item, not the tuple; every other tuple
    raises [TypeError] out of the formatting, so [create((1, 2))] raises
    [TypeError] and [create(('bogus',))] reports [bogus]. *)
Theorem C5_unknown_kind_raises (self : KrpcTelemetryStreamFactory) (w : World) :
  let outcome k := (KrpcTelemetryStreamFactory_.create k (self, w)).2 in
  let streams_after k := w_streams (KrpcTelemetryStreamFactory_.create k (self, w)).1.2 in
  (∀ t : TelemetryType,
     ∃ h, outcome (Member t) = Ok h ∧ KrpcTelemetryStream_.telemetry_type h = t) ∧
  (∀ value : PyObj,
     raised (outcome (Foreign value)) = true ∧ streams_after (Foreign value) = w_streams w) ∧
  (∀ str_ repr_ : string,
     outcome (Foreign (OAtom str_ repr_)) =
       Raise (ValueError ("Telemetry " ++ str_ ++ " unknown"))) ∧
  (∀ str_ repr_ : string,
     outcome (Foreign (OTuple [OAtom str_ repr_])) =
       Raise (ValueError ("Telemetry " ++ str_ ++ " unknown")) ∧
     py_str (OTuple [OAtom str_ repr_]) = ("(" ++ repr_ ++ ",)")%string) ∧
  (∀ item : PyObj,
     outcome (Foreign (OTuple [item])) =
       Raise (ValueError ("Telemetry " ++ py_str item ++ " unknown"))) ∧
  outcome (Foreign (OTuple [])) = Raise TypeError ∧
  (∀ (x y : PyObj) (rest : list PyObj),
     outcome (Foreign (OTuple (x :: y :: rest))) = Raise TypeError) ∧
  outcome (Foreign (OTuple [OAtom "1" "1"; OAtom "2" "2"])) = Raise TypeError ∧
  outcome (Foreign (OTuple [OAtom "bogus" "'bogus'"])) =
    Raise (ValueError "Telemetry bogus unknown") ∧
  outcome (Foreign (OAtom "bogus" "'bogus'")) = Raise (ValueError "Telemetry bogus unknown").
Proof.
  intros outcome streams_after. subst outcome streams_after. cbv beta.
  split; [intros t; eexists; by rewrite create_member|].
  split.
  { intros value. destruct (create_foreign value self w) as [-> ->].
    split; [|done]. by destruct value as [s r|[|x [|y rest]]]. }
  repeat split; intros; by rewrite (proj1 (create_foreign _ self w)).
Qed.

(** C2. The handle [create] builds for a kind carries the transform the
    spec's table gives for that kind, and reading its value applies that
    transform to what the stream yields, or passes it through where the table
    has none.  With a feed of 12.99 the mission-elapsed-time handle reads 12,
    and with a feed of 1234567 the apoapsis handle reads 1235. *)
Theorem C2_transforms_per_kind (t : TelemetryType) :
  (∀ (self : KrpcTelemetryStreamFactory) (w : World),
     ∃ h, (KrpcTelemetryStreamFactory_.create (Member t) (self, w)).2 = Ok h ∧
          _transform_function h = spec_transform t ∧
          ∀ w', KrpcTelemetryStream_.value h w' =
                raw ← stream_call (_stream h) w'; apply_transform (spec_transform t) raw) ∧
  (∀ raw, read_through (Member t) raw = apply_transform (spec_transform t) raw) ∧
  read_through (Member MET) (VFloat (PyFloat.literal 1299 2)) = Ok (VInt 12) ∧
  read_through (Member ORBITAL_APOAPSIS) (VFloat (PyFloat.literal 1234567 0))
    = Ok (VFloat (PyFloat.literal 1235 0)) ∧
  read_through (Member ORBITAL_PERIAPSIS) (VInt 1234567)
    = Ok (VFloat (PyFloat.literal 1235 0)).
Proof.
  split; [|split; [|by vm_compute]].
  - intros self w. eexists. split; [apply create_member|]. split; [done|].
    intros w'. unfold KrpcTelemetryStream_.value. simpl.
    destruct (spec_transform t); simpl; [done|].
    by destruct (stream_call _ w').
  - intros raw. destruct t; reflexivity.
Qed.

(** What the two numeric transforms mean on the exact value of a float: the
    floor of [±m·2^e] is the largest integer not above it, and the decimal
    [round] picks is within half a unit in the last place kept. *)
Lemma PyFloat_floor_exact (s : bool) (m : positive) (e n : Z) :
  PyFloat.floor (S754_finite s m e) = Ok n →
  (0 <= e → n = cond_Zopp s (Zpos m) * 2 ^ e) ∧
  (e < 0 → n * 2 ^ (- e) <= cond_Zopp s (Zpos m) < (n + 1) * 2 ^ (- e)).
Proof.
  simpl. intros [= <-]. split; intros He.
  - by rewrite Z.shiftl_mul_pow2.
  - rewrite Z.shiftl_div_pow2 by lia.
    assert (0 < 2 ^ (- e)) as Hpos by (apply Z.pow_pos_nonneg; lia).
    pose proof (Z.mul_div_le (cond_Zopp s (Z.pos m)) _ Hpos).
    pose proof (Z.mul_succ_div_gt (cond_Zopp s (Z.pos m)) _ Hpos).
    lia.
Qed.

Lemma PyFloat_div_half_even_nearest (n d : Z) :
  0 < d → 2 * Z.abs (n - PyFloat.div_half_even n d * d) <= d.
Proof.
  intros Hd. unfold PyFloat.div_half_even.
  pose proof (Z.div_mod n d ltac:(lia)) as Hdm.
  pose proof (Z.mod_pos_bound n d Hd) as Hb.
  destruct (Z.compare_spec (2 * (n mod d)) d) as [Heq|Hlt|Hgt];
    [destruct (Z.even (n / d))|..]; nia.
Qed.

(** The float model on rounding cases whose outcome in CPython is well known:
    0.35 and 2.675 lie below the decimal tie and round down, 0.25 and 2.5 are
    exact ties and go to the even neighbour, -0.04 keeps its sign. *)
Lemma PyFloat_round_examples :
  PyFloat.round (PyFloat.literal 35 2) 1 = Ok (PyFloat.literal 3 1) ∧
  PyFloat.round (PyFloat.literal 2675 3) 2 = Ok (PyFloat.literal 267 2) ∧
  PyFloat.round (PyFloat.literal 25 2) 1 = Ok (PyFloat.literal 2 1) ∧
  PyFloat.round (PyFloat.literal 25 1) 0 = Ok (PyFloat.literal 2 0) ∧
  PyFloat.round (PyFloat.literal (-4) 2) 1 = Ok (S754_zero true) ∧
  PyFloat.floor (PyFloat.literal (-1299) 2) = Ok (-13).
Proof. by vm_compute. Qed.

(** C6, as the claim has it, fails: on a factory that has created nothing
    yet, creating the mission-elapsed-time handle, which uses no flight frame,
    fills both cache fields and asks the vessel for both flights. *)
Lemma C6_counterexample :
  let self := KrpcTelemetryStreamFactory_.__init__ (VInt 1) in
  let s' := (KrpcTelemetryStreamFactory_.create (Member MET) (self, idle_world)).1 in
  _orbit_reference_fight self = None ∧
  _vessel_reference_flight self = None ∧
  _orbit_reference_fight s'.1 = Some (Flight BodyReferenceFrame 0) ∧
  _vessel_reference_flight s'.1 = Some (Flight VesselReferenceFrame 1) ∧
  w_flights s'.2 = [BodyReferenceFrame; VesselReferenceFrame] ∧
  s'.1 ≠ self.
Proof. repeat split; discriminate. Qed.

(** C6, amended.  The two flight frames are computed by the first [create]
    call of a factory, whatever kind it is asked for, also one that uses no
    flight frame or is unknown; once the cache is filled, [create] leaves the
    factory as it is and asks for no flight.  So over any run of [create]
    calls on a new factory each frame is computed once if the run is not
    empty, and never otherwise. *)
Theorem C6_flight_frames_on_first_create (ks : list PyKind) (rate : PyVal) (w0 : World) :
  (∀ (k : PyKind) (self : KrpcTelemetryStreamFactory) (w : World),
     let s' := (KrpcTelemetryStreamFactory_.create k (self, w)).1 in
     (_orbit_reference_fight self = None →
        _orbit_reference_fight s'.1 =
          Some (Flight BodyReferenceFrame (length (w_flights w))) ∧
        _vessel_reference_flight s'.1 =
          Some (Flight VesselReferenceFrame (S (length (w_flights w)))) ∧
        w_flights s'.2 = w_flights w ++ [BodyReferenceFrame; VesselReferenceFrame]) ∧
     (is_Some (_orbit_reference_fight self) →
        s'.1 = self ∧ w_flights s'.2 = w_flights w)) ∧
  w_flights (KrpcTelemetryStreamFactory_.create_all ks
               (KrpcTelemetryStreamFactory_.__init__ rate, w0)).2 =
    w_flights w0 ++
    match ks with
    | [] => []
    | _ :: _ => [BodyReferenceFrame; VesselReferenceFrame]
    end.
Proof.
  split.
  - intros k self w s'. subst s'. split.
    + intros Hnone. destruct (create_fresh k self w Hnone) as [-> ->]. done.
    + apply create_cached.
  - destruct ks as [|k ks]; simpl; [by rewrite app_nil_r|].
    destruct (create_fresh k (KrpcTelemetryStreamFactory_.__init__ rate) w0)
      as [Hself Hlog]; [done|].
    destruct (KrpcTelemetryStreamFactory_.create k _) as [[self' w'] r].
    simpl in *. rewrite <- Hlog.
    apply create_all_cached. rewrite Hself. by eexists.
Qed.

(** C6 on a concrete run: two kinds, the first of which uses no flight
    frame. *)
Lemma C6_flight_frames_on_first_create_witness :
  let self := KrpcTelemetryStreamFactory_.__init__ (VInt 1) in
  let s1 := (KrpcTelemetryStreamFactory_.create (Member MET) (self, idle_world)).1 in
  let s2 := (KrpcTelemetryStreamFactory_.create (Member SURFACE_SPEED) s1).1 in
  w_flights s1.2 = [BodyReferenceFrame; VesselReferenceFrame] ∧
  s2.1 = s1.1 ∧ w_flights s2.2 = w_flights s1.2.
Proof.
  intros self s1 s2.
  destruct (C6_flight_frames_on_first_create [] (VInt 1) idle_world) as [Hstep _].
  split.
  - subst s1. apply (Hstep (Member MET) self idle_world). reflexivity.
  - subst s2. destruct s1 as [f1 w1] eqn:Hs1.
    apply (Hstep (Member SURFACE_SPEED) f1 w1).
    subst s1. injection Hs1 as <- <-. by eexists.
Defined.

(** ** From the factory to the snapshot *)

Section pipeline.
Import KrpcTelemetryStreamCollection_.

Lemma py_round_scalar (raw v : PyVal) (ndigits : Z) :
  py_round raw ndigits = Ok v → is_scalar v = true.
Proof.
  destruct raw as [i|x|xs]; simpl; [|..|done].
  - case_match; by intros [= <-].
  - destruct (PyFloat.round x ndigits); simpl; [by intros [= <-]|done].
Qed.

Lemma register_telemetry_handle_ok h self :
  _transform_function h = spec_transform (_telemetry_type h) →
  Forall handle_ok (_streams self) →
  Forall handle_ok (_streams (register_telemetry h self)).
Proof.
  intros Hh Hall. destruct (has_telemetry (_telemetry_type h) self) eqn:Hc.
  - by rewrite register_telemetry_present.
  - rewrite register_telemetry_absent by done. apply Forall_app. split; [done|].
    by repeat constructor.
Qed.

Lemma register_telemetry_elem_of_keys h self k :
  k ∈ PyDict.keys (_streams (register_telemetry h self)) ↔
  k ∈ PyDict.keys (_streams self) ∨ k = _telemetry_type h.
Proof.
  destruct (has_telemetry (_telemetry_type h) self) eqn:Hc.
  - rewrite register_telemetry_present by done.
    apply PyDict_contains_spec in Hc. split; [by left|]. by intros [?| ->].
  - rewrite register_telemetry_absent by done. unfold PyDict.keys.
    rewrite fmap_app, elem_of_app. simpl. by rewrite list_elem_of_singleton.
Qed.

Lemma init_streams_loop_spec types reg s s' reg' :
  Forall handle_ok (_streams reg) →
  init_streams_loop types reg s = (s', Ok reg') →
  Forall handle_ok (_streams reg') ∧
  ∀ k, k ∈ types ∨ k ∈ PyDict.keys (_streams reg) → k ∈ PyDict.keys (_streams reg').
Proof.
  revert reg s. induction types as [|t types IH]; intros reg s Hall; simpl.
  { intros [= <- <-]. split; [done|]. intros k [Hk|Hk]; [|done]. by apply elem_of_nil in Hk. }
  unfold mbind, Eff_bind. destruct s as [self w].
  pose proof (create_member t self w) as Hcr.
  destruct (KrpcTelemetryStreamFactory_.create (Member t) (self, w)) as [s1 [h|e]];
    simpl in Hcr; [|done].
  injection Hcr as ->. intros Hloop.
  apply IH in Hloop as [Hall' Hkeys].
  2:{ by apply register_telemetry_handle_ok. }
  split; [done|]. intros k Hk. apply Hkeys.
  rewrite register_telemetry_elem_of_keys. simpl.
  rewrite elem_of_cons in Hk. destruct Hk as [[->|Hk]|Hk]; auto.
Qed.

Lemma collect_loop_speed (todo : list KrpcTelemetryStream) (w : World)
    (results snap : gmap TelemetryType PyVal) :
  Forall (fun h => _transform_function h = spec_transform (_telemetry_type h)) todo →
  collect_loop todo w results = Ok snap →
  (∀ v, results !! ORBITAL_SPEED = Some v → is_scalar v = true) →
  (∀ v, snap !! ORBITAL_SPEED = Some v → is_scalar v = true) ∧
  (ORBITAL_SPEED ∈ _telemetry_type <$> todo ∨ is_Some (results !! ORBITAL_SPEED) →
   is_Some (snap !! ORBITAL_SPEED)).
Proof.
  revert results. induction todo as [|h todo IH]; intros results Hall; simpl.
  { intros [= <-] Hres. split; [done|]. intros [Hin|?]; [|done]. by apply elem_of_nil in Hin. }
  apply Forall_cons in Hall as [Hh Hall].
  unfold mbind, result_bind at 1.
  destruct (KrpcTelemetryStream_.value h w) as [v|e] eqn:Hv; [|done].
  intros Hloop Hres. apply IH in Hloop as [Hscalar Hsome]; [|done|].
  - split; [done|]. intros Hin. apply Hsome.
    unfold KrpcTelemetryStream_.telemetry_type.
    destruct (decide (_telemetry_type h = ORBITAL_SPEED)) as [->|Hne].
    + right. rewrite lookup_insert_eq. by eexists.
    + rewrite lookup_insert_ne by done.
      destruct Hin as [Hin|Hin]; [|by right].
      apply elem_of_cons in Hin as [Heq|Hin]; [congruence|by left].
  - intros v'. unfold KrpcTelemetryStream_.telemetry_type.
    destruct (decide (_telemetry_type h = ORBITAL_SPEED)) as [Heq|Hne].
    + rewrite Heq, lookup_insert_eq. intros [= <-].
      unfold KrpcTelemetryStream_.value in Hv. rewrite Hh, Heq in Hv. simpl in Hv.
      destruct (stream_call (_stream h) w) as [raw|]; [|done].
      by apply py_round_scalar in Hv.
    + rewrite lookup_insert_ne by done. apply Hres.
Qed.

(** Every snapshot taken from the streams set up for a processor that asks
    for the orbital speed carries it, as a scalar. *)
Lemma pipeline_snapshot_has_speed (types : list TelemetryType)
    (s s' : KrpcTelemetryStreamFactory_.St) (streams : KrpcTelemetryStreamCollection)
    (w : World) (snap : Snapshot) :
  ORBITAL_SPEED ∈ types →
  init_streams_from_telemetry_processor types s = (s', Ok streams) →
  collect_data streams w = Ok snap →
  @OrbitalVelocityStrategy_.has_speed snap = true.
Proof.
  intros Hin Hinit Hsnap.
  apply init_streams_loop_spec in Hinit as [Hall Hkeys]; [|constructor].
  apply collect_loop_speed in Hsnap as [Hscalar Hsome].
  - assert (is_Some (snap !! ORBITAL_SPEED)) as [v Hv].
    { apply Hsome. left. specialize (Hkeys ORBITAL_SPEED (or_introl Hin)).
      unfold PyDict.keys, PyDict.values in *.
      apply list_elem_of_fmap in Hkeys as [[k h] [Hk Hkh]]. simpl in Hk. subst k.
      apply list_elem_of_fmap. exists h. split.
      - rewrite Forall_forall in Hall. by destruct (Hall _ Hkh) as [Hkind _].
      - apply list_elem_of_fmap. by exists (ORBITAL_SPEED, h). }
    unfold OrbitalVelocityStrategy_.has_speed. rewrite Hv. by apply Hscalar.
  - unfold PyDict.values. apply Forall_fmap. eapply Forall_impl; [exact Hall|].
    intros [k h] [Hk Ht]. simpl in *. by rewrite Hk.
  - intros v. by rewrite lookup_empty.
Qed.
End pipeline.

(** ** The decimation of [TelemetryStrategy.collect_data] *)

Section base.
Context {Ext Env : Type} `{!TelemetryStrategyABC Ext Env}.
Import TelemetryStrategy_.
Implicit Types (self : TelemetryStrategy Ext) (env : Env)
  (s : TelemetryStrategy Ext * Env).

Lemma out_of_cadence_false self met :
  out_of_cadence self met = false ↔
  _lastMet self = -1 ∨ met >= _lastMet self + _collect_every_secs self.
Proof.
  unfold out_of_cadence. rewrite andb_false_iff, !bool_decide_eq_false. lia.
Qed.

Lemma collect_data_accept self env met data :
  out_of_cadence self met = false →
  collect_data met data (self, env) = _collect_data met data (set_lastMet met self, env).
Proof. unfold collect_data. by intros ->. Qed.

Lemma collect_data_reject self env met data :
  out_of_cadence self met = true →
  collect_data met data (self, env) = ((self, env), Ok ()).
Proof. unfold collect_data. by intros ->. Qed.

Lemma collect_all_app (l1 l2 : list (Z * Snapshot)) s :
  collect_all (l1 ++ l2) s = collect_all l2 (collect_all l1 s).
Proof.
  revert s. induction l1 as [|[met data] l1 IH]; intros s; [done|]. simpl. apply IH.
Qed.

Lemma collect_data_cadence met data s :
  hook_keeps_cadence Ext Env →
  _lastMet (collect_data met data s).1.1 =
    (if out_of_cadence s.1 met then _lastMet s.1 else met) ∧
  _collect_every_secs (collect_data met data s).1.1 = _collect_every_secs s.1.
Proof.
  intros Hframe. destruct s as [self env]. cbn [fst snd].
  destruct (out_of_cadence self met) eqn:Hooc.
  - by rewrite collect_data_reject.
  - rewrite collect_data_accept by done.
    by destruct (Hframe met data (set_lastMet met self, env)) as [-> ->].
Qed.

Lemma collect_data_after_sentinel met data s :
  hook_keeps_cadence Ext Env →
  _lastMet s.1 = -1 →
  _lastMet (collect_data met data s).1.1 = met ∧
  collect_data met data s = _collect_data met data (set_lastMet met s.1, s.2).
Proof.
  intros Hframe Hl.
  assert (out_of_cadence s.1 met = false) as Hooc.
  { apply out_of_cadence_false. by left. }
  destruct (collect_data_cadence met data s Hframe) as [-> _]. rewrite Hooc.
  split; [done|]. destruct s as [self env]. by apply collect_data_accept.
Qed.

Lemma lastMet_trace_sorted snaps s :
  hook_keeps_cadence Ext Env →
  0 <= _collect_every_secs s.1 →
  -1 <= _lastMet s.1 →
  Forall (fun x : Z * Snapshot => 0 <= x.1) snaps →
  Sorted Z.le (_lastMet s.1 :: lastMet_trace snaps s).
Proof.
  intros Hframe. revert s.
  induction snaps as [|[met data] snaps IH]; intros s Hc Hl Hnn.
  { repeat constructor. }
  apply Forall_cons in Hnn as [Hmet Hnn]. simpl in Hmet.
  destruct (collect_data_cadence met data s Hframe) as [Hl' Hc'].
  assert (_lastMet s.1 <= _lastMet (collect_data met data s).1.1) as Hle.
  { rewrite Hl'. destruct (out_of_cadence s.1 met) eqn:Hooc; [lia|].
    apply out_of_cadence_false in Hooc. lia. }
  simpl. constructor.
  - apply IH; [lia|lia|done].
  - by constructor.
Qed.
End base.

Lemma Recorder_keeps_cadence : hook_keeps_cadence () (list Z).
Proof. by intros met data [self log]. Qed.

Lemma Recorder_collect_all (mets : list Z) (self : TelemetryStrategy ()) (log : list Z) :
  (TelemetryStrategy_.collect_all ((fun met => (met, ∅)) <$> mets) (self, log)).2 =
  log ++ accepted_mets (_collect_every_secs self) (_lastMet self) mets.
Proof.
  revert self log. induction mets as [|met mets IH]; intros self log; simpl.
  { by rewrite app_nil_r. }
  unfold TelemetryStrategy_.collect_data, TelemetryStrategy_.out_of_cadence.
  destruct (_ && _); simpl.
  - apply IH.
  - rewrite IH. simpl. by rewrite <- app_assoc.
Qed.

Lemma accepted_mets_spec_decimate (c last : Z) (mets : list Z) :
  Forall (fun m => m ≠ -1) mets →
  accepted_mets c last mets =
  spec_decimate c (if decide (last = -1) then None else Some last) mets.
Proof.
  revert last. induction mets as [|m mets IH]; intros last Hne; [done|].
  apply Forall_cons in Hne as [Hm Hne]. simpl.
  destruct (decide (last = -1)) as [->|Hlast]; simpl.
  - rewrite IH by done. by rewrite decide_False.
  - rewrite (bool_decide_eq_true_2 (last ≠ -1)) by done. simpl.
    destruct (decide (c + last > m)).
    + rewrite bool_decide_eq_true_2, bool_decide_eq_false_2 by lia.
      rewrite IH by done. by rewrite decide_False.
    + rewrite bool_decide_eq_false_2, bool_decide_eq_true_2 by lia.
      rewrite IH by done. by rewrite decide_False.
Qed.


Section c1.
Context {Ext Env : Type} `{!TelemetryStrategyABC Ext Env}.
Import TelemetryStrategy_.

(** C1, amended.  The first snapshot a strategy receives is accepted
    whatever its met.  Afterwards a snapshot with met M is accepted when
    [_lastMet] is -1 or M >= _lastMet + collect_every_secs, and otherwise
    it is dropped: the call returns normally and nothing has changed.  As
    long as no met of the feed is -1 the accepted mets are those of the
    spec's rule, and with a cadence of 5 the feed [0,1,4,5,6,9,10] leaves
    exactly [0,5,10]. *)
Theorem C1_decimation_rule (self : TelemetryStrategy Ext) (env : Env)
    (met : Z) (data : Snapshot) :
  (∀ c sub, collect_data met data (__init__ c sub, env) =
            _collect_data met data (set_lastMet met (__init__ c sub), env)) ∧
  (_lastMet self = -1 ∨ met >= _lastMet self + _collect_every_secs self →
     collect_data met data (self, env) =
     _collect_data met data (set_lastMet met self, env)) ∧
  (_lastMet self ≠ -1 → met < _lastMet self + _collect_every_secs self →
     collect_data met data (self, env) = ((self, env), Ok ())) ∧
  (∀ c mets, Forall (fun m => m ≠ -1) mets →
             recorded_mets c mets = spec_decimate c None mets) ∧
  recorded_mets 5 [0; 1; 4; 5; 6; 9; 10] = [0; 5; 10].
Proof.
  split; [|split; [|split; [|split]]].
  - intros c sub. by apply collect_data_accept.
  - intros Hacc. by apply collect_data_accept, out_of_cadence_false.
  - intros Hl Hlt. apply collect_data_reject.
    destruct (out_of_cadence self met) eqn:Hooc; [done|].
    apply out_of_cadence_false in Hooc. lia.
  - intros c mets Hne. unfold recorded_mets. rewrite Recorder_collect_all. simpl.
    by rewrite accepted_mets_spec_decimate.
  - reflexivity.
Qed.

(** C10.  For a subclass that leaves the cadence fields alone: a first
    snapshot with met -1 is handed to [_collect_data] and leaves [_lastMet]
    at -1, so the next snapshot is handed over as well, whatever its met.
    With a non-negative cadence, [_lastMet] never decreases along a feed of
    non-negative mets; along the feed -1, -7 it does. *)
Theorem C10_sentinel_collision (Hframe : hook_keeps_cadence Ext Env)
    (c : Z) (sub : Ext) (env : Env) (data data' : Snapshot) (met' : Z) :
  let s0 := (__init__ c sub, env) in
  let s1 := (collect_data (-1) data s0).1 in
  collect_data (-1) data s0 = _collect_data (-1) data s0 ∧
  _lastMet s1.1 = -1 ∧
  collect_data met' data' s1 = _collect_data met' data' (set_lastMet met' s1.1, s1.2) ∧
  (∀ snaps, 0 <= c → Forall (fun x : Z * Snapshot => 0 <= x.1) snaps →
            Sorted Z.le (-1 :: lastMet_trace snaps s0)) ∧
  lastMet_trace [(-1, data); (-7, data')] s0 = [-1; -7].
Proof.
  intros s0 s1.
  assert (_lastMet s1.1 = -1) as Hs1.
  { unfold s1. by destruct (collect_data_cadence (-1) data s0 Hframe) as [-> _]. }
  split; [done|]. split; [done|]. split; [|split].
  - by apply collect_data_after_sentinel.
  - intros snaps Hc Hnn. by apply (lastMet_trace_sorted snaps s0 Hframe).
  - simpl. fold s1. f_equal; [done|]. f_equal.
    by apply collect_data_after_sentinel.
Qed.
End c1.

(** C1, as the claim has it, fails: with a cadence of 5, a first snapshot with
    met -1 is accepted and then so is one with met 0, although 0 is less than
    -1 + 5; the spec's rule accepts only the first. *)
Lemma C1_counterexample :
  recorded_mets 5 [-1; 0] = [-1; 0] ∧
  spec_decimate 5 None [-1; 0] = [-1] ∧
  ¬ (0 >= -1 + 5) ∧
  let data : Snapshot := {[ ORBITAL_SPEED := VInt 2200 ]} in
  pd.index (_dataframe
    (TelemetryStrategy_.collect_all
       (TelemetryStrategyABC0 := OrbitalVelocityStrategy_.ABC (PlotBackend0 := counting_backend))
       [(-1, data); (0, data)]
       (OrbitalVelocityStrategy_.__init__, mkOutside [] 0%nat)).1)
  = [VInt (-1); VInt 0].
Proof. split; [reflexivity|]. split; [reflexivity|]. split; [lia|reflexivity]. Qed.

(** ** The conversions of [pd.concat] *)

Section pandas.
Implicit Types (v : PyVal) (d : pd.dtype) (r : pd.Row) (rows : list pd.Row).

Lemma astype_dtype_of v : pd.astype (pd.dtype_of v) v = v.
Proof.
  destruct v as [i|x|xs]; simpl; [|done..].
  repeat case_bool_decide; done.
Qed.

Lemma astype_widened d v : pd.widened v (pd.astype d v).
Proof.
  destruct d, v as [i|x|xs]; try (by left). right. by exists i.
Qed.

Lemma cast_widened (d : option pd.dtype) v : pd.widened v (pd.cast d v).
Proof. destruct d; [apply astype_widened|by left]. Qed.

Lemma widened_trans v1 v2 v3 : pd.widened v1 v2 → pd.widened v2 v3 → pd.widened v1 v3.
Proof.
  intros [->|(i & -> & ->)] [->|(j & Hj & ->)]; [by left|right; by eexists|right; by eexists|].
  done.
Qed.

Lemma cells_widened_trans (c1 c2 c3 : list (option PyVal)) :
  pd.cells_widened c1 c2 → pd.cells_widened c2 c3 → pd.cells_widened c1 c3.
Proof.
  unfold pd.cells_widened. intros H12. revert c3.
  induction H12 as [|x y l1 l2 Hxy _ IH]; intros c3 H23.
  - by apply Forall2_nil_inv_l in H23 as ->.
  - apply Forall2_cons_inv_l in H23 as (z & l3 & Hyz & H23 & ->).
    constructor; [|by apply IH].
    destruct Hxy as [a b Hab|]; inversion Hyz; subst; constructor.
    by eapply widened_trans.
Qed.

Lemma row_widened_trans r1 r2 r3 :
  pd.row_widened r1 r2 → pd.row_widened r2 r3 → pd.row_widened r1 r3.
Proof.
  intros [H1 H2] [H3 H4]. split; [by eapply widened_trans|by eapply cells_widened_trans].
Qed.

Lemma length_unify n rows : length (pd.unify n rows) = length rows.
Proof. unfold pd.unify. by rewrite length_fmap. Qed.

(** A value of the dtype all the values of its column have is stored as it is. *)
Lemma cast_result_type_same d (cells : list (option PyVal)) v :
  Forall (fun c => pd.cell_dtype c = d) cells →
  pd.dtype_of v = d →
  pd.cast (pd.result_type cells) v = v.
Proof.
  intros Hall Hv.
  assert (pd.result_type cells = None ∨ pd.result_type cells = Some d) as [->| ->].
  { induction Hall as [|c cells Hc _ IH]; [by left|]. right. simpl.
    destruct IH as [-> | ->]; rewrite Hc; [done|]. by destruct d. }
  - done.
  - simpl. rewrite <- Hv. apply astype_dtype_of.
Qed.

Lemma unify_single (i c : PyVal) : pd.unify 1 [(i, [Some c])] = [(i, [Some c])].
Proof. unfold pd.unify. simpl. by rewrite !astype_dtype_of. Qed.

(** What [unify] does to a table of one column, row by row. *)
Lemma unify_one_column rows :
  Forall (fun r => length r.2 = 1%nat) rows →
  ∃ di dc, pd.unify 1 rows =
           (fun r : PyVal * list (option PyVal) =>
              (pd.cast di r.1, (fun c : option PyVal => pd.cast dc <$> c) <$> r.2)) <$> rows.
Proof.
  intros Hlen. eexists _, _. unfold pd.unify. simpl.
  apply Forall_fmap_ext_1. eapply Forall_impl; [exact Hlen|].
  intros [i [|c [|? ?]]] Hr; by simplify_eq/=.
Qed.

Lemma unify_widened rows :
  Forall (fun r => length r.2 = 1%nat) rows →
  Forall2 pd.row_widened rows (pd.unify 1 rows).
Proof.
  intros Hlen. destruct (unify_one_column rows Hlen) as (di & dc & ->).
  apply Forall2_fmap_r, Forall_Forall2_diag, Forall_forall. intros r _.
  split; simpl; [apply cast_widened|].
  apply Forall2_fmap_r, Forall_Forall2_diag, Forall_forall. intros [c|] _; simpl;
    constructor. apply cast_widened.
Qed.

Lemma unify_one_column_ok rows :
  Forall (fun r => length r.2 = 1%nat) rows →
  Forall (fun r => length r.2 = 1%nat) (pd.unify 1 rows).
Proof.
  intros Hlen. pose proof (unify_widened rows Hlen) as Hw.
  induction Hw as [|r r' rows rows' [_ Hc] _ IH]; [done|].
  apply Forall_cons in Hlen as [Hr Hlen]. constructor; [|by apply IH].
  apply Forall2_length in Hc. by rewrite <- Hc.
Qed.

(** Rows whose mets have one dtype and whose speeds have one dtype are
    stored as they are. *)
Lemma unify_same_dtypes (di dc : pd.dtype) rows :
  Forall (fun r => pd.dtype_of r.1 = di ∧ ∃ c, r.2 = [Some c] ∧ pd.dtype_of c = dc) rows →
  pd.unify 1 rows = rows.
Proof.
  intros Hall. unfold pd.unify. simpl.
  etrans; [|apply (list_fmap_id rows)]. apply Forall_fmap_ext_1.
  apply Forall_forall. intros [i cells] Hin.
  pose proof (proj1 (Forall_forall _ _) Hall _ Hin) as (Hi & c & Hcells & Hc).
  simpl in *. subst cells. simpl.
  rewrite (cast_result_type_same di), (cast_result_type_same dc); try done.
  - apply Forall_fmap, Forall_forall. intros r Hr.
    destruct (proj1 (Forall_forall _ _) Hall _ Hr) as (_ & c' & Hr2 & ?).
    simpl. by rewrite Hr2.
  - apply Forall_fmap, Forall_fmap, Forall_forall. intros r Hr.
    by destruct (proj1 (Forall_forall _ _) Hall _ Hr) as (? & _).
Qed.
End pandas.

(** ** The table of [OrbitalVelocityStrategy] *)

Lemma realign_one (cells : list (option PyVal)) :
  length cells = 1%nat →
  pd.realign [ORBITAL_SPEED] [ORBITAL_SPEED] cells = cells.
Proof. by destruct cells as [|x [|? ?]]. Qed.

Lemma merge_row_ok (df : pd.DataFrame) (met : Z) (c : PyVal) :
  table_ok df →
  merge_row df met c =
  pd.mkDataFrame (Some MET) [ORBITAL_SPEED]
    (pd.unify 1 (pd.rows df ++ [(VInt met, [Some c])])).
Proof.
  intros [->|(Hi & Hc & Hr)].
  { unfold merge_row. simpl. by rewrite unify_single. }
  unfold merge_row. case_bool_decide as Hlen.
  - unfold pd.concat. rewrite Hi, Hc. simpl pd.index_name. simpl pd.columns.
    rewrite decide_True by done.
    change ([ORBITAL_SPEED] ++ filter (λ c0, c0 ∉ [ORBITAL_SPEED]) [ORBITAL_SPEED])
      with [ORBITAL_SPEED].
    f_equal. f_equal. f_equal.
    etrans; [|apply list_fmap_id]. apply Forall_fmap_ext_1.
    eapply Forall_impl; [exact Hr|]. intros [i cells] Hcells. cbn [fst snd] in *.
    unfold id. f_equal. by apply realign_one.
  - assert (pd.rows df = []) as ->.
    { unfold pd.len in Hlen. destruct (pd.rows df); [done|]. simpl in Hlen. lia. }
    by rewrite app_nil_l, unify_single.
Qed.

Lemma merge_row_table_ok (df : pd.DataFrame) (met : Z) (c : PyVal) :
  table_ok df → table_ok (merge_row df met c).
Proof.
  intros Hok. rewrite merge_row_ok by done. right. cbn [pd.index_name pd.columns pd.rows].
  split; [done|]. split; [done|]. apply unify_one_column_ok, Forall_app. split.
  - destruct Hok as [->|(_ & _ & Hr)]; [constructor|done].
  - by repeat constructor.
Qed.

Lemma merge_row_len (df : pd.DataFrame) met c :
  table_ok df → pd.len (merge_row df met c) = pd.len df + 1.
Proof.
  intros Hok. rewrite merge_row_ok by done. unfold pd.len. simpl.
  rewrite length_unify, length_app. simpl. lia.
Qed.

Lemma row_widened_refl (r : pd.Row) : pd.row_widened r r.
Proof.
  split; [by left|]. apply Forall_Forall2_diag, Forall_forall.
  intros [c|] _; constructor. by left.
Qed.

(** Merging keeps every row in its place; the values of a row are what they
    were, or the floats they were converted to. *)
Lemma merged_widened (before new : list pd.Row) :
  Forall (fun r : pd.Row => length r.2 = 1%nat) (before ++ new) →
  Forall2 pd.row_widened (before ++ new) (merged before new).
Proof.
  intros Hlen. destruct new as [|r new].
  - simpl. rewrite app_nil_r. apply Forall_Forall2_diag, Forall_forall.
    intros r _. apply row_widened_refl.
  - by apply unify_widened.
Qed.

Lemma merged_same_dtypes (di dc : pd.dtype) (before new : list pd.Row) :
  Forall (row_dtypes di dc) before → Forall (row_dtypes di dc) new →
  merged before new = before ++ new.
Proof.
  intros Hb Hn. destruct new as [|r new]; [by rewrite app_nil_r|].
  unfold merged. apply (unify_same_dtypes di dc), Forall_app. by split.
Qed.

Lemma accepted_rows_index c last (snaps : list (Z * Snapshot)) :
  (accepted_rows c last snaps).*1 = VInt <$> accepted_mets c last snaps.*1.
Proof.
  revert last. induction snaps as [|[met data] snaps IH]; intros last; [done|].
  simpl. destruct (_ && _); simpl; by rewrite IH.
Qed.

Lemma accepted_rows_dtypes di dc c last (snaps : list (Z * Snapshot)) :
  Forall (same_dtypes di dc) snaps →
  Forall (row_dtypes di dc) (accepted_rows c last snaps).
Proof.
  intros Hall. revert last. induction Hall as [|[met data] snaps (Hsp & Hi & Hc) _ IH];
    intros last; [constructor|].
  simpl. destruct (_ && _); [apply IH|]. constructor; [|apply IH].
  split; [done|]. by eexists.
Qed.

Section ovs.
Context {Fig Sink : Type} `{!PlotBackend Fig Sink}.
Import TelemetryStrategy_ OrbitalVelocityStrategy_.
Implicit Types (self : TelemetryStrategy (option Fig)) (out : Outside Sink)
  (s : TelemetryStrategy (option Fig) * Outside Sink).

Lemma refresh_frame self out :
  let s' := (refresh (self, out)).1 in
  _collect_every_secs s'.1 = _collect_every_secs self ∧
  _lastMet s'.1 = _lastMet self ∧
  _dataframe s'.1 = _dataframe self ∧
  stdout s'.2 = stdout out.
Proof.
  unfold refresh, mbind, Eff_bind, eff_get, render, set_fig, eff_modify, eff_raise. cbn.
  case_bool_decide; cbn.
  - destruct (plot (_dataframe self) (sink out)) as [k [f|e]]; cbn; [|done].
    destruct (show f k) as [k' [[]|e]]; cbn; [|done].
    by destruct (batch_update f k') as [k'' r].
  - destruct (ext self) as [f|]; cbn; [|done].
    by destruct (batch_update f (sink out)) as [k'' r].
Qed.

Lemma accumulate_unfold met data self out :
  accumulate met data (self, out) =
  match data !! ORBITAL_SPEED with
  | None => ((self, out), Raise (KeyError ORBITAL_SPEED))
  | Some v =>
      let printed := mkOutside (stdout out ++ [(ORBITAL_SPEED, v)]) (sink out) in
      match pd.cell_of v with
      | Ok c =>
          ((mkTelemetryStrategy (_collect_every_secs self) (_lastMet self)
              (merge_row (_dataframe self) met c) (ext self), printed), Ok ())
      | Raise e => ((self, printed), Raise e)
      end
  end.
Proof.
  unfold accumulate, getitem, eff_lift. unfold mbind at 1, Eff_bind at 1.
  destruct (data !! ORBITAL_SPEED) as [v|] eqn:Hv; [|done].
  cbn [fst snd].
  unfold mbind, Eff_bind, print, eff_modify, eff_get, set_dataframe, pd.DataFrame_dict. cbn.
  by destruct (pd.cell_of v) as [c|e] eqn:Hc.
Qed.

Lemma accumulate_effect met data self out :
  let s' := (accumulate met data (self, out)).1 in
  _collect_every_secs s'.1 = _collect_every_secs self ∧
  _lastMet s'.1 = _lastMet self ∧
  ext s'.1 = ext self ∧
  _dataframe s'.1 =
    match data !! ORBITAL_SPEED with
    | Some v => match pd.cell_of v with
                | Ok c => merge_row (_dataframe self) met c
                | Raise _ => _dataframe self
                end
    | None => _dataframe self
    end.
Proof.
  rewrite accumulate_unfold.
  destruct (data !! ORBITAL_SPEED) as [v|]; [|done]. simpl.
  by destruct (pd.cell_of v).
Qed.

(** The rows [_collect_data] adds to the table for a snapshot. *)
Lemma _collect_data_effect met data self out :
  let s' := (OrbitalVelocityStrategy_._collect_data met data (self, out)).1 in
  _collect_every_secs s'.1 = _collect_every_secs self ∧
  _lastMet s'.1 = _lastMet self ∧
  _dataframe s'.1 =
    match data !! ORBITAL_SPEED with
    | Some v => match pd.cell_of v with
                | Ok c => merge_row (_dataframe self) met c
                | Raise _ => _dataframe self
                end
    | None => _dataframe self
    end.
Proof.
  unfold OrbitalVelocityStrategy_._collect_data, mbind, Eff_bind.
  destruct (accumulate_effect met data self out) as (Hc & Hl & _ & Hd).
  destruct (accumulate met data (self, out)) as [[self1 out1] [[]|e]];
    cbn [fst snd] in *; [|done].
  destruct (refresh_frame self1 out1) as (Hc' & Hl' & Hd' & _).
  exact (conj (eq_trans Hc' Hc) (conj (eq_trans Hl' Hl) (eq_trans Hd' Hd))).
Qed.

Lemma collect_data_accepted met data self out :
  out_of_cadence self met = false →
  collect_data met data (self, out) =
  OrbitalVelocityStrategy_._collect_data met data (set_lastMet met self, out).
Proof. unfold collect_data. by intros ->. Qed.

Lemma derived_rows_one_column self met data :
  Forall (fun r : pd.Row => length r.2 = 1%nat) (derived_rows self met data).
Proof. unfold derived_rows. repeat case_match; by repeat constructor. Qed.

Lemma collect_data_step met data s :
  table_ok (_dataframe s.1) →
  let s' := (collect_data met data s).1 in
  table_ok (_dataframe s'.1) ∧
  _collect_every_secs s'.1 = _collect_every_secs s.1 ∧
  _lastMet s'.1 = (if out_of_cadence s.1 met then _lastMet s.1 else met) ∧
  pd.rows (_dataframe s'.1) =
    merged (pd.rows (_dataframe s.1)) (derived_rows s.1 met data).
Proof.
  destruct s as [self out]. intros Hok. unfold derived_rows. cbn [fst snd].
  destruct (out_of_cadence self met) eqn:Hooc.
  - rewrite collect_data_reject by done. by cbn.
  - rewrite collect_data_accepted by done.
    pose proof (_collect_data_effect met data (set_lastMet met self) out) as H.
    cbv zeta in H.
    destruct (OrbitalVelocityStrategy_._collect_data met data (set_lastMet met self, out))
      as [[self' out'] r].
    cbn [fst snd set_lastMet _collect_every_secs _lastMet _dataframe] in H |- *.
    destruct H as (Hc & Hl & Hd). rewrite Hc, Hl, Hd.
    split; [|split; [done|split; [done|]]].
    + destruct (data !! ORBITAL_SPEED) as [v|]; [|done].
      destruct (pd.cell_of v); [|done]. by apply merge_row_table_ok.
    + destruct (data !! ORBITAL_SPEED) as [v|]; [|done].
      destruct (pd.cell_of v); [|done].
      by rewrite merge_row_ok.
Qed.

Lemma table_ok_one_column (df : pd.DataFrame) :
  table_ok df → Forall (fun r : pd.Row => length r.2 = 1%nat) (pd.rows df).
Proof. by intros [->|(_ & _ & Hr)]; [constructor|]. Qed.

(** A call keeps the rows of the table in their places, values converted
    at most, and puts the rows it derives after them. *)
Lemma collect_data_widened met data s :
  table_ok (_dataframe s.1) →
  Forall2 pd.row_widened
    (pd.rows (_dataframe s.1) ++ derived_rows s.1 met data)
    (pd.rows (_dataframe (collect_data met data s).1.1)).
Proof.
  intros Hok. destruct (collect_data_step met data s Hok) as (_ & _ & _ & ->).
  apply merged_widened, Forall_app. split.
  - by apply table_ok_one_column.
  - apply derived_rows_one_column.
Qed.

Lemma has_speed_derived_rows self met data :
  has_speed data = true →
  derived_rows self met data =
    if out_of_cadence self met then [] else [row_of met (speed_of data)].
Proof.
  unfold has_speed, derived_rows, speed_of, row_of.
  destruct (data !! ORBITAL_SPEED) as [[]|]; try done.
Qed.

Lemma has_speed_cell data :
  has_speed data = true →
  data !! ORBITAL_SPEED = Some (speed_of data) ∧ pd.cell_of (speed_of data) = Ok (speed_of data).
Proof.
  unfold has_speed, speed_of. destruct (data !! ORBITAL_SPEED) as [[]|]; by simpl.
Qed.

Lemma collect_all_table_ok snaps s :
  table_ok (_dataframe s.1) → table_ok (_dataframe (collect_all snaps s).1).
Proof.
  revert s. induction snaps as [|[met data] snaps IH]; intros s Hok; [done|].
  simpl. apply IH. by apply collect_data_step.
Qed.

Lemma collect_all_every_secs snaps s :
  table_ok (_dataframe s.1) →
  _collect_every_secs (collect_all snaps s).1 = _collect_every_secs s.1.
Proof.
  revert s. induction snaps as [|[met data] snaps IH]; intros s Hok; [done|].
  simpl. destruct (collect_data_step met data s Hok) as (Hok' & Hc & _).
  by rewrite IH.
Qed.

Lemma accepted_rows_cons s met data (snaps : list (Z * Snapshot)) :
  has_speed data = true →
  accepted_rows (_collect_every_secs s.1) (_lastMet s.1) ((met, data) :: snaps) =
  derived_rows s.1 met data ++
  accepted_rows (_collect_every_secs s.1)
    (if out_of_cadence s.1 met then _lastMet s.1 else met) snaps.
Proof.
  intros Hsp. rewrite has_speed_derived_rows by done. simpl. unfold out_of_cadence.
  by destruct (_ && _).
Qed.

(** Along a feed of snapshots with a speed the table is its rows followed
    by the rows of the accepted snapshots, in order, values converted at
    most. *)
Lemma collect_all_widened snaps s :
  table_ok (_dataframe s.1) →
  Forall (fun x : Z * Snapshot => has_speed x.2 = true) snaps →
  Forall2 pd.row_widened
    (pd.rows (_dataframe s.1) ++
     accepted_rows (_collect_every_secs s.1) (_lastMet s.1) snaps)
    (pd.rows (_dataframe (collect_all snaps s).1)).
Proof.
  revert s. induction snaps as [|[met data] snaps IH]; intros s Hok Hsp.
  { simpl. rewrite app_nil_r. apply Forall_Forall2_diag, Forall_forall.
    intros r _. apply row_widened_refl. }
  apply Forall_cons in Hsp as [Hd Hsp]. simpl in Hd.
  destruct (collect_data_step met data s Hok) as (Hok' & Hc & Hl & _).
  pose proof (collect_data_widened met data s Hok) as Hstep.
  specialize (IH _ Hok' Hsp). rewrite Hc, Hl in IH.
  rewrite accepted_rows_cons, app_assoc by done.
  change (collect_all ((met, data) :: snaps) s)
    with (collect_all snaps (collect_data met data s).1).
  eapply Forall2_trans; [|apply Forall2_app; [exact Hstep|]|exact IH].
  - intros r1 r2 r3. apply row_widened_trans.
  - apply Forall_Forall2_diag, Forall_forall. intros r _. apply row_widened_refl.
Qed.

(** When the mets of the feed have one dtype and its speeds have one dtype,
    nothing is converted. *)
Lemma collect_all_same_dtypes di dc snaps s :
  table_ok (_dataframe s.1) →
  Forall (row_dtypes di dc) (pd.rows (_dataframe s.1)) →
  Forall (same_dtypes di dc) snaps →
  pd.rows (_dataframe (collect_all snaps s).1) =
    pd.rows (_dataframe s.1) ++
    accepted_rows (_collect_every_secs s.1) (_lastMet s.1) snaps.
Proof.
  revert s. induction snaps as [|[met data] snaps IH]; intros s Hok Hrows Hsp.
  { simpl. by rewrite app_nil_r. }
  apply Forall_cons in Hsp as [Hd Hsp].
  destruct (collect_data_step met data s Hok) as (Hok' & Hc & Hl & Hr).
  pose proof (accepted_rows_dtypes di dc (_collect_every_secs s.1) (_lastMet s.1)
                [(met, data)] ltac:(by constructor)) as Hnew.
  destruct Hd as (Hd & _). simpl in Hd.
  rewrite accepted_rows_cons in Hnew |- * by done. rewrite app_nil_r in Hnew.
  rewrite (merged_same_dtypes di dc) in Hr by done.
  change (collect_all ((met, data) :: snaps) s)
    with (collect_all snaps (collect_data met data s).1).
  rewrite IH; [|done| |done].
  - by rewrite Hr, Hc, Hl, app_assoc.
  - rewrite Hr. apply Forall_app. by split.
Qed.

(** An accepted snapshot that carries a speed: the row is merged, the speed
    printed, and the chart refreshed on the state so reached. *)
Lemma collect_data_accumulated met data self out :
  out_of_cadence self met = false →
  has_speed data = true →
  collect_data met data (self, out) =
  refresh
    (mkTelemetryStrategy (_collect_every_secs self) met
       (merge_row (_dataframe self) met (speed_of data)) (ext self),
     mkOutside (stdout out ++ [(ORBITAL_SPEED, speed_of data)]) (sink out)).
Proof.
  intros Hooc [Hv Hc]%has_speed_cell. rewrite collect_data_accepted by done.
  unfold OrbitalVelocityStrategy_._collect_data, mbind, Eff_bind.
  rewrite accumulate_unfold. simpl. by rewrite Hv, Hc.
Qed.

Lemma refresh_unfold_later self out :
  pd.len (_dataframe self) ≠ 1 →
  refresh (self, out) =
  match ext self with
  | Some f => let '(k, r) := batch_update f (sink out) in
              ((self, mkOutside (stdout out) k), r)
  | None => ((self, out), Raise AttributeError)
  end.
Proof.
  intros Hlen. unfold refresh, mbind, Eff_bind, eff_get, render, eff_raise. cbn.
  rewrite bool_decide_eq_false_2 by done. cbn.
  by destruct (ext self).
Qed.

Lemma refresh_unfold_first self out :
  pd.len (_dataframe self) = 1 →
  refresh (self, out) =
  match plot (_dataframe self) (sink out) with
  | (k, Raise e) => ((self, mkOutside (stdout out) k), Raise e)
  | (k, Ok f) =>
      let self' := mkTelemetryStrategy (_collect_every_secs self) (_lastMet self)
                     (_dataframe self) (Some f) in
      match show f k with
      | (k', Raise e) => ((self', mkOutside (stdout out) k'), Raise e)
      | (k', Ok _) => let '(k'', r) := batch_update f k' in
                      ((self', mkOutside (stdout out) k''), r)
      end
  end.
Proof.
  intros Hlen. unfold refresh, mbind, Eff_bind, eff_get, render, set_fig, eff_modify. cbn.
  rewrite bool_decide_eq_true_2 by done. cbn.
  destruct (plot (_dataframe self) (sink out)) as [k [f|e]]; cbn; [|done].
  by destruct (show f k) as [k' [[]|e]].
Qed.
End ovs.

Section ovs_claims.
Context {Fig Sink : Type} `{!PlotBackend Fig Sink}.
Import TelemetryStrategy_ OrbitalVelocityStrategy_.

(** C4.  Whatever the snapshots and the plotting backend, a call keeps every
    row of the table in its place and adds at most one row after them; but a
    kept row is not always what it was, as [pd.concat] converts the values of
    the index and of the column to the common dtype of old and new, an integer
    becoming a float.  When every snapshot carries a scalar orbital speed, the
    table has as many rows as samples were accepted, its index is the accepted
    mets in order, converted at most, and each call leaves the table as the
    merge of its rows with the row of the snapshot if it accepts it.  When in
    addition the mets have one dtype and the speeds have one dtype, nothing
    is converted: the index is the list of accepted mets and each call
    extends the table by the row of its snapshot if it accepts it and by
    nothing otherwise. *)
Theorem C4_table_append_only (out : Outside Sink) (snaps : list (Z * Snapshot)) :
  let after (fed : list (Z * Snapshot)) : TelemetryStrategy (option Fig) :=
    (collect_all fed (__init__, out)).1 in
  let table (fed : list (Z * Snapshot)) : list pd.Row :=
    pd.rows (_dataframe (after fed)) in
  (∀ pre met data,
     ∃ kept added, table (pre ++ [(met, data)]) = kept ++ added ∧
       Forall2 pd.row_widened (table pre) kept ∧ (length added ≤ 1)%nat) ∧
  (Forall (fun x : Z * Snapshot => has_speed x.2 = true) snaps →
     length (table snaps) = length (accepted_mets 5 (-1) snaps.*1) ∧
     Forall2 pd.widened (VInt <$> accepted_mets 5 (-1) snaps.*1)
       (pd.index (_dataframe (after snaps))) ∧
     ∀ pre met data post, snaps = pre ++ (met, data) :: post →
       table (pre ++ [(met, data)]) =
       merged (table pre)
         (if out_of_cadence (after pre) met then [] else [row_of met (speed_of data)])) ∧
  (∀ di dc, Forall (same_dtypes di dc) snaps →
     pd.index (_dataframe (after snaps)) = VInt <$> accepted_mets 5 (-1) snaps.*1 ∧
     ∀ pre met data post, snaps = pre ++ (met, data) :: post →
       table (pre ++ [(met, data)]) =
       table pre ++
       (if out_of_cadence (after pre) met then [] else [row_of met (speed_of data)])).
Proof.
  intros after table.
  assert (∀ fed, table_ok (_dataframe (after fed))) as Hok.
  { intros fed. apply collect_all_table_ok. by left. }
  assert (∀ pre met data,
    table (pre ++ [(met, data)]) =
    merged (table pre) (derived_rows (after pre) met data)) as Hstep.
  { intros pre met data. unfold table, after. rewrite collect_all_app. simpl.
    apply collect_data_step, Hok. }
  assert (∀ fed, Forall (fun x : Z * Snapshot => has_speed x.2 = true) fed →
    Forall2 pd.row_widened (accepted_rows 5 (-1) fed) (table fed)) as Hwid.
  { intros fed Hsp. apply (collect_all_widened fed (__init__, out)); [by left|done]. }
  assert (∀ di dc fed, Forall (same_dtypes di dc) fed →
    table fed = accepted_rows 5 (-1) fed) as Hsame.
  { intros di dc fed Hsd.
    apply (collect_all_same_dtypes di dc fed (__init__, out)); [by left|constructor|done]. }
  split; [|split].
  - intros pre met data. rewrite Hstep.
    pose proof (merged_widened (table pre) (derived_rows (after pre) met data)) as Hm.
    destruct (Forall2_app_inv_l pd.row_widened (table pre)
                (derived_rows (after pre) met data)
                (merged (table pre) (derived_rows (after pre) met data)))
      as [(kept & added & Hkept & Hadded & Heq) _].
    { apply Hm, Forall_app. split; [apply table_ok_one_column, Hok|].
      apply derived_rows_one_column. }
    exists kept, added. split; [done|]. split; [done|].
    apply Forall2_length in Hadded. rewrite <- Hadded.
    unfold derived_rows. repeat case_match; simpl; lia.
  - intros Hsp. split; [|split].
    + pose proof (Forall2_length _ _ _ (Hwid snaps Hsp)) as Hlen.
      pose proof (f_equal length (accepted_rows_index 5 (-1) snaps)) as Hacc.
      rewrite !length_fmap in Hacc. exact (eq_trans (eq_sym Hlen) Hacc).
    + rewrite <- accepted_rows_index. unfold pd.index. apply Forall2_fmap.
      eapply Forall2_impl; [apply (Hwid snaps Hsp)|]. by intros r r' [? _].
    + intros pre met data post ->. rewrite Hstep.
      rewrite has_speed_derived_rows; [done|].
      apply Forall_app in Hsp as [_ Hsp]. by apply Forall_cons in Hsp as [Hd _].
  - intros di dc Hsd. split.
    + unfold pd.index. fold (table snaps). rewrite (Hsame di dc) by done.
      apply accepted_rows_index.
    + intros pre met data post ->. rewrite Hstep.
      apply Forall_app in Hsd as [Hpre Hsd]. apply Forall_cons in Hsd as [Hd _].
      rewrite has_speed_derived_rows by apply Hd.
      apply (merged_same_dtypes di dc).
      * rewrite (Hsame di dc) by done. by apply accepted_rows_dtypes.
      * destruct (out_of_cadence (after pre) met); [constructor|].
        destruct Hd as (_ & Hi & Hc). repeat constructor; [done|]. by eexists.
Qed.

(** C8.  Whatever the plotting backend does, also when its calls raise: a
    snapshot that is in cadence and carries a scalar orbital speed has its
    row at the end of the table when [collect_data] is left, with [_lastMet]
    set to its met and the speed printed.  The call itself does not shield its
    caller from the backend: when [plot] raises on the first row the call
    raises the same exception and [self.fig] stays as it was, and on a later
    row the call raises [AttributeError] if [self.fig] is still [None] and
    otherwise ends as [batch_update] does. *)
Theorem C8_row_appended_whatever_the_sink (out : Outside Sink)
    (history : list (Z * Snapshot)) (met : Z) (data : Snapshot) :
  let s := collect_all history (OrbitalVelocityStrategy_.__init__ (Fig := Fig), out) in
  out_of_cadence s.1 met = false →
  has_speed data = true →
  let r := collect_data met data s in
  let table := merge_row (_dataframe s.1) met (speed_of data) in
  _dataframe r.1.1 = table ∧
  (∃ kept new, pd.rows table = kept ++ [new] ∧
     Forall2 pd.row_widened (pd.rows (_dataframe s.1)) kept ∧
     pd.row_widened (row_of met (speed_of data)) new) ∧
  pd.rows table = pd.unify 1 (pd.rows (_dataframe s.1) ++ [row_of met (speed_of data)]) ∧
  _lastMet r.1.1 = met ∧
  _collect_every_secs r.1.1 = 5 ∧
  stdout r.1.2 = stdout s.2 ++ [(ORBITAL_SPEED, speed_of data)] ∧
  (pd.rows (_dataframe s.1) = [] →
     ∀ k e, plot table (sink s.2) = (k, Raise e) →
       r.2 = Raise e ∧ ext r.1.1 = ext s.1) ∧
  (pd.rows (_dataframe s.1) ≠ [] →
     r.2 = match ext s.1 with
           | Some f => (batch_update f (sink s.2)).2
           | None => Raise AttributeError
           end).
Proof.
  intros s Hooc Hsp r table.
  assert (table_ok (_dataframe s.1)) as Hok by (apply collect_all_table_ok; by left).
  assert (_collect_every_secs s.1 = 5) as Hsecs.
  { unfold s. rewrite collect_all_every_secs; [done|by left]. }
  assert (pd.rows table =
    pd.unify 1 (pd.rows (_dataframe s.1) ++ [row_of met (speed_of data)])) as Hrows.
  { unfold table. by rewrite merge_row_ok. }
  assert (r = refresh
    (mkTelemetryStrategy (_collect_every_secs s.1) met table (ext s.1),
     mkOutside (stdout s.2 ++ [(ORBITAL_SPEED, speed_of data)]) (sink s.2))) as Hr.
  { unfold r. destruct s as [self out0]. by apply collect_data_accumulated. }
  match type of Hr with _ = refresh (?a, ?b) =>
    pose proof (refresh_frame a b) as Hfr; cbv zeta in Hfr; rewrite <- Hr in Hfr end.
  cbn [_collect_every_secs _lastMet _dataframe stdout] in Hfr.
  destruct Hfr as (Hc & Hl & Hd & Ho).
  split; [exact Hd|]. split; [|split; [exact Hrows|split; [exact Hl|split;
    [exact (eq_trans Hc Hsecs)|split; [exact Ho|split]]]]].
  - rewrite Hrows.
    destruct (Forall2_app_inv_l pd.row_widened (pd.rows (_dataframe s.1))
                [row_of met (speed_of data)]
                (pd.unify 1 (pd.rows (_dataframe s.1) ++ [row_of met (speed_of data)])))
      as [(kept & added & Hkept & Hadded & Heq) _].
    { apply unify_widened, Forall_app. split; [by apply table_ok_one_column|].
      by repeat constructor. }
    apply Forall2_cons_inv_l in Hadded as (new & rest & Hnew & Hrest & ->).
    apply Forall2_nil_inv_l in Hrest as ->. by exists kept, new.
  - intros Hnil k e Hplot. rewrite Hr, refresh_unfold_first.
    + cbn [_dataframe sink]. by rewrite Hplot.
    + cbn [_dataframe]. unfold table. rewrite merge_row_len by done.
      unfold pd.len. by rewrite Hnil.
  - intros Hne. rewrite Hr, refresh_unfold_later.
    + cbn [ext sink]. destruct (ext s.1) as [f|]; [|done].
      by destruct (batch_update f (sink s.2)).
    + cbn [_dataframe]. unfold table. rewrite merge_row_len by done.
      unfold pd.len. destruct (pd.rows (_dataframe s.1)); [done|]. simpl. lia.
Qed.

(** C7.  What the code does: a new strategy holds the frame of
    [pd.DataFrame()], with no column and no index name, which is not the
    frame [_create_dataframe] builds; nothing calls [_create_dataframe].
    The columns show up with the first row, and are then the orbital speed
    indexed by the mission elapsed time whatever the snapshot holds. *)
Theorem C7_table_schema_at_construction (out : Outside Sink) (met : Z) (data : Snapshot) :
  _dataframe (OrbitalVelocityStrategy_.__init__ (Fig := Fig)) = pd.DataFrame_ ∧
  pd.columns (_dataframe (OrbitalVelocityStrategy_.__init__ (Fig := Fig))) = [] ∧
  pd.index_name (_dataframe (OrbitalVelocityStrategy_.__init__ (Fig := Fig))) = None ∧
  OrbitalVelocityStrategy_._create_dataframe =
    Ok (pd.mkDataFrame (Some MET) [ORBITAL_SPEED] []) ∧
  Ok (_dataframe (OrbitalVelocityStrategy_.__init__ (Fig := Fig)))
    ≠ OrbitalVelocityStrategy_._create_dataframe ∧
  let first := (collect_data met data (OrbitalVelocityStrategy_.__init__, out)).1.1 in
  _dataframe first = pd.DataFrame_ ∨
  (pd.index_name (_dataframe first) = Some MET ∧
   pd.columns (_dataframe first) = [ORBITAL_SPEED]).
Proof.
  repeat split; try discriminate.
  destruct (collect_data_step met data (__init__, out)) as (Hok & _); [by left|].
  destruct Hok as [?|(? & ? & _)]; [by left|by right].
Qed.
End ovs_claims.

(** Both subclasses leave the cadence fields alone. *)
Lemma OrbitalVelocityStrategy_keeps_cadence {Fig Sink : Type} `{!PlotBackend Fig Sink} :
  hook_keeps_cadence (option Fig) (Outside Sink).
Proof.
  intros met data [self out].
  by destruct (_collect_data_effect met data self out) as (Hc & Hl & _).
Qed.

(** ** The theorems on concrete runs *)

Lemma C1_decimation_rule_witness :
  let self := TelemetryStrategy_.set_lastMet 0 (TelemetryStrategy_.__init__ 5 ()) in
  TelemetryStrategy_.collect_data 5 ∅ (self, [0]) =
    ((TelemetryStrategy_.set_lastMet 5 self, [0; 5]), Ok ()) ∧
  TelemetryStrategy_.collect_data 4 ∅ (self, [0]) = ((self, [0]), Ok ()) ∧
  recorded_mets 5 [0; 1; 4; 5; 6; 9; 10] = spec_decimate 5 None [0; 1; 4; 5; 6; 9; 10].
Proof.
  intros self.
  split; [|split].
  - destruct (C1_decimation_rule self [0] 5 ∅) as (_ & Hacc & _).
    rewrite Hacc; [reflexivity|]. right. vm_compute. discriminate.
  - destruct (C1_decimation_rule self [0] 4 ∅) as (_ & _ & Hrej & _).
    apply Hrej; [discriminate|reflexivity].
  - destruct (C1_decimation_rule self [0] 4 ∅) as (_ & _ & _ & Hspec & _).
    apply Hspec. repeat constructor; discriminate.
Defined.

Lemma C10_sentinel_collision_witness :
  let s0 := (TelemetryStrategy_.__init__ 5 (), @nil Z) in
  let s1 := (TelemetryStrategy_.collect_data (-1) ∅ s0).1 in
  s1 = (TelemetryStrategy_.__init__ 5 (), [-1]) ∧
  (TelemetryStrategy_.collect_data 0 ∅ s1).1.2 = [-1; 0] ∧
  Sorted Z.le (-1 :: TelemetryStrategy_.lastMet_trace [(0, ∅); (3, ∅); (7, ∅)] s0).
Proof.
  intros s0 s1.
  destruct (C10_sentinel_collision Recorder_keeps_cadence 5 () [] ∅ ∅ 0)
    as (_ & _ & Hnext & Hsorted & _).
  split; [reflexivity|]. split.
  - fold s0 s1 in Hnext. rewrite Hnext. reflexivity.
  - apply Hsorted; [lia|]. repeat constructor; simpl; lia.
Defined.

Lemma C4_table_append_only_witness :
  let data : Snapshot := {[ ORBITAL_SPEED := VFloat (PyFloat.literal 22005 1) ]} in
  let snaps := (fun met => (met, data)) <$> [0; 1; 4; 5; 6; 9; 10] in
  let table :=
    _dataframe
      (TelemetryStrategy_.collect_all (TelemetryStrategyABC0 := OrbitalVelocityStrategy_.ABC (PlotBackend0 := counting_backend))
         snaps (OrbitalVelocityStrategy_.__init__, mkOutside [] 0%nat)).1 in
  length (pd.rows table) = 3%nat ∧ pd.index table = [VInt 0; VInt 5; VInt 10].
Proof.
  intros data snaps table.
  destruct (C4_table_append_only (PlotBackend0 := counting_backend) (mkOutside [] 0%nat) snaps)
    as (_ & Hfed & Hsame).
  destruct Hfed as (Hlen & _ & _); [repeat constructor|].
  destruct (Hsame pd.int64 pd.float64) as [Hindex _]; [repeat constructor|].
  split.
  - etrans; [exact Hlen|]. reflexivity.
  - etrans; [exact Hindex|]. reflexivity.
Defined.

(** C4, as the claim has it, fails: a stored integer speed of 2^53 + 1 is
    rewritten as the float 2^53 when the next accepted snapshot carries a
    float speed, so the table after the second sample does not extend the
    table after the first; and a sample that is accepted without an orbital
    speed in its snapshot leaves no row. *)
Lemma C4_counterexample :
  let table (fed : list (Z * Snapshot)) : list pd.Row :=
    pd.rows (_dataframe
      (TelemetryStrategy_.collect_all (TelemetryStrategyABC0 := OrbitalVelocityStrategy_.ABC (PlotBackend0 := counting_backend))
         fed (OrbitalVelocityStrategy_.__init__, mkOutside [] 0%nat)).1) in
  let first : Z * Snapshot := (0, {[ ORBITAL_SPEED := VInt 9007199254740993 ]}) in
  let second : Z * Snapshot := (5, {[ ORBITAL_SPEED := VFloat (PyFloat.literal 5 1) ]}) in
  table [first] = [(VInt 0, [Some (VInt 9007199254740993)])] ∧
  table [first; second] =
    [(VInt 0, [Some (VFloat (S754_finite false 4503599627370496 1))]);
     (VInt 5, [Some (VFloat (PyFloat.literal 5 1))])] ∧
  PyFloat.floor (S754_finite false 4503599627370496 1) = Ok 9007199254740992 ∧
  ¬ (table [first] `prefix_of` table [first; second]) ∧
  accepted_mets 5 (-1) [0] = [0] ∧
  table [(0, ∅)] = [].
Proof.
  intros table first second.
  assert (table [first] = [(VInt 0, [Some (VInt 9007199254740993)])]) as H1
    by (vm_compute; reflexivity).
  assert (table [first; second] =
    [(VInt 0, [Some (VFloat (S754_finite false 4503599627370496 1))]);
     (VInt 5, [Some (VFloat (PyFloat.literal 5 1))])]) as H2
    by (vm_compute; reflexivity).
  split; [exact H1|]. split; [exact H2|]. split; [reflexivity|].
  split; [|split; [reflexivity|vm_compute; reflexivity]].
  rewrite H1, H2. intros [k Hk]. simpl in Hk. discriminate Hk.
Qed.

Lemma C8_row_appended_whatever_the_sink_witness :
  let data : Snapshot := {[ ORBITAL_SPEED := VFloat (PyFloat.literal 22005 1) ]} in
  let call := TelemetryStrategy_.collect_data
                (TelemetryStrategyABC0 := OrbitalVelocityStrategy_.ABC (PlotBackend0 := broken_backend))
                0 data (OrbitalVelocityStrategy_.__init__, mkOutside [] ()) in
  call.2 = Raise (ExternalError "plot") ∧
  pd.rows (_dataframe call.1.1) = [(VInt 0, [Some (VFloat (PyFloat.literal 22005 1))])] ∧
  _lastMet call.1.1 = 0.
Proof.
  intros data call.
  destruct (C8_row_appended_whatever_the_sink (PlotBackend0 := broken_backend)
              (mkOutside [] ()) [] 0 data)
    as (Htable & _ & Hrows & Hlast & _ & _ & Hfirst & _);
    [reflexivity|reflexivity|].
  split; [|split; [|exact Hlast]].
  - apply (Hfirst eq_refl () (ExternalError "plot")). reflexivity.
  - etrans; [exact (f_equal pd.rows Htable)|]. etrans; [exact Hrows|]. reflexivity.
Defined.

(** C8, as the claim has it, fails: with a plotting backend whose calls
    raise, the first accepted snapshot makes [collect_data] raise what [plot]
    raised, and the next accepted one makes it raise [AttributeError],
    [self.fig] being still [None]; both rows are in the table all the same.
    And a snapshot that is accepted without an orbital speed in it has no row
    appended, whatever the backend. *)
Lemma C8_counterexample :
  let first := TelemetryStrategy_.collect_data
                 (TelemetryStrategyABC0 := OrbitalVelocityStrategy_.ABC (PlotBackend0 := broken_backend))
                 0 speed_snapshot (OrbitalVelocityStrategy_.__init__, mkOutside [] ()) in
  let second := TelemetryStrategy_.collect_data
                  (TelemetryStrategyABC0 := OrbitalVelocityStrategy_.ABC (PlotBackend0 := broken_backend))
                  5 speed_snapshot first.1 in
  let bare := TelemetryStrategy_.collect_data
                (TelemetryStrategyABC0 := OrbitalVelocityStrategy_.ABC (PlotBackend0 := counting_backend))
                0 ∅ (OrbitalVelocityStrategy_.__init__, mkOutside [] 0%nat) in
  first.2 = Raise (ExternalError "plot") ∧
  first.2 ≠ Ok () ∧
  ext first.1.1 = None ∧
  second.2 = Raise AttributeError ∧
  second.2 ≠ Ok () ∧
  pd.index (_dataframe second.1.1) = [VInt 0; VInt 5] ∧
  _lastMet bare.1.1 = 0 ∧
  pd.rows (_dataframe bare.1.1) = [].
Proof.
  intros first second bare.
  assert (first.2 = Raise (ExternalError "plot")) as H1 by reflexivity.
  assert (second.2 = Raise AttributeError) as H2 by reflexivity.
  split; [exact H1|]. split; [rewrite H1; discriminate|]. split; [reflexivity|].
  split; [exact H2|]. split; [rewrite H2; discriminate|].
  split; [reflexivity|]. split; reflexivity.
Qed.

(** * Further properties of the code *)

Section registry_effects.
Import KrpcTelemetryStreamCollection_.
Implicit Types (self : KrpcTelemetryStreamCollection) (h : KrpcTelemetryStream) (w : World).

Lemma for_each_alter (f : Stream → Stream) (body : KrpcTelemetryStream → Eff World ())
    (hs : list KrpcTelemetryStream) w :
  (∀ s, f (f s) = f s) →
  (∀ h w, body h w = (with_streams (alter f (_stream h)) w, Ok ())) →
  (for_each body hs w).2 = Ok () ∧
  w_flights (for_each body hs w).1 = w_flights w ∧
  w_slept (for_each body hs w).1 = w_slept w ∧
  w_feed (for_each body hs w).1 = w_feed w ∧
  length (w_streams (for_each body hs w).1) = length (w_streams w) ∧
  ∀ i, w_streams (for_each body hs w).1 !! i =
       (fun s => if bool_decide (i ∈ _stream <$> hs) then f s else s) <$> (w_streams w !! i).
Proof.
  intros Hidem Hbody. revert w. induction hs as [|h hs IH]; intros w.
  { simpl. repeat split; try done. intros i. by destruct (w_streams w !! i). }
  assert (∀ w0, length (w_streams (with_streams (alter f (_stream h)) w0)) =
                length (w_streams w0)) as Hlen.
  { intros w0. simpl. apply length_alter. }
  simpl. unfold mbind, Eff_bind. rewrite Hbody.
  destruct (IH (with_streams (alter f (_stream h)) w)) as (Hr & Hf & Hs & Hd & Hn & Hl).
  split; [done|]. split; [done|]. split; [done|]. split; [done|].
  split; [by rewrite Hn, Hlen|].
  intros i. rewrite Hl. simpl.
  destruct (decide (i = _stream h)) as [->|Hne].
  - rewrite list_lookup_alter_eq. destruct (w_streams w !! _stream h) as [s|]; [|done].
    simpl. rewrite (bool_decide_eq_true_2 (_ ∈ _ :: _)) by (apply elem_of_cons; by left).
    case_bool_decide; by rewrite ?Hidem.
  - rewrite list_lookup_alter_ne by done. destruct (w_streams w !! i) as [s|]; [|done].
    simpl. destruct (decide (i ∈ _stream <$> hs)) as [Hin|Hin].
    + rewrite (bool_decide_eq_true_2 _ Hin).
      rewrite bool_decide_eq_true_2; [done|]. apply elem_of_cons. by right.
    + rewrite (bool_decide_eq_false_2 _ Hin).
      rewrite bool_decide_eq_false_2; [done|].
      intros [?|?]%elem_of_cons; done.
Qed.

(** X3.  [start_telemetries] returns after having slept two seconds; it
    starts the stream of every registered handle and changes nothing else of
    the transport: no stream is added or dropped, and target, attribute, rate
    and removal of every stream, and the start flag of the streams no handle
    refers to, are as before. *)
Theorem X_start_telemetries_effect self w :
  let ids := _stream <$> PyDict.values (_streams self) in
  let '(w', r) := start_telemetries self w in
  r = Ok () ∧
  w_slept w' = w_slept w + 2 ∧
  w_flights w' = w_flights w ∧
  length (w_streams w') = length (w_streams w) ∧
  ∀ i s, w_streams w !! i = Some s →
    ∃ s', w_streams w' !! i = Some s' ∧
          target s' = target s ∧ attribute s' = attribute s ∧ rate s' = rate s ∧
          removed s' = removed s ∧
          started s' = (started s || bool_decide (i ∈ ids)).
Proof.
  intros ids. unfold start_telemetries, mbind, Eff_bind.
  destruct (for_each_alter
              (fun s => mkStream (target s) (attribute s) (rate s) true (removed s))
              KrpcTelemetryStream_.start (PyDict.values (_streams self)) w)
    as (Hr & Hf & Hs & Hd & Hn & Hl); [done|done|].
  destruct (for_each _ _ w) as [w1 [[]|e]]; simpl in *; [|done].
  split; [done|]. split; [by rewrite Hs|]. split; [done|]. split; [done|].
  intros i s Hi. rewrite Hl, Hi. simpl. eexists. split; [done|].
  fold ids. destruct (bool_decide (i ∈ ids)); simpl; by rewrite ?orb_true_r, ?orb_false_r.
Qed.

(** X4.  [destroy_telemetries] removes the stream of every registered
    handle and leaves the collection with no kind; nothing else of the
    transport changes, and it does not sleep. *)
Theorem X_destroy_telemetries_effect self w :
  let ids := _stream <$> PyDict.values (_streams self) in
  let '((self', w'), r) := destroy_telemetries (self, w) in
  (∀ k, has_telemetry k self' = false) ∧
  w_slept w' = w_slept w ∧
  w_flights w' = w_flights w ∧
  length (w_streams w') = length (w_streams w) ∧
  ∀ i s, w_streams w !! i = Some s →
    ∃ s', w_streams w' !! i = Some s' ∧
          target s' = target s ∧ attribute s' = attribute s ∧ rate s' = rate s ∧
          started s' = started s ∧
          removed s' = (removed s || bool_decide (i ∈ ids)).
Proof.
  intros ids. rewrite destroy_telemetries_clears.
  destruct (for_each_alter
              (fun s => mkStream (target s) (attribute s) (rate s) (started s) true)
              KrpcTelemetryStream_.destroy (PyDict.values (_streams self)) w)
    as (Hr & Hf & Hs & Hd & Hn & Hl); [done|done|].
  split; [done|]. split; [done|]. split; [done|]. split; [done|].
  intros i s Hi. rewrite Hl, Hi. simpl. eexists. split; [done|].
  fold ids. destruct (bool_decide (i ∈ ids)); simpl; by rewrite ?orb_true_r, ?orb_false_r.
Qed.

(** X1.  After [register_telemetry] the collection has the handle's kind,
    has every kind it had before and no other, and still maps every kind it
    had to the handle it had for it; a new collection has no kind. *)
Theorem X_has_telemetry_after_register h self :
  has_telemetry (_telemetry_type h) (register_telemetry h self) = true ∧
  (∀ k, has_telemetry k (register_telemetry h self) =
        has_telemetry k self || bool_decide (k = _telemetry_type h)) ∧
  (∀ k h', PyDict.get k (_streams self) = Some h' →
           PyDict.get k (_streams (register_telemetry h self)) = Some h') ∧
  (∀ k, has_telemetry k KrpcTelemetryStreamCollection_.__init__ = false).
Proof.
  assert (∀ k, has_telemetry k (register_telemetry h self) =
               has_telemetry k self || bool_decide (k = _telemetry_type h)) as Hhas.
  { intros k. apply eq_true_iff_eq. rewrite orb_true_iff, bool_decide_eq_true.
    unfold has_telemetry. rewrite !PyDict_contains_spec.
    apply register_telemetry_elem_of_keys. }
  split; [|split; [done|split; [|done]]].
  - rewrite Hhas, (bool_decide_eq_true_2 (_ = _)) by done. apply orb_true_r.
  - intros k h' Hget. by rewrite register_telemetry_get, Hget.
Qed.
End registry_effects.

Section registry_contents.
Import KrpcTelemetryStreamCollection_.
Implicit Types (self : KrpcTelemetryStreamCollection) (h : KrpcTelemetryStream) (w : World).

Lemma register_all_values hs self :
  ∃ added, PyDict.values (_streams (register_all hs self)) =
           PyDict.values (_streams self) ++ added ∧ added `sublist_of` hs.
Proof.
  revert self. induction hs as [|h hs IH]; intros self; simpl.
  { exists []. by rewrite app_nil_r. }
  destruct (IH (register_telemetry h self)) as (added & Hv & Hsub).
  fold (register_all hs (register_telemetry h self)). rewrite Hv.
  destruct (has_telemetry (_telemetry_type h) self) eqn:Hc.
  - rewrite register_telemetry_present by done. exists added.
    split; [done|]. by apply sublist_cons.
  - rewrite register_telemetry_absent by done. exists (h :: added).
    unfold PyDict.values. rewrite fmap_app, <- app_assoc. simpl.
    split; [done|]. by apply sublist_skip.
Qed.

Lemma register_all_filed hs self :
  Forall filed_under_kind (_streams self) →
  Forall filed_under_kind (_streams (register_all hs self)).
Proof.
  revert self. induction hs as [|h hs IH]; intros self Hall; [done|].
  simpl. apply IH. destruct (has_telemetry (_telemetry_type h) self) eqn:Hc.
  - by rewrite register_telemetry_present.
  - rewrite register_telemetry_absent by done. apply Forall_app. split; [done|].
    by repeat constructor.
Qed.

Lemma PyDict_get_filed (d : PyDict.t TelemetryType KrpcTelemetryStream) k :
  Forall filed_under_kind d →
  PyDict.get k d = head (filter (fun h => _telemetry_type h = k) (PyDict.values d)).
Proof.
  induction d as [|[k' h] d IH]; intros Hall; [done|].
  apply Forall_cons in Hall as [Hk Hall]. unfold filed_under_kind in Hk. simpl in *.
  unfold PyDict.values in *. cbn [fmap list_fmap snd]. rewrite filter_cons. simpl. subst k'.
  destruct (decide (k = _telemetry_type h)) as [->|Hne].
  - by rewrite decide_True.
  - rewrite decide_False by done. by apply IH.
Qed.

Lemma filter_kind_absent (k : TelemetryType) (hs : list KrpcTelemetryStream) :
  k ∉ _telemetry_type <$> hs →
  filter (fun h => _telemetry_type h = k) hs = [].
Proof.
  induction hs as [|h hs IH]; [done|]. simpl.
  rewrite not_elem_of_cons. intros [Hne Hnin].
  rewrite filter_cons, decide_False by done. by apply IH.
Qed.

Lemma collect_loop_returns (todo : list KrpcTelemetryStream) w
    (results : gmap TelemetryType PyVal) :
  Forall (fun h => ∃ v, KrpcTelemetryStream_.value h w = Ok v) todo →
  ∃ snap, collect_loop todo w results = Ok snap.
Proof.
  revert results. induction todo as [|h todo IH]; intros results Hall; simpl.
  { by eexists. }
  apply Forall_cons in Hall as [[v Hv] Hall]. rewrite Hv. simpl. by apply IH.
Qed.

Lemma collect_loop_raises (todo : list KrpcTelemetryStream) w
    (results : gmap TelemetryType PyVal) e :
  collect_loop todo w results = Raise e →
  ∃ done_ h rest, todo = done_ ++ h :: rest ∧
    KrpcTelemetryStream_.value h w = Raise e ∧
    Forall (fun h' => ∃ v, KrpcTelemetryStream_.value h' w = Ok v) done_.
Proof.
  revert results. induction todo as [|h todo IH]; intros results; simpl; [done|].
  destruct (KrpcTelemetryStream_.value h w) as [v|e'] eqn:Hv; simpl.
  - intros (done_ & h' & rest & -> & Hh' & Hdone)%IH.
    exists (h :: done_), h', rest. split; [done|]. split; [done|].
    constructor; [by eexists|done].
  - intros [= ->]. exists [], h, todo. by repeat split.
Qed.

Lemma collect_loop_lookup (todo : list KrpcTelemetryStream) w
    (results snap : gmap TelemetryType PyVal) k :
  NoDup (_telemetry_type <$> todo) →
  collect_loop todo w results = Ok snap →
  snap !! k =
    match head (filter (fun h => _telemetry_type h = k) todo) with
    | Some h => match KrpcTelemetryStream_.value h w with
                | Ok v => Some v
                | Raise _ => None
                end
    | None => results !! k
    end.
Proof.
  revert results. induction todo as [|h todo IH]; intros results Hnd; simpl.
  { by intros [= <-]. }
  apply NoDup_cons in Hnd as [Hnin Hnd].
  destruct (KrpcTelemetryStream_.value h w) as [v|e'] eqn:Hv; simpl; [|done].
  intros Hloop. rewrite (IH _ Hnd Hloop). rewrite filter_cons.
  unfold KrpcTelemetryStream_.telemetry_type.
  destruct (decide (_telemetry_type h = k)) as [<-|Hne]; simpl.
  - rewrite Hv.
    rewrite filter_kind_absent by done.
    simpl. by rewrite lookup_insert_eq.
  - destruct (head _); [done|]. by rewrite lookup_insert_ne.
Qed.

Lemma collect_data_registered (hs : list KrpcTelemetryStream) w snap k :
  collect_data (register_all hs KrpcTelemetryStreamCollection_.__init__) w = Ok snap →
  snap !! k =
    match first_of_kind k hs with
    | Some h => match KrpcTelemetryStream_.value h w with
                | Ok v => Some v
                | Raise _ => None
                end
    | None => None
    end.
Proof.
  set (self := register_all hs KrpcTelemetryStreamCollection_.__init__).
  intros Hsnap.
  destruct (register_all_spec hs KrpcTelemetryStreamCollection_.__init__)
    as (Hnd & _ & Hget); [apply NoDup_nil_2|].
  assert (Forall filed_under_kind (_streams self)) as Hfiled.
  { apply register_all_filed. constructor. }
  rewrite (collect_loop_lookup (PyDict.values (_streams self)) w ∅ snap k);
    [| |exact Hsnap].
  + rewrite <- PyDict_get_filed by done. fold self in Hget. rewrite Hget. simpl.
    by destruct (first_of_kind k hs).
  + assert (_telemetry_type <$> PyDict.values (_streams self) = PyDict.keys (_streams self)) as ->; [|done].
    unfold PyDict.values, PyDict.keys. rewrite <- list_fmap_compose.
    apply Forall_fmap_ext_1. eapply Forall_impl; [exact Hfiled|]. by intros [k' h'].
Qed.

Lemma collect_loop_all_ok (todo : list KrpcTelemetryStream) w
    (results snap : gmap TelemetryType PyVal) :
  collect_loop todo w results = Ok snap →
  Forall (fun h => ∃ v, KrpcTelemetryStream_.value h w = Ok v) todo.
Proof.
  revert results. induction todo as [|h todo IH]; intros results; simpl; [done|].
  destruct (KrpcTelemetryStream_.value h w) as [v|e'] eqn:Hv; simpl; [|done].
  intros Hloop. constructor; [by eexists|by eapply IH].
Qed.

Lemma PyDict_get_Some_values {K V} `{EqDecision K} (d : PyDict.t K V) k v :
  PyDict.get k d = Some v → v ∈ PyDict.values d.
Proof.
  induction d as [|[k' v'] d IH]; simpl; [done|].
  unfold PyDict.values. cbn [fmap list_fmap snd]. case_decide.
  - intros [= ->]. by left.
  - intros Hg. right. by apply IH.
Qed.

(** X5.  [collect_data] returns a snapshot exactly when reading every
    registered handle returns; when it raises, the exception is the one a
    registered handle raised; and the snapshot it returns maps each registered
    kind to the value of the first handle registered for it, and has no other
    key. *)
Theorem X_collect_data_all_or_nothing (hs : list KrpcTelemetryStream) w :
  let self := register_all hs KrpcTelemetryStreamCollection_.__init__ in
  (Forall (fun h => ∃ v, KrpcTelemetryStream_.value h w = Ok v)
     (PyDict.values (_streams self)) ↔
   ∃ snap, collect_data self w = Ok snap) ∧
  (∀ e, collect_data self w = Raise e →
        ∃ h, h ∈ PyDict.values (_streams self) ∧ KrpcTelemetryStream_.value h w = Raise e) ∧
  (∀ snap k, collect_data self w = Ok snap →
     snap !! k =
       match first_of_kind k hs with
       | Some h => match KrpcTelemetryStream_.value h w with
                   | Ok v => Some v
                   | Raise _ => None
                   end
       | None => None
       end).
Proof.
  intros self. split; [|split].
  - split; [apply collect_loop_returns|]. intros [snap Hsnap].
    by eapply collect_loop_all_ok.
  - intros e (done_ & h & rest & Heq & Hh & _)%collect_loop_raises.
    exists h. split; [|done]. rewrite Heq. apply elem_of_app. right. by left.
  - intros snap k. apply collect_data_registered.
Qed.

(** X2.  The handles a collection holds after a run of registrations are
    handles of that run, in the order they were registered, each filed under
    its own kind: [.values()] iterates in registration order. *)
Theorem X_registration_order (hs : list KrpcTelemetryStream) :
  let self := register_all hs KrpcTelemetryStreamCollection_.__init__ in
  PyDict.values (_streams self) `sublist_of` hs ∧
  PyDict.keys (_streams self) = _telemetry_type <$> PyDict.values (_streams self).
Proof.
  intros self. split.
  - destruct (register_all_values hs KrpcTelemetryStreamCollection_.__init__)
      as (added & Hv & Hsub). fold self in Hv. by rewrite Hv.
  - assert (Forall filed_under_kind (_streams self)) as Hfiled.
    { apply register_all_filed. constructor. }
    unfold PyDict.values, PyDict.keys. rewrite <- list_fmap_compose.
    symmetry. apply Forall_fmap_ext_1. eapply Forall_impl; [exact Hfiled|]. by intros [k' h'].
Qed.
End registry_contents.

Section factory_streams.
Import KrpcTelemetryStreamFactory_.
Implicit Types (self : KrpcTelemetryStreamFactory) (w : World).

Lemma new_stream_effect kind obj attr tr self w :
  new_stream kind obj attr tr (self, w) =
  ((self, with_streams
            (fun l => l ++ [mkStream obj attr (Some (_default_rate self)) false false]) w),
   Ok (mkKrpcTelemetryStream kind (length (w_streams w)) tr)).
Proof.
  unfold new_stream, mbind, Eff_bind, eff_get, remote, add_stream,
    KrpcTelemetryStream_.__init__, mbind, Eff_bind, stream_set_rate, eff_modify, with_streams.
  simpl. do 2 f_equal. destruct w as [l fl sl fd]. simpl. f_equal.
  rewrite alter_app_r_alt by lia. by rewrite Nat.sub_diag.
Qed.

Lemma create_member_stream (t : TelemetryType) self w :
  ∃ s, (create (Member t) (self, w)).1.2 =
         with_streams (fun l => l ++ [s]) (ensure_flights (self, w)).1.2 ∧
       rate s = Some (_default_rate self) ∧ started s = false ∧ removed s = false ∧
       (target s = Some Vessel ∨ target s = Some Orbit ∨
        target s = _orbit_reference_fight (ensure_flights (self, w)).1.1).
Proof.
  unfold create, mbind at 1, Eff_bind at 1.
  destruct (ensure_flights (self, w)) as [[self1 w1] [[]|e]] eqn:He.
  2:{ pose proof (ensure_flights_returns self w) as Hr. rewrite He in Hr. done. }
  assert (_default_rate self1 = _default_rate self) as Hrate.
  { destruct self as [r [o|] v]; simpl in He; by injection He as <- _. }
  unfold mbind, Eff_bind, eff_get.
  destruct t;
    repeat first [rewrite decide_True by reflexivity | rewrite decide_False by discriminate];
    rewrite new_stream_effect; simpl;
    (eexists; split; [reflexivity|]; simpl; rewrite Hrate; repeat split; auto).
Qed.

Lemma ensure_flights_effect self w :
  w_streams (ensure_flights (self, w)).1.2 = w_streams w ∧
  _default_rate (ensure_flights (self, w)).1.1 = _default_rate self ∧
  _orbit_reference_fight (ensure_flights (self, w)).1.1 = orbit_flight_after self w.
Proof. by destruct self as [r [o|] v]. Qed.

Lemma create_streams (k : PyKind) self w :
  ∃ added,
    w_streams (create k (self, w)).1.2 = w_streams w ++ added ∧
    length added = (if is_member k then 1 else 0)%nat ∧
    Forall (fresh_stream (_default_rate self) (orbit_flight_after self w)) added ∧
    _default_rate (create k (self, w)).1.1 = _default_rate self ∧
    _orbit_reference_fight (create k (self, w)).1.1 = orbit_flight_after self w.
Proof.
  destruct (ensure_flights_effect self w) as (Hst & Hrate & Horb).
  destruct (create_factory_frame k self w) as [Hself _].
  destruct k as [t|str].
  - destruct (create_member_stream t self w) as (s & Hw & Hr & Hs & Hd & Ht).
    exists [s]. rewrite Hw, Hself. simpl. rewrite Hst.
    rewrite Horb in Ht.
    split; [done|]. split; [done|]. split; [|done].
    constructor; [done|constructor].
  - exists []. destruct (create_foreign str self w) as [_ ->]. rewrite Hself.
    rewrite app_nil_r. by repeat split.
Qed.

Lemma create_all_streams (ks : list PyKind) self w :
  ∃ added,
    w_streams (create_all ks (self, w)).2 = w_streams w ++ added ∧
    length added = length (filter (fun k => is_member k = true) ks) ∧
    Forall (fresh_stream (_default_rate self) (orbit_flight_after self w)) added.
Proof.
  revert self w. induction ks as [|k ks IH]; intros self w; simpl.
  { exists []. by rewrite app_nil_r. }
  destruct (create_streams k self w) as (a1 & Hw1 & Hn1 & Hf1 & Hr1 & Ho1).
  destruct (create k (self, w)) as [[self1 w1] r]. simpl in *.
  destruct (IH self1 w1) as (a2 & Hw2 & Hn2 & Hf2).
  exists (a1 ++ a2). rewrite Hw2, Hw1, <- app_assoc. split; [done|]. split.
  - rewrite length_app, Hn1, Hn2, filter_cons.
    destruct k; simpl; by rewrite ?decide_True, ?decide_False.
  - apply Forall_app. split; [done|].
    assert (orbit_flight_after self1 w1 = orbit_flight_after self w) as <-.
    { unfold orbit_flight_after at 1. rewrite Ho1.
      unfold orbit_flight_after. by destruct (_orbit_reference_fight self). }
    by rewrite <- Hr1.
Qed.
End factory_streams.

(** X7.  Over any run of [create] calls on a new factory the streams present
    before are kept, one stream is added for each member kind asked for and
    none for an unknown kind, and every added stream carries the default rate,
    is idle, and sits on the vessel, its orbit or the body-frame flight: the
    vessel-frame flight is computed but no stream is ever attached to it. *)
Theorem X_factory_streams (ks : list PyKind) (default_rate : PyVal) (w0 : World) :
  let s := KrpcTelemetryStreamFactory_.create_all ks
             (KrpcTelemetryStreamFactory_.__init__ default_rate, w0) in
  ∃ added,
    w_streams s.2 = w_streams w0 ++ added ∧
    length added = length (filter (fun k => is_member k = true) ks) ∧
    Forall (fresh_stream default_rate
              (Some (Flight BodyReferenceFrame (length (w_flights w0))))) added.
Proof. apply create_all_streams. Qed.

(** X6.  [create] for a member of the enumeration adds exactly one stream at
    the end of the connection's streams and returns the handle that refers to
    it: the stream carries the factory's default rate, is neither started nor
    removed, and sits on the vessel, its orbit or the cached body-frame
    flight; the default rate of the factory is unchanged. *)
Theorem X_create_adds_one_stream (t : TelemetryType)
    (self : KrpcTelemetryStreamFactory) (w : World) :
  let '((self', w'), r) := KrpcTelemetryStreamFactory_.create (Member t) (self, w) in
  ∃ h s, r = Ok h ∧
         w_streams w' = w_streams w ++ [s] ∧
         w_streams w' !! _stream h = Some s ∧
         fresh_stream (_default_rate self) (_orbit_reference_fight self') s ∧
         _default_rate self' = _default_rate self.
Proof.
  destruct (create_streams (Member t) self w) as (added & Hw & Hn & Hf & Hr & Ho).
  pose proof (create_member t self w) as Hh.
  destruct (KrpcTelemetryStreamFactory_.create (Member t) (self, w)) as [[self' w'] r].
  simpl in *. destruct added as [|s [|? ?]]; try done.
  eexists _, s. split; [done|]. split; [done|]. split.
  - rewrite Hw. simpl. by rewrite list_lookup_middle.
  - apply Forall_cons in Hf as [Hf _]. by rewrite Ho.
Qed.


Section init_streams.
Import KrpcTelemetryStreamFactory_ KrpcTelemetryStreamCollection_.

Lemma init_streams_loop_unfold (types : list TelemetryType)
    (reg : KrpcTelemetryStreamCollection) (self : KrpcTelemetryStreamFactory) (w : World) :
  init_streams_loop types reg (self, w) =
  (create_all (Member <$> types) (self, w),
   Ok (register_all (created_handles (length (w_streams w)) types) reg)).
Proof.
  revert reg self w. induction types as [|t types IH]; intros reg self w; [done|].
  simpl. unfold mbind, Eff_bind.
  pose proof (create_member t self w) as Hh.
  destruct (create_streams (Member t) self w) as (added & Hw & Hn & _).
  destruct (create (Member t) (self, w)) as [[self1 w1] r]. simpl in *. subst r.
  rewrite IH. do 3 f_equal.
  rewrite Hw, length_app, Hn. simpl. by rewrite Nat.add_1_r.
Qed.

Lemma created_handles_kinds n types :
  _telemetry_type <$> created_handles n types = types.
Proof. revert n. induction types as [|t types IH]; intros n; simpl; by rewrite ?IH. Qed.

Lemma created_handles_ok n types :
  Forall (fun h => _transform_function h = spec_transform (_telemetry_type h))
    (created_handles n types).
Proof. revert n. induction types as [|t types IH]; intros n; simpl; by constructor. Qed.

Lemma register_all_fresh hs self :
  NoDup (_telemetry_type <$> hs) →
  (∀ k, k ∈ _telemetry_type <$> hs → k ∉ PyDict.keys (_streams self)) →
  _streams (register_all hs self) =
  _streams self ++ ((fun h => (_telemetry_type h, h)) <$> hs).
Proof.
  revert self. induction hs as [|h hs IH]; intros self Hnd Hdisj; simpl.
  { by rewrite app_nil_r. }
  apply NoDup_cons in Hnd as [Hnin Hnd].
  assert (has_telemetry (_telemetry_type h) self = false) as Hc.
  { destruct (has_telemetry _ self) eqn:Hc; [|done].
    apply PyDict_contains_spec in Hc. exfalso. apply (Hdisj (_telemetry_type h)); [|done].
    apply elem_of_cons. by left. }
  fold (register_all hs (register_telemetry h self)). rewrite IH; [|done|].
  - rewrite register_telemetry_absent by done. by rewrite <- app_assoc.
  - intros k Hk. rewrite register_telemetry_elem_of_keys. intros [Hin| ->]; [|done].
    apply (Hdisj k); [|done]. apply elem_of_cons. by right.
Qed.
End init_streams.

(** X8.  [init_streams_from_telemetry_processor] never raises: it is the
    run of [create] calls for the requested kinds followed by the registration
    of the handles created, in order.  The collection has exactly the kinds
    requested, and when no kind is requested twice it holds every handle
    created, in the order requested. *)
Theorem X_init_streams (types : list TelemetryType)
    (self : KrpcTelemetryStreamFactory) (w : World) :
  let handles := created_handles (length (w_streams w)) types in
  let streams := register_all handles KrpcTelemetryStreamCollection_.__init__ in
  init_streams_from_telemetry_processor types (self, w) =
    (KrpcTelemetryStreamFactory_.create_all (Member <$> types) (self, w), Ok streams) ∧
  (∀ k, KrpcTelemetryStreamCollection_.has_telemetry k streams = true ↔ k ∈ types) ∧
  (NoDup types → PyDict.values (_streams streams) = handles ∧
                 PyDict.keys (_streams streams) = types).
Proof.
  intros handles streams. split; [apply init_streams_loop_unfold|]. split.
  - intros k. unfold KrpcTelemetryStreamCollection_.has_telemetry.
    rewrite PyDict_contains_spec.
    destruct (register_all_spec handles KrpcTelemetryStreamCollection_.__init__)
      as (_ & Hkeys & _); [apply NoDup_nil_2|].
    fold streams in Hkeys. rewrite Hkeys. unfold handles.
    rewrite created_handles_kinds. simpl. rewrite elem_of_nil. tauto.
  - intros Hnd. unfold streams. rewrite register_all_fresh.
    + simpl. unfold PyDict.values, PyDict.keys.
      rewrite <- !list_fmap_compose. split.
      * by rewrite list_fmap_id.
      * apply created_handles_kinds.
    + unfold handles. by rewrite created_handles_kinds.
    + intros k _. simpl. apply not_elem_of_nil.
Qed.

Section pipeline_snapshot.
Import KrpcTelemetryStreamCollection_.

Lemma first_of_kind_created n types k :
  match first_of_kind k (created_handles n types) with
  | Some h => k ∈ types ∧ _telemetry_type h = k ∧ _transform_function h = spec_transform k
  | None => k ∉ types
  end.
Proof.
  revert n. unfold first_of_kind.
  induction types as [|t types IH]; intros n; simpl; [apply not_elem_of_nil|].
  rewrite filter_cons. simpl. destruct (decide (t = k)) as [->|Hne]; simpl.
  - split; [by left|done].
  - specialize (IH (S n)). destruct (head _) as [h|].
    + destruct IH as (? & ? & ?). split; [by right|done].
    + rewrite not_elem_of_cons. split; [congruence|done].
Qed.

Lemma value_transformed (h : KrpcTelemetryStream) w v :
  KrpcTelemetryStream_.value h w = Ok v →
  ∃ raw, stream_call (_stream h) w = Ok raw ∧
         apply_transform (_transform_function h) raw = Ok v.
Proof.
  unfold KrpcTelemetryStream_.value. destruct (_transform_function h) as [f|]; simpl.
  - destruct (stream_call (_stream h) w) as [raw|]; simpl; [|done]. by eexists.
  - intros ->. by eexists.
Qed.

Lemma pipeline_snapshot_lookup (types : list TelemetryType)
    (s s' : KrpcTelemetryStreamFactory_.St) (streams : KrpcTelemetryStreamCollection)
    (w : World) (snap : Snapshot) (k : TelemetryType) :
  init_streams_from_telemetry_processor types s = (s', Ok streams) →
  collect_data streams w = Ok snap →
  (k ∈ types ∧ (∃ id raw v, stream_call id w = Ok raw ∧
      apply_transform (spec_transform k) raw = Ok v ∧ snap !! k = Some v)) ∨
  ((k ∉ types) ∧ snap !! k = None).
Proof.
  destruct s as [self w0]. unfold init_streams_from_telemetry_processor.
  rewrite init_streams_loop_unfold. intros [= _ <-] Hsnap.
  unfold Snapshot in *. rewrite (collect_data_registered _ _ _ k Hsnap).
  pose proof (first_of_kind_created (length (w_streams w0)) types k) as Hfirst.
  destruct (first_of_kind k _) as [h|] eqn:Hk; [|by right].
  destruct Hfirst as (Hin & Hkind & Htr). left. split; [done|].
  assert (h ∈ PyDict.values (_streams (register_all
            (created_handles (length (w_streams w0)) types)
            KrpcTelemetryStreamCollection_.__init__))) as Hh.
  { destruct (register_all_spec (created_handles (length (w_streams w0)) types)
                KrpcTelemetryStreamCollection_.__init__) as (_ & _ & Hget);
      [apply NoDup_nil_2|].
    apply (PyDict_get_Some_values _ k). by rewrite Hget. }
  apply collect_loop_all_ok in Hsnap. rewrite Forall_forall in Hsnap.
  destruct (Hsnap h Hh) as [v Hv]. rewrite Hv.
  apply value_transformed in Hv as (raw & Hraw & Hv). rewrite Htr in Hv.
  by exists (_stream h), raw, v.
Qed.
End pipeline_snapshot.

(** X9.  A snapshot collected from the streams set up for a processor has
    exactly the kinds the processor asked for as keys, each value is what the
    transform of its kind makes of a value read from a stream, and the mission
    elapsed time in it is an integer. *)
Theorem X_pipeline_snapshot (types : list TelemetryType)
    (s s' : KrpcTelemetryStreamFactory_.St) (streams : KrpcTelemetryStreamCollection)
    (w : World) (snap : Snapshot) :
  init_streams_from_telemetry_processor types s = (s', Ok streams) →
  KrpcTelemetryStreamCollection_.collect_data streams w = Ok snap →
  (∀ k, is_Some (snap !! k) ↔ k ∈ types) ∧
  (∀ k v, snap !! k = Some v →
          ∃ id raw, stream_call id w = Ok raw ∧
                    apply_transform (spec_transform k) raw = Ok v) ∧
  (∀ v, snap !! MET = Some v → ∃ n, v = VInt n).
Proof.
  intros Hinit Hsnap.
  assert (∀ k v, snap !! k = Some v →
            ∃ id raw, stream_call id w = Ok raw ∧
                      apply_transform (spec_transform k) raw = Ok v) as Hval.
  { intros k v Hk.
    destruct (pipeline_snapshot_lookup types s s' streams w snap k Hinit Hsnap)
      as [(_ & id & raw & v' & Hraw & Htr & Hk')|[_ Hnone]]; [|congruence].
    exists id, raw. split; [done|]. congruence. }
  split; [|split; [done|]].
  - intros k.
    destruct (pipeline_snapshot_lookup types s s' streams w snap k Hinit Hsnap)
      as [(Hin & id & raw & v' & _ & _ & Hk')|[Hnin Hnone]].
    + rewrite Hk'. split; [done|by eexists].
    + rewrite Hnone. split; [by intros [? ?]|done].
  - intros v (id & raw & _ & Htr)%Hval. simpl in Htr.
    destruct raw as [i|x|xs]; simpl in Htr; [|..|done].
    + injection Htr as <-. by eexists.
    + destruct (PyFloat.floor x); simpl in Htr; [|done]. injection Htr as <-. by eexists.
Qed.

(** ** Decimation at large *)

Lemma accepted_mets_apart (c last : Z) (mets : list Z) :
  Forall (fun m => m ≠ -1) mets →
  Sorted (apart c) (accepted_mets c last mets) ∧
  (last ≠ -1 → HdRel (apart c) last (accepted_mets c last mets)).
Proof.
  revert last. induction mets as [|m mets IH]; intros last Hne; simpl.
  { split; constructor. }
  apply Forall_cons in Hne as [Hm Hne].
  destruct (IH last Hne) as [IHs IHh]. destruct (IH m Hne) as [IHs' IHh'].
  destruct (decide (last = -1)) as [->|Hlast]; simpl.
  - split; [|done]. constructor; [done|by apply IHh'].
  - rewrite (bool_decide_eq_true_2 (last ≠ -1)) by done. simpl.
    case_bool_decide as Hgt.
    + split; [done|by intros _; apply IHh].
    + split; [constructor; [done|by apply IHh']|].
      intros _. constructor. unfold apart. lia.
Qed.

Lemma accepted_mets_at_cadence (c last : Z) (mets : list Z) :
  Sorted (apart c) mets →
  last = -1 ∨ HdRel (apart c) last mets →
  accepted_mets c last mets = mets.
Proof.
  revert last. induction mets as [|m mets IH]; intros last Hs Hh; [done|].
  apply Sorted_inv in Hs as [Hs Hhd]. simpl.
  assert (bool_decide (last ≠ -1) && bool_decide (c + last > m) = false) as ->.
  { apply andb_false_iff. rewrite !bool_decide_eq_false.
    destruct Hh as [->|Hh]; [left; lia|].
    apply HdRel_inv in Hh. unfold apart in Hh. right. lia. }
  f_equal. apply IH; [done|by right].
Qed.

Lemma accepted_mets_sublist (c last : Z) (mets : list Z) :
  accepted_mets c last mets `sublist_of` mets.
Proof.
  revert last. induction mets as [|m mets IH]; intros last; simpl; [done|].
  destruct (_ && _); [by apply sublist_cons|by apply sublist_skip].
Qed.

(** X13.  On a feed in which no met is -1, any two successive mets handed to
    [_collect_data] are at least [collect_every_secs] apart. *)
Theorem X_accepted_mets_apart (c : Z) (mets : list Z) :
  Forall (fun m => m ≠ -1) mets →
  Sorted (apart c) (recorded_mets c mets).
Proof.
  intros Hne. unfold recorded_mets. rewrite Recorder_collect_all. simpl.
  by apply accepted_mets_apart.
Qed.

(** X14.  A feed whose successive mets are at least [collect_every_secs]
    apart is handed to [_collect_data] whole: nothing at cadence is dropped,
    whatever the mets are. *)
Theorem X_feed_at_cadence_kept (c : Z) (mets : list Z) :
  Sorted (apart c) mets → recorded_mets c mets = mets.
Proof.
  intros Hs. unfold recorded_mets. rewrite Recorder_collect_all. simpl.
  apply accepted_mets_at_cadence; [done|by left].
Qed.

(** X15.  The mets handed to [_collect_data] are mets of the feed, in feed
    order, and the first of them is the first of the feed. *)
Theorem X_accepted_mets_subsequence (c : Z) (mets : list Z) :
  recorded_mets c mets `sublist_of` mets ∧
  head (recorded_mets c mets) = head mets.
Proof.
  unfold recorded_mets. rewrite Recorder_collect_all. simpl. split.
  - apply accepted_mets_sublist.
  - by destruct mets.
Qed.

(** ** [OrbitalVelocityStrategy._collect_data] in full *)

Section ovs_calls.
Context {Fig Sink : Type} `{!PlotBackend Fig Sink}.
Import TelemetryStrategy_ OrbitalVelocityStrategy_.
Implicit Types (self : TelemetryStrategy (option Fig)) (out : Outside Sink)
  (s : TelemetryStrategy (option Fig) * Outside Sink).

Lemma collect_data_stdout met data s :
  stdout (collect_data met data s).1.2 =
  stdout s.2 ++
  (if out_of_cadence s.1 met then []
   else match data !! ORBITAL_SPEED with
        | Some v => [(ORBITAL_SPEED, v)]
        | None => []
        end).
Proof.
  destruct s as [self out]. cbn [fst snd].
  destruct (out_of_cadence self met) eqn:Hooc.
  { rewrite collect_data_reject by done. simpl. by rewrite app_nil_r. }
  rewrite collect_data_accepted by done.
  unfold OrbitalVelocityStrategy_._collect_data, mbind, Eff_bind.
  rewrite accumulate_unfold. simpl.
  destruct (data !! ORBITAL_SPEED) as [v|]; [|by rewrite app_nil_r].
  destruct (pd.cell_of v) as [c|e]; [|done].
  match goal with |- context [refresh (?a, ?b)] =>
    pose proof (refresh_frame a b) as Hfr; cbv zeta in Hfr;
    destruct (refresh (a, b)) as [[self' out'] r] end.
  cbn [fst snd] in *. by destruct Hfr as (_ & _ & _ & ->).
Qed.
End ovs_calls.

Section ovs_extras.
Context {Fig Sink : Type} `{!PlotBackend Fig Sink}.
Import TelemetryStrategy_ OrbitalVelocityStrategy_.
Implicit Types (self : TelemetryStrategy (option Fig)) (out : Outside Sink)
  (s : TelemetryStrategy (option Fig) * Outside Sink).

(** X16.  An in-cadence snapshot without orbital speed makes [collect_data]
    raise [KeyError], with the table, the console and the plotting backend
    untouched, but with [_lastMet] already set to its met. *)
Theorem X_missing_speed_raises_keyerror met data self out :
  out_of_cadence self met = false →
  data !! ORBITAL_SPEED = None →
  collect_data met data (self, out) =
  ((set_lastMet met self, out), Raise (KeyError ORBITAL_SPEED)).
Proof.
  intros Hooc Hnone. rewrite collect_data_accepted by done.
  unfold OrbitalVelocityStrategy_._collect_data, mbind, Eff_bind.
  rewrite accumulate_unfold. by rewrite Hnone.
Qed.

(** X17.  [collect_data] of the orbital-velocity strategy reads nothing of
    the snapshot but the orbital speed: two snapshots that agree on it lead to
    the same state and the same outcome. *)
Theorem X_only_orbital_speed_is_read met (data data' : Snapshot) s :
  data !! ORBITAL_SPEED = data' !! ORBITAL_SPEED →
  collect_data met data s = collect_data met data' s.
Proof.
  intros Heq. destruct s as [self out].
  destruct (out_of_cadence self met) eqn:Hooc.
  { by rewrite !collect_data_reject. }
  rewrite !collect_data_accepted by done.
  unfold OrbitalVelocityStrategy_._collect_data, mbind, Eff_bind.
  rewrite !accumulate_unfold. by rewrite Heq.
Qed.

(** X18.  Once the table has a row, no call changes [self.fig]: the chart is
    created with the first row or never.  If it was not created then, every
    later accepted snapshot raises [AttributeError], without a call into the
    plotting backend. *)
Theorem X_chart_created_once out (history : list (Z * Snapshot)) met data :
  let s := collect_all history (OrbitalVelocityStrategy_.__init__ (Fig := Fig), out) in
  pd.rows (_dataframe s.1) ≠ [] →
  let r := collect_data met data s in
  ext r.1.1 = ext s.1 ∧
  (ext s.1 = None → out_of_cadence s.1 met = false → has_speed data = true →
     r.2 = Raise AttributeError ∧ sink r.1.2 = sink s.2).
Proof.
  intros s Hrows r.
  assert (table_ok (_dataframe s.1)) as Hok by (apply collect_all_table_ok; by left).
  subst r. destruct s as [self out0]. cbn [fst snd] in *.
  assert (∀ c, pd.len (merge_row (_dataframe self) met c) ≠ 1) as Hlen.
  { intros c. rewrite merge_row_len by done. unfold pd.len.
    destruct (pd.rows (_dataframe self)); [done|]. simpl. lia. }
  destruct (out_of_cadence self met) eqn:Hooc.
  { rewrite collect_data_reject by done. split; [done|]. by intros _ ?. }
  split.
  - rewrite collect_data_accepted by done.
    unfold OrbitalVelocityStrategy_._collect_data, mbind, Eff_bind.
    rewrite accumulate_unfold. simpl.
    destruct (data !! ORBITAL_SPEED) as [v|]; [|done].
    destruct (pd.cell_of v) as [c|e]; [|done].
    rewrite refresh_unfold_later by apply Hlen. simpl.
    destruct (ext self) as [f|]; [|done]. by destruct (batch_update f _).
  - intros Hnone _ Hsp. rewrite collect_data_accumulated by done.
    rewrite refresh_unfold_later by apply Hlen. simpl. by rewrite Hnone.
Qed.

Lemma collect_all_stdout (snaps : list (Z * Snapshot)) s :
  table_ok (_dataframe s.1) →
  Forall (fun x : Z * Snapshot => has_speed x.2 = true) snaps →
  ∃ prints,
    stdout (collect_all snaps s).2 = stdout s.2 ++ prints ∧
    Forall (fun p : TelemetryType * PyVal => p.1 = ORBITAL_SPEED) prints ∧
    (fun p : TelemetryType * PyVal => [Some p.2]) <$> prints =
      (accepted_rows (_collect_every_secs s.1) (_lastMet s.1) snaps).*2.
Proof.
  revert s. induction snaps as [|[met data] snaps IH]; intros s Hok Hsp.
  { exists []. simpl. by rewrite !app_nil_r. }
  apply Forall_cons in Hsp as [Hd Hsp]. simpl in Hd.
  destruct (collect_data_step met data s Hok) as (Hok' & Hc & Hl & _).
  pose proof (collect_data_stdout met data s) as Hout.
  destruct (IH _ Hok' Hsp) as (prints & Hp & Hall & Hcells).
  rewrite Hc, Hl in Hcells. rewrite Hout in Hp.
  destruct (has_speed_cell data Hd) as [Hv _]. rewrite Hv in Hp.
  simpl. unfold out_of_cadence in *.
  destruct (_ && _); simpl in *.
  - exists prints. rewrite app_nil_r in Hp. done.
  - exists ((ORBITAL_SPEED, speed_of data) :: prints). rewrite <- app_assoc in Hp.
    split; [done|]. split; [by constructor|]. simpl. f_equal. exact Hcells.
Qed.

(** X19.  Along a feed of snapshots with a scalar orbital speed, started on
    an empty console, each printed line is one for the orbital speed and the
    lines match the rows of the table one for one: the cell of a row holds
    the printed speed, or the float it was converted to when [pd.concat]
    brought the column to another dtype.  When the mets have one dtype and the
    speeds have one dtype, the cells are the printed speeds. *)
Theorem X_one_print_per_row (k : Sink) (snaps : list (Z * Snapshot)) :
  Forall (fun x : Z * Snapshot => has_speed x.2 = true) snaps →
  let s := collect_all snaps (OrbitalVelocityStrategy_.__init__ (Fig := Fig), mkOutside [] k) in
  Forall (fun p : TelemetryType * PyVal => p.1 = ORBITAL_SPEED) (stdout s.2) ∧
  Forall2 (fun (p : TelemetryType * PyVal) (r : pd.Row) => pd.cells_widened [Some p.2] r.2)
    (stdout s.2) (pd.rows (_dataframe s.1)) ∧
  (∀ di dc, Forall (same_dtypes di dc) snaps →
     (fun p : TelemetryType * PyVal => [Some p.2]) <$> stdout s.2 =
       snd <$> pd.rows (_dataframe s.1)).
Proof.
  intros Hsp s.
  destruct (collect_all_stdout snaps (__init__, mkOutside [] k)) as
    (prints & Hp & Hall & Hcells); [by left|done|].
  fold s in Hp. simpl in Hp, Hcells. rewrite Hp.
  split; [done|]. split.
  - pose proof (collect_all_widened snaps (__init__, mkOutside [] k)) as Hwid.
    fold s in Hwid. simpl in Hwid. specialize (Hwid ltac:(by left) Hsp).
    assert (Forall2 pd.cells_widened (accepted_rows 5 (-1) snaps).*2
              (pd.rows (_dataframe s.1)).*2) as Hw.
    { apply Forall2_fmap. eapply Forall2_impl; [exact Hwid|]. by intros r r' [_ ?]. }
    rewrite <- Hcells in Hw. exact (proj1 (Forall2_fmap _ _ _ _ _) Hw).
  - intros di dc Hsd. rewrite Hcells. f_equal. symmetry.
    apply (collect_all_same_dtypes di dc snaps (__init__, mkOutside [] k));
      [by left|constructor|done].
Qed.

Lemma collect_data_returns met data s :
  backend_returns Fig Sink →
  table_ok (_dataframe s.1) →
  (pd.rows (_dataframe s.1) = [] ∨ is_Some (ext s.1)) →
  has_speed data = true →
  (collect_data met data s).2 = Ok () ∧
  (pd.rows (_dataframe (collect_data met data s).1.1) = [] ∨
   is_Some (ext (collect_data met data s).1.1)) ∧
  (out_of_cadence s.1 met = false → is_Some (ext (collect_data met data s).1.1)).
Proof.
  intros (Hplot & Hshow & Hbatch) Hok Hinv Hsp. destruct s as [self out]. cbn [fst snd] in *.
  destruct (out_of_cadence self met) eqn:Hooc.
  { rewrite collect_data_reject by done. by repeat split. }
  rewrite collect_data_accumulated by done.
  destruct (decide (pd.rows (_dataframe self) = [])) as [Hnil|Hne].
  - rewrite refresh_unfold_first.
    2:{ cbn [_dataframe]. rewrite merge_row_len by done. unfold pd.len. by rewrite Hnil. }
    simpl. destruct (Hplot (merge_row (_dataframe self) met (speed_of data)) (sink out))
      as (k1 & f & ->).
    destruct (Hshow f k1) as (k2 & ->). destruct (Hbatch f k2) as (k3 & ->).
    simpl. split; [done|]. split; [right|]; by eexists.
  - rewrite refresh_unfold_later.
    2:{ cbn [_dataframe]. rewrite merge_row_len by done. unfold pd.len.
        destruct (pd.rows (_dataframe self)); [done|]. simpl. lia. }
    simpl. destruct Hinv as [?|[f Hf]]; [done|]. rewrite Hf.
    destruct (Hbatch f (sink out)) as (k3 & ->). simpl.
    split; [done|]. split; [right|]; by eexists.
Qed.

(** X20.  With a plotting backend whose calls all return, no call of
    [collect_data] on a snapshot with a scalar orbital speed raises, and after
    the first snapshot the chart exists. *)
Theorem X_working_backend_never_raises out (snaps : list (Z * Snapshot)) :
  backend_returns Fig Sink →
  Forall (fun x : Z * Snapshot => has_speed x.2 = true) snaps →
  let s0 := (OrbitalVelocityStrategy_.__init__ (Fig := Fig), out) in
  Forall (fun r => r = Ok ()) (collect_outcomes snaps s0) ∧
  (snaps ≠ [] → is_Some (ext (collect_all snaps s0).1)).
Proof.
  intros Hback Hsp s0.
  assert (∀ snaps s,
    table_ok (_dataframe s.1) →
    (pd.rows (_dataframe s.1) = [] ∨ is_Some (ext s.1)) →
    Forall (fun x : Z * Snapshot => has_speed x.2 = true) snaps →
    Forall (fun r => r = Ok ()) (collect_outcomes snaps s) ∧
    (is_Some (ext s.1) → is_Some (ext (collect_all snaps s).1))) as Hrun.
  { clear snaps Hsp. induction snaps as [|[met data] snaps IH]; intros s Hok Hinv Hsp.
    { split; [constructor|done]. }
    apply Forall_cons in Hsp as [Hd Hsp]. simpl in Hd.
    destruct (collect_data_returns met data s Hback Hok Hinv Hd) as (Hr & Hinv' & Hsome).
    destruct (collect_data_step met data s Hok) as (Hok' & _).
    destruct (IH _ Hok' Hinv' Hsp) as [Hrs Hext].
    simpl. split; [by constructor|]. intros Hs. apply Hext.
    destruct (out_of_cadence s.1 met) eqn:Hooc; [|by apply Hsome].
    destruct s as [self o]. by rewrite collect_data_reject. }
  destruct snaps as [|[met data] snaps]; [by split; [constructor|]|].
  apply Forall_cons in Hsp as [Hd Hsp]. simpl in Hd.
  destruct (collect_data_returns met data s0 Hback) as (Hr & Hinv' & Hsome);
    [by left|by left|done|].
  destruct (collect_data_step met data s0) as (Hok' & _); [by left|].
  destruct (Hrun snaps _ Hok' Hinv' Hsp) as [Hrs Hext].
  simpl. split; [by constructor|]. intros _. apply Hext, Hsome. done.
Qed.
End ovs_extras.

(** X21.  A snapshot collected from the streams set up for the kinds the
    orbital-velocity strategy declares carries an integer mission elapsed time
    and a scalar orbital speed, and fed with that time to a new strategy it
    leaves the table with the one row of that time and speed. *)
Theorem X_pipeline_feeds_strategy {Fig Sink : Type} `{!PlotBackend Fig Sink}
    (s s' : KrpcTelemetryStreamFactory_.St) (streams : KrpcTelemetryStreamCollection)
    (w : World) (snap : Snapshot) (out : Outside Sink) :
  init_streams_from_telemetry_processor
    (elements OrbitalVelocityStrategy_.get_telemetry_types) s = (s', Ok streams) →
  KrpcTelemetryStreamCollection_.collect_data streams w = Ok snap →
  ∃ met speed,
    snap !! MET = Some (VInt met) ∧
    snap !! ORBITAL_SPEED = Some speed ∧
    is_scalar speed = true ∧
    let r := TelemetryStrategy_.collect_data met snap
               (OrbitalVelocityStrategy_.__init__ (Fig := Fig), out) in
    pd.rows (_dataframe r.1.1) = [(VInt met, [Some speed])] ∧ _lastMet r.1.1 = met.
Proof.
  intros Hinit Hsnap.
  destruct (pipeline_snapshot_lookup _ s s' streams w snap MET Hinit Hsnap)
    as [(_ & _ & raw & v & _ & Htr & Hmet)|[Hnin _]].
  2:{ exfalso. apply Hnin. apply elem_of_elements.
      unfold OrbitalVelocityStrategy_.get_telemetry_types. set_solver. }
  destruct (pipeline_snapshot_lookup _ s s' streams w snap ORBITAL_SPEED Hinit Hsnap)
    as [(_ & _ & raw' & speed & _ & Htr' & Hspeed)|[Hnin _]].
  2:{ exfalso. apply Hnin. apply elem_of_elements.
      unfold OrbitalVelocityStrategy_.get_telemetry_types. set_solver. }
  simpl in Htr, Htr'. apply py_round_scalar in Htr'.
  assert (∃ met, v = VInt met) as [met ->].
  { destruct raw as [i|x|xs]; simpl in Htr; [|..|done].
    - injection Htr as <-. by eexists.
    - destruct (PyFloat.floor x); simpl in Htr; [|done]. injection Htr as <-. by eexists. }
  exists met, speed. split; [done|]. split; [done|]. split; [done|].
  destruct (collect_data_step met snap (OrbitalVelocityStrategy_.__init__ (Fig := Fig), out))
    as (_ & _ & Hl & Hr); [by left|].
  cbv zeta. split; [|exact Hl].
  assert (derived_rows (OrbitalVelocityStrategy_.__init__ (Fig := Fig)) met snap =
          [(VInt met, [Some speed])]) as Hdr.
  { unfold derived_rows. simpl. unfold Snapshot in *. rewrite Hspeed. by destruct speed. }
  etrans; [exact Hr|]. cbn [fst]. rewrite Hdr. apply unify_single.
Qed.

(** X11.  Read through the mission-elapsed-time handle, a finite float
    [±m·2^e] gives the largest integer not above it; an infinity raises
    [OverflowError], a NaN raises [ValueError] and a tuple raises
    [TypeError]. *)
Theorem X_met_handle_reads_floor (sign : bool) (m : positive) (e : Z) (xs : list spec_float) :
  (∃ n, read_through (Member MET) (VFloat (S754_finite sign m e)) = Ok (VInt n) ∧
        (0 <= e → n = cond_Zopp sign (Zpos m) * 2 ^ e) ∧
        (e < 0 → n * 2 ^ (- e) <= cond_Zopp sign (Zpos m) < (n + 1) * 2 ^ (- e))) ∧
  read_through (Member MET) (VFloat (S754_infinity sign)) = Raise OverflowError ∧
  (∃ msg, read_through (Member MET) (VFloat S754_nan) = Raise (ValueError msg)) ∧
  read_through (Member MET) (VTuple xs) = Raise TypeError.
Proof.
  split; [|split; [done|split; [by eexists|done]]].
  exists (Z.shiftl (cond_Zopp sign (Zpos m)) e). split; [done|].
  by apply PyFloat_floor_exact.
Qed.

(** X12.  A tuple read through a handle whose kind has a transform raises
    [TypeError], and is passed through by a handle without transform; an
    integer read through the mission-elapsed-time, speed or g-force handles
    comes back unchanged. *)
Theorem X_transforms_on_other_types (t : TelemetryType) (i : Z) (xs : list spec_float) :
  read_through (Member t) (VTuple xs) =
    match spec_transform t with
    | Some _ => Raise TypeError
    | None => Ok (VTuple xs)
    end ∧
  (t ∈ [MET; ORBITAL_SPEED; SURFACE_SPEED; SURFACE_HORIZONTAL_SPEED;
        SURFACE_VERTICAL_SPEED; G_FORCE] →
   read_through (Member t) (VInt i) = Ok (VInt i)).
Proof.
  split; [by destruct t|].
  intros Hin. repeat (apply elem_of_cons in Hin as [->|Hin]; [done|]).
  by apply elem_of_nil in Hin.
Qed.

Section lifecycle.
Import KrpcTelemetryStreamFactory_ KrpcTelemetryStreamCollection_.

Lemma created_handles_ids n types :
  _stream <$> created_handles n types = seq n (length types).
Proof. revert n. induction types as [|t types IH]; intros n; simpl; by rewrite ?IH. Qed.

Lemma register_created_values n types :
  NoDup types →
  PyDict.values (_streams (register_all (created_handles n types) __init__)) =
  created_handles n types.
Proof.
  intros Hnd. rewrite register_all_fresh.
  - simpl. unfold PyDict.values. rewrite <- list_fmap_compose. apply list_fmap_id.
  - by rewrite created_handles_kinds.
  - intros k _. simpl. apply not_elem_of_nil.
Qed.

Lemma filter_members (types : list TelemetryType) :
  filter (fun k => is_member k = true) (Member <$> types) = Member <$> types.
Proof.
  induction types as [|t types IH]; [done|].
  rewrite fmap_cons, filter_cons_True by done. by rewrite IH.
Qed.
End lifecycle.

(** X10.  Set up for kinds of which none is repeated, then started, then
    destroyed: every stream the set-up added has been started and removed, the
    streams that were there before are untouched, and the only sleep is the
    two seconds of the start. *)
Theorem X_lifecycle_leaves_no_stream_behind (types : list TelemetryType)
    (self : KrpcTelemetryStreamFactory) (w : World) :
  NoDup types →
  ∃ s1 streams,
    init_streams_from_telemetry_processor types (self, w) = (s1, Ok streams) ∧
    let w2 := (KrpcTelemetryStreamCollection_.start_telemetries streams s1.2).1 in
    let w3 := (KrpcTelemetryStreamCollection_.destroy_telemetries (streams, w2)).1.2 in
    length (w_streams w3) = (length (w_streams w) + length types)%nat ∧
    (∀ i s, w_streams w !! i = Some s → w_streams w3 !! i = Some s) ∧
    (∀ i, (length (w_streams w) ≤ i < length (w_streams w) + length types)%nat →
          ∃ s, w_streams w3 !! i = Some s ∧ started s = true ∧ removed s = true) ∧
    w_slept w3 = w_slept w + 2.
Proof.
  intros Hnd. eexists _, _. split; [apply init_streams_loop_unfold|].
  set (n := length (w_streams w)).
  set (streams := register_all (created_handles n types) KrpcTelemetryStreamCollection_.__init__).
  destruct (create_all_streams (Member <$> types) self w) as (added & Hw1 & Hn1 & Hf1).
  rewrite filter_members, length_fmap in Hn1.
  set (w1 := (KrpcTelemetryStreamFactory_.create_all (Member <$> types) (self, w)).2) in *.
  cbn [fst snd].
  assert (_stream <$> PyDict.values (_streams streams) = seq n (length types)) as Hids.
  { unfold streams. by rewrite register_created_values, created_handles_ids. }
  (* start *)
  unfold KrpcTelemetryStreamCollection_.start_telemetries, mbind, Eff_bind.
  destruct (for_each_alter
              (fun s => mkStream (target s) (attribute s) (rate s) true (removed s))
              KrpcTelemetryStream_.start (PyDict.values (_streams streams)) w1)
    as (Hr2 & _ & Hs2 & _ & Hn2 & Hl2); [done|done|].
  destruct (for_each KrpcTelemetryStream_.start _ w1) as [w2 [[]|e]]; [|done].
  cbn [fst snd] in *.
  (* destroy *)
  rewrite destroy_telemetries_clears. cbn [fst snd].
  set (w2' := mkWorld (w_streams w2) (w_flights w2) (w_slept w2 + 2) (w_feed w2)).
  unfold sleep, eff_modify. cbn [fst snd]. fold w2'.
  destruct (for_each_alter
              (fun s => mkStream (target s) (attribute s) (rate s) (started s) true)
              KrpcTelemetryStream_.destroy (PyDict.values (_streams streams)) w2')
    as (_ & _ & Hs3 & _ & Hn3 & Hl3); [done|done|].
  rewrite Hids in Hl2, Hl3.
  assert (w_slept w1 = w_slept w) as Hslept.
  { unfold w1. clear. revert self w. induction types as [|t types IH]; intros self w; [done|].
    simpl. destruct (KrpcTelemetryStreamFactory_.create (Member t) (self, w)) as [[self1 w1] r] eqn:Hc.
    simpl. rewrite IH.
    assert (w_slept (KrpcTelemetryStreamFactory_.create (Member t) (self, w)).1.2 = w_slept w)
      as Hsl by (by destruct self as [r0 [o|] v], w, t).
    by rewrite Hc in Hsl. }
  split; [|split; [|split]].
  - rewrite Hn3. simpl. rewrite Hn2, Hw1, length_app, Hn1. done.
  - intros i s Hi. rewrite Hl3. simpl. rewrite Hl2, Hw1.
    rewrite lookup_app_l by (by eapply lookup_lt_Some).
    rewrite Hi. simpl.
    rewrite !bool_decide_eq_false_2; [done|..];
      rewrite elem_of_seq; apply lookup_lt_Some in Hi; fold n in Hi; lia.
  - intros i Hi. rewrite Hl3. simpl. rewrite Hl2, Hw1.
    destruct ((w_streams w ++ added) !! i) as [s|] eqn:Hs.
    2:{ apply lookup_ge_None in Hs. rewrite length_app, Hn1 in Hs. fold n in Hs, Hi. lia. }
    simpl. rewrite !bool_decide_eq_true_2 by (rewrite elem_of_seq; fold n in Hi; lia).
    by eexists.
  - rewrite Hs3. simpl. by rewrite Hs2, Hslept.
Qed.


(** ** The further properties on concrete runs *)

Lemma X_has_telemetry_after_register_witness :
  let h := mkKrpcTelemetryStream ORBITAL_SPEED 1 None in
  let self := register_all [met_handle] KrpcTelemetryStreamCollection_.__init__ in
  KrpcTelemetryStreamCollection_.has_telemetry ORBITAL_SPEED
    (KrpcTelemetryStreamCollection_.register_telemetry h self) = true ∧
  PyDict.get MET (_streams (KrpcTelemetryStreamCollection_.register_telemetry h self))
    = Some met_handle.
Proof.
  intros h self.
  destruct (X_has_telemetry_after_register h self) as (Hhas & _ & Hkeep & _).
  split; [exact Hhas|]. apply Hkeep. reflexivity.
Defined.

Lemma X_start_telemetries_effect_witness :
  let self := register_all [met_handle] KrpcTelemetryStreamCollection_.__init__ in
  let w' := (KrpcTelemetryStreamCollection_.start_telemetries self two_stream_world).1 in
  (∃ s, w_streams w' !! 0%nat = Some s ∧ started s = true) ∧
  (∃ s, w_streams w' !! 1%nat = Some s ∧ started s = false).
Proof.
  intros self w'. subst w'.
  pose proof (X_start_telemetries_effect self two_stream_world) as H. cbv zeta in H.
  destruct (KrpcTelemetryStreamCollection_.start_telemetries self two_stream_world)
    as [w' r].
  destruct H as (_ & _ & _ & _ & Hl). split.
  - destruct (Hl 0%nat met_stream eq_refl) as (s & Hs & _ & _ & _ & _ & Hst).
    exists s. split; [exact Hs|]. rewrite Hst. reflexivity.
  - destruct (Hl 1%nat speed_stream eq_refl) as (s & Hs & _ & _ & _ & _ & Hst).
    exists s. split; [exact Hs|]. rewrite Hst. reflexivity.
Defined.

Lemma X_destroy_telemetries_effect_witness :
  let self := register_all [met_handle] KrpcTelemetryStreamCollection_.__init__ in
  let w' := (KrpcTelemetryStreamCollection_.destroy_telemetries (self, two_stream_world)).1.2 in
  (∃ s, w_streams w' !! 0%nat = Some s ∧ removed s = true) ∧
  (∃ s, w_streams w' !! 1%nat = Some s ∧ removed s = false).
Proof.
  intros self w'. subst w'.
  pose proof (X_destroy_telemetries_effect self two_stream_world) as H. cbv zeta in H.
  destruct (KrpcTelemetryStreamCollection_.destroy_telemetries (self, two_stream_world))
    as [[self' w'] r].
  destruct H as (_ & _ & _ & _ & Hl). split.
  - destruct (Hl 0%nat met_stream eq_refl) as (s & Hs & _ & _ & _ & _ & Hst).
    exists s. split; [exact Hs|]. rewrite Hst. reflexivity.
  - destruct (Hl 1%nat speed_stream eq_refl) as (s & Hs & _ & _ & _ & _ & Hst).
    exists s. split; [exact Hs|]. rewrite Hst. reflexivity.
Defined.

Lemma X_collect_data_all_or_nothing_witness :
  let self := register_all [met_handle] KrpcTelemetryStreamCollection_.__init__ in
  ∃ snap, KrpcTelemetryStreamCollection_.collect_data self two_stream_world = Ok snap ∧
          snap !! MET = Some (VInt 12).
Proof.
  intros self.
  destruct (X_collect_data_all_or_nothing [met_handle] two_stream_world)
    as (Hret & _ & Hlook).
  destruct Hret as [Hret _]. destruct Hret as [snap Hsnap].
  - repeat constructor. exists (VInt 12). reflexivity.
  - exists snap. split; [exact Hsnap|]. rewrite (Hlook snap MET Hsnap). reflexivity.
Defined.

Lemma X_init_streams_witness :
  let r := init_streams_from_telemetry_processor [MET; ORBITAL_SPEED]
             (KrpcTelemetryStreamFactory_.__init__ (VInt 1), idle_world) in
  ∃ streams, r.2 = Ok streams ∧ PyDict.keys (_streams streams) = [MET; ORBITAL_SPEED].
Proof.
  intros r. subst r.
  destruct (X_init_streams [MET; ORBITAL_SPEED]
              (KrpcTelemetryStreamFactory_.__init__ (VInt 1)) idle_world)
    as (Hinit & _ & Hnd).
  rewrite Hinit. eexists. split; [reflexivity|]. apply Hnd.
  apply (bool_decide_unpack _). reflexivity.
Defined.

Lemma X_pipeline_snapshot_witness :
  let types := [MET; ORBITAL_SPEED] in
  let s := (KrpcTelemetryStreamFactory_.__init__ (VInt 1),
            constant_world (VFloat (PyFloat.literal 1299 2))) in
  let r := init_streams_from_telemetry_processor types s in
  let streams := register_all (created_handles 0 types) KrpcTelemetryStreamCollection_.__init__ in
  let snap : Snapshot := {[ MET := VInt 12; ORBITAL_SPEED := VFloat (PyFloat.literal 13 0) ]} in
  (∀ k, is_Some (snap !! k) ↔ k ∈ types) ∧
  (∀ v, snap !! MET = Some v → ∃ n, v = VInt n).
Proof.
  intros types s r streams snap.
  destruct (X_pipeline_snapshot types s r.1 streams r.1.2 snap) as (Hdom & _ & Hmet).
  - reflexivity.
  - vm_compute. reflexivity.
  - split; [exact Hdom|exact Hmet].
Defined.

Lemma X_lifecycle_leaves_no_stream_behind_witness :
  ∃ s1 streams,
    init_streams_from_telemetry_processor [MET; ORBITAL_SPEED]
      (KrpcTelemetryStreamFactory_.__init__ (VInt 1), two_stream_world) = (s1, Ok streams) ∧
    let w2 := (KrpcTelemetryStreamCollection_.start_telemetries streams s1.2).1 in
    let w3 := (KrpcTelemetryStreamCollection_.destroy_telemetries (streams, w2)).1.2 in
    length (w_streams w3) = 4%nat ∧
    w_streams w3 !! 0%nat = Some met_stream ∧
    w_slept w3 = 2.
Proof.
  destruct (X_lifecycle_leaves_no_stream_behind [MET; ORBITAL_SPEED]
              (KrpcTelemetryStreamFactory_.__init__ (VInt 1)) two_stream_world)
    as (s1 & streams & Hinit & Hlen & Hold & _ & Hslept).
  - apply (bool_decide_unpack _). reflexivity.
  - exists s1, streams. split; [exact Hinit|]. cbv zeta.
    split; [exact Hlen|]. split; [|exact Hslept]. apply Hold. reflexivity.
Defined.

Lemma X_met_handle_reads_floor_witness :
  ∃ n, read_through (Member MET) (VFloat (S754_finite false 7312719894942843 (-49)))
         = Ok (VInt n) ∧
       n * 2 ^ 49 <= 7312719894942843 < (n + 1) * 2 ^ 49.
Proof.
  destruct (X_met_handle_reads_floor false 7312719894942843 (-49) [])
    as ((n & Hread & _ & Hneg) & _).
  exists n. split; [exact Hread|]. apply Hneg. reflexivity.
Defined.

Lemma X_transforms_on_other_types_witness :
  read_through (Member MET) (VInt 42) = Ok (VInt 42).
Proof.
  destruct (X_transforms_on_other_types MET 42 []) as [_ Hint].
  apply Hint. apply elem_of_cons. left. reflexivity.
Defined.

Lemma X_accepted_mets_apart_witness :
  Sorted (apart 5) (recorded_mets 5 [0; 1; 4; 5; 6; 9; 10; 17]).
Proof.
  apply X_accepted_mets_apart. repeat constructor; discriminate.
Defined.

Lemma X_feed_at_cadence_kept_witness :
  recorded_mets 5 [0; 5; 11; 16] = [0; 5; 11; 16].
Proof.
  apply X_feed_at_cadence_kept. repeat constructor; unfold apart; lia.
Defined.

Lemma X_missing_speed_raises_keyerror_witness :
  TelemetryStrategy_.collect_data
    (TelemetryStrategyABC0 := OrbitalVelocityStrategy_.ABC (PlotBackend0 := broken_backend))
    3 ∅ (OrbitalVelocityStrategy_.__init__, mkOutside [] ()) =
  ((TelemetryStrategy_.set_lastMet 3 OrbitalVelocityStrategy_.__init__, mkOutside [] ()),
   Raise (KeyError ORBITAL_SPEED)).
Proof.
  apply (X_missing_speed_raises_keyerror (PlotBackend0 := broken_backend)); reflexivity.
Defined.

Lemma X_only_orbital_speed_is_read_witness :
  let s := (OrbitalVelocityStrategy_.__init__, mkOutside [] 0%nat) in
  TelemetryStrategy_.collect_data
    (TelemetryStrategyABC0 := OrbitalVelocityStrategy_.ABC (PlotBackend0 := counting_backend))
    0 speed_snapshot s =
  TelemetryStrategy_.collect_data
    (TelemetryStrategyABC0 := OrbitalVelocityStrategy_.ABC (PlotBackend0 := counting_backend))
    0 (<[MET := VInt 0]> speed_snapshot) s.
Proof.
  intros s. apply (X_only_orbital_speed_is_read (PlotBackend0 := counting_backend)).
  reflexivity.
Defined.

Lemma X_chart_created_once_witness :
  let s := TelemetryStrategy_.collect_all
             (TelemetryStrategyABC0 := OrbitalVelocityStrategy_.ABC (PlotBackend0 := broken_backend))
             [(0, speed_snapshot)] (OrbitalVelocityStrategy_.__init__, mkOutside [] ()) in
  (TelemetryStrategy_.collect_data
     (TelemetryStrategyABC0 := OrbitalVelocityStrategy_.ABC (PlotBackend0 := broken_backend))
     5 speed_snapshot s).2 = Raise AttributeError.
Proof.
  intros s.
  destruct (X_chart_created_once (PlotBackend0 := broken_backend) (mkOutside [] ())
              [(0, speed_snapshot)] 5 speed_snapshot) as [_ Hnone].
  - discriminate.
  - apply Hnone; reflexivity.
Defined.

Lemma X_one_print_per_row_witness :
  let snaps := [(0, speed_snapshot); (1, speed_snapshot); (5, speed_snapshot)] in
  let s := TelemetryStrategy_.collect_all
             (TelemetryStrategyABC0 := OrbitalVelocityStrategy_.ABC (PlotBackend0 := counting_backend))
             snaps (OrbitalVelocityStrategy_.__init__, mkOutside [] 0%nat) in
  length (stdout s.2) = length (pd.rows (_dataframe s.1)) ∧
  (fun p : TelemetryType * PyVal => [Some p.2]) <$> stdout s.2 =
    snd <$> pd.rows (_dataframe s.1).
Proof.
  intros snaps s.
  destruct (X_one_print_per_row (PlotBackend0 := counting_backend) 0%nat snaps)
    as (_ & Hrows & Hsame); [repeat constructor|].
  split.
  - exact (Forall2_length _ _ _ Hrows).
  - apply (Hsame pd.int64 pd.float64). repeat constructor.
Defined.

Lemma counting_backend_returns : backend_returns (PlotBackend0 := counting_backend) () nat.
Proof. repeat split; intros; simpl; by eauto. Qed.

Lemma X_working_backend_never_raises_witness :
  collect_outcomes
    (TelemetryStrategyABC0 := OrbitalVelocityStrategy_.ABC (PlotBackend0 := counting_backend))
    [(0, speed_snapshot); (1, speed_snapshot); (5, speed_snapshot)]
    (OrbitalVelocityStrategy_.__init__, mkOutside [] 0%nat)
  = [Ok (); Ok (); Ok ()].
Proof.
  destruct (X_working_backend_never_raises (PlotBackend0 := counting_backend)
              (mkOutside [] 0%nat)
              [(0, speed_snapshot); (1, speed_snapshot); (5, speed_snapshot)]) as [Hall _].
  - exact counting_backend_returns.
  - repeat constructor.
  - reflexivity.
Defined.

Lemma X_pipeline_feeds_strategy_witness :
  let s := (KrpcTelemetryStreamFactory_.__init__ (VInt 1),
            constant_world (VFloat (PyFloat.literal 1299 2))) in
  let r := init_streams_from_telemetry_processor
             (elements OrbitalVelocityStrategy_.get_telemetry_types) s in
  let streams := match r.2 with Ok c => c | Raise _ => KrpcTelemetryStreamCollection_.__init__ end in
  let snap : Snapshot := {[ MET := VInt 12; ORBITAL_SPEED := VFloat (PyFloat.literal 13 0) ]} in
  ∃ met speed,
    snap !! MET = Some (VInt met) ∧ snap !! ORBITAL_SPEED = Some speed ∧
    pd.rows (_dataframe
      (TelemetryStrategy_.collect_data
         (TelemetryStrategyABC0 := OrbitalVelocityStrategy_.ABC (PlotBackend0 := broken_backend))
         met snap (OrbitalVelocityStrategy_.__init__, mkOutside [] ())).1.1)
    = [(VInt met, [Some speed])].
Proof.
  intros s r streams snap.
  destruct (X_pipeline_feeds_strategy (PlotBackend0 := broken_backend)
              s r.1 streams r.1.2 snap (mkOutside [] ()))
    as (met & speed & Hmet & Hspeed & _ & Hrows & _).
  - vm_compute. reflexivity.
  - vm_compute. reflexivity.
  - exists met, speed. split; [exact Hmet|]. split; [exact Hspeed|exact Hrows].
Defined.
